(** * CodementorX chat client: transport wrapper and chat reducer

    A shallow embedding of [frontend/src/api/ChatbotClient.js] (the axios
    instance with its two interceptors, the rate-limit tracker, the retry
    loop and the error taxonomy of [chatbotAPI.sendMessage]) and of
    [frontend/src/context/ChatContext.jsx] (the chat reducer, the health
    poll and the [sendMessage] action creator).  The second half of the
    file covers the other endpoints of [chatbotAPI], the helpers of the
    provider, and two components that hold logic of their own: the chat
    box (ChatBox.jsx: the parts of a message, the submit handler) and
    the sidebar (Sidebar.jsx: the filtered list).

    Conventions of the embedding:
    - a JavaScript number is a [Z] (only integers occur: clock readings in
      milliseconds, HTTP status codes, lengths, counters);
    - a JavaScript string is a [string]; one character stands for one
      UTF-16 code unit below 256;
    - [Date.now()] is the [now] field of the world, and
      [new Date().toISOString()] is kept as that reading;
    - a rejected promise or a [throw] is the [Throw] result of the monad
      [M]; awaiting a promise is sequencing in [M];
    - the network and the backend are a function from the number of
      requests sent so far to the answer the next request gets. *)

From Stdlib Require Import ZArith List String Ascii Bool Lia DecimalString.
From Stdlib Require Import Permutation Sorted.
Import ListNotations.

Local Open Scope string_scope.
Local Open Scope list_scope.
Local Open Scope Z_scope.

Notation "a +++ b" := (String.append a b) (at level 60, right associativity).

(* ------------------------------------------------------------------ *)
(** ** JavaScript values *)

Module Js.

(** The values that cross the boundaries modelled here. *)
Inductive value : Type :=
| Undefined
| Null
| Bool (b : bool)
| Num (n : Z)
| Str (s : string)
| Obj (ref : nat).

(** [!!v] *)
Definition truthy (v : value) : bool :=
  match v with
  | Undefined | Null => false
  | Bool b => b
  | Num n => negb (n =? 0)
  | Str s => negb (String.eqb s "")
  | Obj _ => true
  end.

(** [typeof v === 'string'] *)
Definition isString (v : value) : bool :=
  match v with Str _ => true | _ => false end.

(** [a === b] *)
Definition strictEq (a b : value) : bool :=
  match a, b with
  | Undefined, Undefined => true
  | Null, Null => true
  | Bool x, Bool y => Bool.eqb x y
  | Num x, Num y => x =? y
  | Str x, Str y => String.eqb x y
  | Obj x, Obj y => Nat.eqb x y
  | _, _ => false
  end.

(** [a || b] *)
Definition or (a b : value) : value := if truthy a then a else b.

(** [s.length] *)
Definition length (s : string) : Z := Z.of_nat (String.length s).

(** ECMAScript WhiteSpace and LineTerminator code units below 256:
    TAB, LF, VT, FF, CR, SP and NBSP. *)
Definition isWhiteSpace (c : ascii) : bool :=
  let n := N_of_ascii c in
  ((9 <=? n) && (n <=? 13) || (n =? 32) || (n =? 160))%N.

Fixpoint trimStart (s : string) : string :=
  match s with
  | EmptyString => EmptyString
  | String c rest => if isWhiteSpace c then trimStart rest else s
  end.

Fixpoint trimEnd (s : string) : string :=
  match s with
  | EmptyString => EmptyString
  | String c rest =>
      match trimEnd rest with
      | EmptyString => if isWhiteSpace c then EmptyString else String c EmptyString
      | kept => String c kept
      end
  end.

(** [s.trim()] *)
Definition trim (s : string) : string := trimEnd (trimStart s).

(** [s.slice(0, n)] for a literal [n >= 0] *)
Definition slice0 (n : nat) (s : string) : string := substring 0 n s.

(** Every character of [s] is white space. *)
Fixpoint allWhiteSpace (s : string) : bool :=
  match s with
  | EmptyString => true
  | String c rest => isWhiteSpace c && allWhiteSpace rest
  end.

(** [c] repeated [n] times. *)
Fixpoint replicate (n : nat) (c : ascii) : string :=
  match n with
  | O => EmptyString
  | S k => String c (replicate k c)
  end.

End Js.

(* ------------------------------------------------------------------ *)
(** ** The rate-limit tracker (ChatbotClient.js, [rateLimitTracker]) *)

Module RateLimit.

Record tracker : Type := {
  requests : list Z;
  maxPerMinute : Z
}.

(** The module-level object as the file creates it. *)
Definition rateLimitTracker : tracker :=
  {| requests := []; maxPerMinute := 100 |}.

(** [canMakeRequest()] read at clock [now]: the answer and the pruned
    tracker ([this.requests] is reassigned). *)
Definition canMakeRequest (now : Z) (t : tracker) : bool * tracker :=
  let oneMinuteAgo := now - 60000 in
  let t' := {| requests := filter (fun timestamp => timestamp >? oneMinuteAgo) (requests t);
               maxPerMinute := maxPerMinute t |} in
  (Z.of_nat (List.length (requests t')) <? maxPerMinute t', t').

(** [recordRequest()] read at clock [now]. *)
Definition recordRequest (now : Z) (t : tracker) : tracker :=
  {| requests := requests t ++ [now]; maxPerMinute := maxPerMinute t |}.

(** The timestamps of [t] that lie in the 60 seconds before [now]. *)
Definition window (now : Z) (t : tracker) : list Z :=
  filter (fun timestamp => timestamp >? now - 60000) (requests t).

(** One check-then-record operation, as the request interceptor performs
    it: the request is recorded only when the check succeeds.  The two
    clock readings are separate calls of [Date.now()]. *)
Definition checkThenRecord (times : Z * Z) (t : tracker) : bool * tracker :=
  let (ok, t') := canMakeRequest (fst times) t in
  if ok then (true, recordRequest (snd times) t') else (false, t').

(** A sequence of such operations, oldest first. *)
Fixpoint operate (ops : list (Z * Z)) (t : tracker) : tracker :=
  match ops with
  | [] => t
  | times :: rest => operate rest (snd (checkThenRecord times t))
  end.

(** The invariant: no more timestamps than the ceiling allows. *)
Definition within (t : tracker) : Prop :=
  Z.of_nat (List.length (requests t)) <= maxPerMinute t.

End RateLimit.

(* ------------------------------------------------------------------ *)
(** ** What travels on the wire (snake_case field names) *)

Module Wire.

(** One entry of a 422 response's [detail] array. *)
Record FieldError : Type := {
  loc : option (list string);
  msg : string
}.

(** [data.detail]: absent, a text, or an array of field errors. *)
Inductive Detail : Type :=
| NoDetail
| TextDetail (s : string)
| ListDetail (errs : list FieldError).

(** [response.data], a JSON object; a missing field is [Js.Undefined] or
    [None]. *)
Record Data : Type := {
  reply : Js.value;
  conversation_id : Js.value;
  message_id : Js.value;
  intent : Js.value;
  processing_time : Js.value;
  metadata : Js.value;
  error : option string;
  detail : Detail;
  message : option string;
  retry_after : option Z
}.

(** An HTTP response.  [retry_after_header] is the number [parseInt] reads
    from [headers['retry-after']] when the header is present. *)
Record Response : Type := {
  status : Z;
  data : Data;
  retry_after_header : option Z
}.

(** The body of a POST to [/chat/]. *)
Record Payload : Type := {
  content : string;
  payload_metadata : list (string * Js.value);
  payload_conversation_id : option Js.value;
  payload_intent : option Js.value
}.

(** How the network answers one request. *)
Inductive Outcome : Type :=
| Replied (r : Response)
| TimedOut
| Unreachable.

Record Exchange : Type := {
  elapsed : Z;
  outcome : Outcome
}.

(** The backend and the network between: the answer to the k-th request
    the browser puts on the wire, counted from 0. *)
Definition Server : Type := nat -> Exchange.

End Wire.

(* ------------------------------------------------------------------ *)
(** ** The transport wrapper (ChatbotClient.js) *)

Module Client.
Import RateLimit.

(** *** Configuration *)

Record RetryConfig : Type := {
  maxRetries : Z;
  retryDelay : Z;
  backoffMultiplier : Z
}.

Definition RETRY_CONFIG : RetryConfig :=
  {| maxRetries := 3; retryDelay := 1000; backoffMultiplier := 2 |}.

(** [ENDPOINTS] *)
Definition CHAT : string := "/chat/".
Definition STATUS : string := "/chat/status".

(** The [timeout] of [chatbotClient] and of the status client of
    [getStatus], in milliseconds. *)
Definition chatbotTimeout : Z := 30000.
Definition statusTimeout : Z := 10000.

(** *** Requests and errors *)

(** An axios request configuration.  The bearer token and the
    [X-Request-ID] header the request interceptor attaches are not kept:
    nothing below reads them.  [_retryCount] is [None] while the property
    is [undefined]. *)
Record RequestConfig : Type := {
  method : string;
  url : string;
  payload : option Wire.Payload;
  _retryCount : option Z
}.

(** The [details] of a [ChatbotError]. *)
Inductive Details : Type :=
| NoDetails
| RetryAfter (seconds : Z)
| Validation (d : Wire.Detail).

(** What can be thrown: an axios error ([message], [code], [config],
    [response]), a [ChatbotError] ([message], [code], [details]), a plain
    [Error] and a [TypeError]. *)
Inductive Thrown : Type :=
| AxiosError (message : string) (code : option string)
             (config : option RequestConfig) (response : option Wire.Response)
| ChatbotError (message : string) (code : string) (details : Details)
| JsError (message : string)
| TypeError (message : string).

(** [error.response], [error.config], [error.code], [error.message] *)
Definition response_of (error : Thrown) : option Wire.Response :=
  match error with AxiosError _ _ _ r => r | _ => None end.

Definition config_of (error : Thrown) : option RequestConfig :=
  match error with AxiosError _ _ c _ => c | _ => None end.

Definition code_of (error : Thrown) : option string :=
  match error with
  | AxiosError _ c _ _ => c
  | ChatbotError _ c _ => Some c
  | _ => None
  end.

Definition message_of (error : Thrown) : string :=
  match error with
  | AxiosError m _ _ _ | ChatbotError m _ _ | JsError m | TypeError m => m
  end.

(** [error.response?.status] *)
Definition status_of (error : Thrown) : option Z :=
  option_map Wire.status (response_of error).

(** [error.response?.data] *)
Definition data_of (error : Thrown) : option Wire.Data :=
  option_map Wire.data (response_of error).

(** Comparisons of a possibly undefined number: with [undefined] every
    one of [===], [>=] and [<] is false. *)
Definition isNum (v : option Z) (n : Z) : bool :=
  match v with Some x => x =? n | None => false end.

Definition geNum (v : option Z) (n : Z) : bool :=
  match v with Some x => x >=? n | None => false end.

Definition ltNum (v : option Z) (n : Z) : bool :=
  match v with Some x => x <? n | None => false end.

(** [v !== n]: true for [undefined]. *)
Definition neNum (v : option Z) (n : Z) : bool := negb (isNum v n).

(** [error.code === c] *)
Definition codeIs (error : Thrown) (c : string) : bool :=
  match code_of error with Some x => String.eqb x c | None => false end.

(** [!v] for an optional number. *)
Definition noNum (v : option Z) : bool :=
  match v with Some n => n =? 0 | None => true end.

(** [a || b] where [a] is an optional text, or a text. *)
Definition textOr (a : option string) (b : string) : string :=
  match a with Some s => if String.eqb s "" then b else s | None => b end.

Definition strOr (a b : string) : string := if String.eqb a "" then b else a.

(** The decimal numeral of a number, as a template literal prints it. *)
Definition numeral (n : Z) : string := NilZero.string_of_int (Z.to_int n).

(** [xs.join(sep)] *)
Definition join (sep : string) (xs : list string) : string := String.concat sep xs.

(** [!!detail] and [String(detail)] for a [detail] field: an array is
    truthy even when empty, and prints its objects as [[object Object]]. *)
Definition detailTruthy (d : Wire.Detail) : bool :=
  match d with
  | Wire.NoDetail => false
  | Wire.TextDetail s => negb (String.eqb s "")
  | Wire.ListDetail _ => true
  end.

Definition detailText (d : Wire.Detail) : string :=
  match d with
  | Wire.NoDetail => ""
  | Wire.TextDetail s => s
  | Wire.ListDetail errs => join "," (map (fun _ => "[object Object]") errs)
  end.

(** [error.response?.data?.detail] *)
Definition detail_of (error : Thrown) : Wire.Detail :=
  match data_of error with Some d => Wire.detail d | None => Wire.NoDetail end.

(** [error.response?.data?.error] and [...?.message] *)
Definition dataError_of (error : Thrown) : option string :=
  match data_of error with Some d => Wire.error d | None => None end.

Definition dataMessage_of (error : Thrown) : option string :=
  match data_of error with Some d => Wire.message d | None => None end.

(** *** The world the client runs in *)

(** A line written to the console by code that runs in every build (the
    lines guarded by [import.meta.env.DEV] are left out). *)
Inductive LogLine : Type :=
| Retrying (count max delay : Z)
| Warn (text detail : string).

Record World : Type := {
  now : Z;                        (* Date.now() *)
  tracker : RateLimit.tracker;    (* the module-level rateLimitTracker *)
  calls : list RequestConfig;     (* requests put on the wire, oldest first *)
  delays : list Z;                (* setTimeout delays awaited, oldest first *)
  console : list LogLine          (* console output, oldest first *)
}.

(** The result of running a promise-returning function: fulfilled,
    rejected, or not yet settled when the fuel of the retry loop ran out. *)
Inductive Result (A : Type) : Type :=
| Ok (a : A)
| Throw (e : Thrown)
| Pending.

Arguments Ok {A} a.
Arguments Throw {A} e.
Arguments Pending {A}.

Definition M (A : Type) : Type := World -> Result A * World.

Definition ret {A} (a : A) : M A := fun w => (Ok a, w).

Definition throw {A} (e : Thrown) : M A := fun w => (Throw e, w).

Definition bind {A B} (m : M A) (k : A -> M B) : M B :=
  fun w =>
    match m w with
    | (Ok a, w') => k a w'
    | (Throw e, w') => (Throw e, w')
    | (Pending, w') => (Pending, w')
    end.

(** [try { m } catch (error) { handler }] *)
Definition tryCatch {A} (m : M A) (handler : Thrown -> M A) : M A :=
  fun w =>
    match m w with
    | (Throw e, w') => handler e w'
    | settled => settled
    end.

Notation "x <- m ;; k" := (bind m (fun x => k))
  (at level 61, m at next level, right associativity).
Notation "m ;; k" := (bind m (fun _ => k))
  (at level 61, right associativity).

(** [Date.now()] *)
Definition clock : M Z := fun w => (Ok (now w), w).

(** [await new Promise(resolve => setTimeout(resolve, delay))] *)
Definition sleep (delay : Z) : M unit :=
  fun w => (Ok tt, {| now := now w + delay; tracker := tracker w; calls := calls w;
                      delays := delays w ++ [delay]; console := console w |}).

(** [console.log] / [console.warn] *)
Definition log (line : LogLine) : M unit :=
  fun w => (Ok tt, {| now := now w; tracker := tracker w; calls := calls w;
                      delays := delays w; console := console w ++ [line] |}).

Definition setTracker (t : RateLimit.tracker) (w : World) : World :=
  {| now := now w; tracker := t; calls := calls w; delays := delays w;
     console := console w |}.

(** The world after [config] went on the wire and [elapsed] ms passed. *)
Definition afterCall (config : RequestConfig) (elapsed : Z) (w : World) : World :=
  {| now := now w + elapsed; tracker := tracker w; calls := calls w ++ [config];
     delays := delays w; console := console w |}.

(** *** The axios instance and its interceptors *)

Section Chain.

Variable server : Wire.Server.

(** The [code] axios gives the error of a response outside 2xx. *)
Definition badStatusCode (status : Z) : option string :=
  if (400 <=? status) && (status <? 500) then Some "ERR_BAD_REQUEST"
  else if (500 <=? status) && (status <? 600) then Some "ERR_BAD_RESPONSE"
  else None.

(** The adapter: [config] goes on the wire and the promise settles with
    the k-th answer of [server].  A response outside 2xx rejects
    (axios's default [validateStatus]); so do a timeout, with code
    [ECONNABORTED], and a connection failure; each error carries
    [config]. *)
Definition dispatchRequest (timeout : Z) (config : RequestConfig) : M Wire.Response :=
  fun w =>
    let exchange := server (List.length (calls w)) in
    match Wire.outcome exchange with
    | Wire.Replied r =>
        let w' := afterCall config (Wire.elapsed exchange) w in
        if (200 <=? Wire.status r) && (Wire.status r <? 300) then (Ok r, w')
        else (Throw (AxiosError ("Request failed with status code " +++ numeral (Wire.status r))
                                (badStatusCode (Wire.status r)) (Some config) (Some r)), w')
    | Wire.TimedOut =>
        (Throw (AxiosError ("timeout of " +++ numeral timeout +++ "ms exceeded")
                           (Some "ECONNABORTED") (Some config) None),
         afterCall config timeout w)
    | Wire.Unreachable =>
        (Throw (AxiosError "Network Error" (Some "ERR_NETWORK") (Some config) None),
         afterCall config (Wire.elapsed exchange) w)
    end.

(** The request interceptor: the local rate window is checked, and the
    request recorded, before anything is sent. *)
Definition requestFulfilled (config : RequestConfig) : M RequestConfig :=
  fun w =>
    let (ok, t) := canMakeRequest (now w) (tracker w) in
    if negb ok
    then (Throw (JsError "Rate limit exceeded. Please slow down your requests."),
          setTracker t w)
    else (Ok config, setTracker (recordRequest (now w) t) w).

Definition shouldRetry (error : Thrown) : bool :=
  if geNum (status_of error) 400 && ltNum (status_of error) 500
     && neNum (status_of error) 429
  then false
  else
    match response_of error with
    | None => true
    | Some r => codeIs error "ECONNABORTED" || (Wire.status r >=? 500)
    end.

(** [headers['retry-after'] || data?.retry_after || 60], through
    [parseInt]. *)
Definition retryAfterOf (r : Wire.Response) : Z :=
  match Wire.retry_after_header r with
  | Some seconds => seconds
  | None => if noNum (Wire.retry_after (Wire.data r)) then 60
            else match Wire.retry_after (Wire.data r) with Some n => n | None => 60 end
  end.

(** [error.response?.data?.detail || []] *)
Definition validationDetailsOf (error : Thrown) : Wire.Detail :=
  if detailTruthy (detail_of error) then detail_of error else Wire.ListDetail [].

Definition locText (err : Wire.FieldError) : string :=
  match Wire.loc err with Some path => join "." path | None => "undefined" end.

Definition validationMessage (validationDetails : Wire.Detail) : string :=
  match validationDetails with
  | Wire.ListDetail (_ :: _ as errs) =>
      "Validation failed: "
        +++ join "; " (map (fun err => locText err +++ " - " +++ Wire.msg err) errs)
  | _ => "Invalid request data"
  end.

Definition setRetryCount (n : Z) (c : RequestConfig) : RequestConfig :=
  {| method := method c; url := url c; payload := payload c; _retryCount := Some n |}.

(** [originalRequest] and [error.config] are one object: the error thrown
    after the counter was touched carries the updated configuration. *)
Definition withConfig (error : Thrown) (c : RequestConfig) : Thrown :=
  match error with
  | AxiosError m code _ r => AxiosError m code (Some c) r
  | other => other
  end.

Definition undefinedRetryCount : Thrown :=
  TypeError "Cannot read properties of undefined (reading '_retryCount')".

(** The rejection handler of the response interceptor.  [retry] stands
    for [chatbotClient], called again on the original request. *)
Definition responseRejected (retry : RequestConfig -> M Wire.Response)
    (error : Thrown) : M Wire.Response :=
  let originalRequest := config_of error in
  if isNum (status_of error) 401 then throw error
  else if isNum (status_of error) 429 then
    match response_of error with
    | Some r =>
        throw (ChatbotError "Rate limit exceeded. Please wait before sending more messages."
                            "RATE_LIMITED" (RetryAfter (retryAfterOf r)))
    | None => throw error
    end
  else if isNum (status_of error) 422 then
    let validationDetails := validationDetailsOf error in
    throw (ChatbotError (validationMessage validationDetails) "VALIDATION_ERROR"
                        (Validation validationDetails))
  else
    (* Retry logic *)
    originalRequest <-
      (if shouldRetry error then
         match originalRequest with
         | None => throw undefinedRetryCount
         | Some request =>
             if noNum (_retryCount request)
             then ret (Some (setRetryCount 0 request))
             else ret (Some request)
         end
       else ret originalRequest) ;;
    if shouldRetry error then
      match originalRequest with
      | None => throw undefinedRetryCount
      | Some request =>
          if ltNum (_retryCount request) (maxRetries RETRY_CONFIG) then
            let count := match _retryCount request with Some n => n + 1 | None => 0 end in
            let request := setRetryCount count request in
            let delay := retryDelay RETRY_CONFIG
                         * backoffMultiplier RETRY_CONFIG ^ (count - 1) in
            log (Retrying count (maxRetries RETRY_CONFIG) delay) ;;
            sleep delay ;;
            retry request
          else throw (withConfig error request)
      end
    else throw error.

(** [chatbotClient(config)]: the promise chain of the axios instance.  A
    rejection of the request interceptor travels down the same chain, so
    the rejection handler of the response interceptor sees it as well.
    The success handler of the response interceptor returns the response
    as it is.  [fuel] bounds the nesting of retries. *)
Fixpoint chatbotClientWithin (fuel : nat) (config : RequestConfig) : M Wire.Response :=
  match fuel with
  | O => fun w => (Pending, w)
  | S fuel' =>
      tryCatch
        (config' <- requestFulfilled config ;;
         dispatchRequest chatbotTimeout config')
        (responseRejected (chatbotClientWithin fuel'))
  end.

(** One request and at most [maxRetries] retries. *)
Definition retryFuel : nat := S (Z.to_nat (maxRetries RETRY_CONFIG)).

Definition chatbotClient (config : RequestConfig) : M Wire.Response :=
  chatbotClientWithin retryFuel config.

(** [chatbotClient.post(url, data)] *)
Definition post (url : string) (data : Wire.Payload) : M Wire.Response :=
  chatbotClient {| method := "post"; url := url; payload := Some data;
                   _retryCount := None |}.

(** *** [chatbotAPI] *)

(** The [data] of a successful [sendMessage] (camelCase field names). *)
Record ReplyData : Type := {
  reply : Js.value;
  conversationId : Js.value;
  messageId : Js.value;
  intent : Js.value;
  processingTime : Js.value;
  metadata : Js.value;
  timestamp : Z
}.

(** [{ success: true, data }] *)
Record Reply : Type := {
  success : bool;
  data : ReplyData
}.

(** The text of a value known to be a string. *)
Definition text (v : Js.value) : string :=
  match v with Js.Str s => s | _ => "" end.

(** [x !== null && x !== undefined] *)
Definition present (v : Js.value) : bool :=
  match v with Js.Null | Js.Undefined => false | _ => true end.

(** [data.metadata || {}]: the object of the response, or a fresh empty
    one. *)
Definition emptyObject : Js.value := Js.Obj 0.

(** [err.loc?.join('.') || 'unknown'] *)
Definition fieldText (err : Wire.FieldError) : string :=
  match Wire.loc err with
  | Some path => if String.eqb (join "." path) "" then "unknown" else join "." path
  | None => "unknown"
  end.

(** The [catch] block of [sendMessage]: every error that is not yet a
    [ChatbotError] is given its place in the taxonomy. *)
Definition classify (error : Thrown) : Thrown :=
  match error with
  | ChatbotError _ _ _ => error
  | _ =>
    if isNum (status_of error) 401 then
      let detail := if detailTruthy (detail_of error) then detailText (detail_of error)
                    else "Authentication required" in
      ChatbotError detail "UNAUTHORIZED" NoDetails
    else if isNum (status_of error) 422 then
      let detail := detail_of error in
      let message :=
        match detail with
        | Wire.ListDetail errs =>
            "Validation failed - "
              +++ join ", " (map (fun err => fieldText err +++ ": " +++ Wire.msg err) errs)
        | Wire.TextDetail s => s
        | Wire.NoDetail => "Invalid request format"
        end in
      ChatbotError message "VALIDATION_ERROR" (Validation detail)
    else if isNum (status_of error) 429 then
      let retryAfter :=
        match data_of error with
        | Some d => if noNum (Wire.retry_after d) then 60
                    else match Wire.retry_after d with Some n => n | None => 60 end
        | None => 60
        end in
      let message := textOr (dataMessage_of error)
                       "Too many requests. Please wait before sending more messages." in
      ChatbotError message "RATE_LIMITED" (RetryAfter retryAfter)
    else if geNum (status_of error) 500 then
      let errorMessage := textOr (dataError_of error)
                            "Chatbot service temporarily unavailable" in
      ChatbotError (errorMessage +++ ". Please try again.") "SERVICE_ERROR" NoDetails
    else if codeIs error "ECONNABORTED" then
      ChatbotError "Request timed out. The AI is taking too long to respond." "TIMEOUT"
                   NoDetails
    else
      match response_of error with
      | None =>
          ChatbotError "Unable to connect to chatbot service. Check your internet connection."
                       "NETWORK_ERROR" NoDetails
      | Some _ =>
          let errorMessage :=
            textOr (dataError_of error)
              (if detailTruthy (detail_of error) then detailText (detail_of error)
               else textOr (dataMessage_of error)
                      (strOr (message_of error) "An unexpected error occurred")) in
          ChatbotError errorMessage "UNKNOWN_ERROR" NoDetails
      end
  end.

(** [chatbotAPI.sendMessage({ content, conversationId, intent, metadata })] *)
Definition sendMessage (content conversationId intent : Js.value)
    (metadata : list (string * Js.value)) : M Reply :=
  tryCatch
    ((* Validate input *)
     if negb (Js.truthy content) || negb (Js.isString content)
        || (Js.length (Js.trim (text content)) =? 0)
     then throw (ChatbotError "Message content cannot be empty" "INVALID_INPUT" NoDetails)
     else if Js.length (text content) >? 4000
     then throw (ChatbotError "Message too long. Please limit to 4000 characters."
                              "MESSAGE_TOO_LONG" NoDetails)
     else
       let payload :=
         {| Wire.content := Js.trim (text content);
            Wire.payload_metadata := ("source", Js.Str "web_app") :: metadata;
            Wire.payload_conversation_id :=
              if present conversationId then Some conversationId else None;
            Wire.payload_intent := if Js.truthy intent then Some intent else None |} in
       response <- post CHAT payload ;;
       let data := Wire.data response in
       if negb (Js.truthy (Wire.reply data))
       then throw (ChatbotError "Invalid response from chatbot service" "INVALID_RESPONSE"
                                NoDetails)
       else
         timestamp <- clock ;;
         ret {| success := true;
                data := {| reply := Wire.reply data;
                           conversationId := Wire.conversation_id data;
                           messageId := Wire.message_id data;
                           intent := Wire.intent data;
                           processingTime := Wire.processing_time data;
                           metadata := Js.or (Wire.metadata data) emptyObject;
                           timestamp := timestamp |} |})
    (fun error => throw (classify error)).

(** What [getStatus] returns: [{ success: true, data }] or
    [{ success: false, error, status }]. *)
Inductive StatusResult : Type :=
| StatusOk (data : Wire.Data)
| StatusFailed (error : string) (status : Js.value).

Definition succeeded (result : StatusResult) : bool :=
  match result with StatusOk _ => true | StatusFailed _ _ => false end.

(** [chatbotAPI.getStatus()]: a client of its own, created by
    [axios.create] with a 10 second timeout and no interceptor. *)
Definition getStatus : M StatusResult :=
  tryCatch
    (response <- dispatchRequest statusTimeout
                   {| method := "get"; url := STATUS; payload := None;
                      _retryCount := None |} ;;
     ret (StatusOk (Wire.data response)))
    (fun error =>
       ret (StatusFailed
              (textOr (dataError_of error)
                 (strOr (message_of error) "Status check failed"))
              (match status_of error with
               | Some n => if n =? 0 then Js.Str "network_error" else Js.Num n
               | None => Js.Str "network_error"
               end))).

End Chain.

End Client.

(* ------------------------------------------------------------------ *)
(** ** The chat state store (ChatContext.jsx) *)

Module Chat.

(** [CHAT_ACTIONS] *)
Definition SEND_MESSAGE_START : string := "SEND_MESSAGE_START".
Definition SEND_MESSAGE_SUCCESS : string := "SEND_MESSAGE_SUCCESS".
Definition SEND_MESSAGE_FAILURE : string := "SEND_MESSAGE_FAILURE".
Definition SET_ACTIVE_CONVERSATION : string := "SET_ACTIVE_CONVERSATION".
Definition LOAD_CONVERSATIONS : string := "LOAD_CONVERSATIONS".
Definition CREATE_CONVERSATION : string := "CREATE_CONVERSATION".
Definition DELETE_CONVERSATION : string := "DELETE_CONVERSATION".
Definition SET_INPUT_VALUE : string := "SET_INPUT_VALUE".
Definition SET_TYPING_INDICATOR : string := "SET_TYPING_INDICATOR".
Definition CLEAR_ERRORS : string := "CLEAR_ERRORS".
Definition SET_SERVICE_STATUS : string := "SET_SERVICE_STATUS".
Definition UPDATE_RATE_LIMIT : string := "UPDATE_RATE_LIMIT".

Definition CHAT_ACTIONS : list string :=
  [SEND_MESSAGE_START; SEND_MESSAGE_SUCCESS; SEND_MESSAGE_FAILURE;
   SET_ACTIVE_CONVERSATION; LOAD_CONVERSATIONS; CREATE_CONVERSATION;
   DELETE_CONVERSATION; SET_INPUT_VALUE; SET_TYPING_INDICATOR; CLEAR_ERRORS;
   SET_SERVICE_STATUS; UPDATE_RATE_LIMIT].

(** [MESSAGE_TYPES] *)
Inductive MessageType : Type := USER | ASSISTANT | SYSTEM | ERROR.

(** [CONVERSATION_STATUS] *)
Inductive ConversationStatus : Type := ACTIVE | ARCHIVED | DELETED.

(** The values of [serviceStatus]. *)
Inductive ServiceStatus : Type := unknown | healthy | degraded | down.

(** [CHAT_INTENTS] (ChatbotClient.js) *)
Definition GENERAL : string := "general".
Definition CODING : string := "coding".
Definition TRANSLATION : string := "translation".

(** A message of the list.  A field an object does not have is
    [Js.Undefined]. *)
Module Msg.
Record t : Type := {
  id : Js.value;
  tempId : Js.value;
  type : MessageType;
  content : Js.value;
  timestamp : Z;
  isTemporary : Js.value;
  intent : Js.value;
  metadata : Js.value;
  conversationId : Js.value;
  processingTime : Js.value
}.

(** [{ ...m, isTemporary: v }] *)
Definition withIsTemporary (v : Js.value) (m : t) : t :=
  {| id := id m; tempId := tempId m; type := type m; content := content m;
     timestamp := timestamp m; isTemporary := v; intent := intent m;
     metadata := metadata m; conversationId := conversationId m;
     processingTime := processingTime m |}.
End Msg.

(** An entry of the conversation list. *)
Module Conv.
Record t : Type := {
  id : Js.value;
  title : string;
  status : ConversationStatus;
  created_at : Z;
  updated_at : Z;
  message_count : Z;
  last_message : string
}.
End Conv.

Record RateLimitInfo : Type := {
  remaining : Z;
  resetTime : Z;
  maxPerMinute : Z
}.

Record LastError : Type := {
  lastType : string;
  lastMessage : string;
  lastTimestamp : Z;
  lastDetails : Client.Details
}.

Record State : Type := {
  activeConversation : Js.value;
  messages : list Msg.t;
  conversations : list Conv.t;
  inputValue : string;
  isTyping : bool;
  isSending : bool;
  serviceStatus : ServiceStatus;
  lastHealthCheck : option Z;
  rateLimitInfo : RateLimitInfo;
  error : option string;
  lastError : option LastError
}.

(** [initialState], built when the module is loaded at clock [loaded]. *)
Definition initialState (loaded : Z) : State :=
  {| activeConversation := Js.Null;
     messages := [];
     conversations := [];
     inputValue := "";
     isTyping := false;
     isSending := false;
     serviceStatus := unknown;
     lastHealthCheck := None;
     rateLimitInfo := {| remaining := 100; resetTime := loaded + 60000;
                         maxPerMinute := 100 |};
     error := None;
     lastError := None |}.

(** [{ ...state, field: v }], one definition per field the reducer
    writes. *)
Definition withActiveConversation (v : Js.value) (s : State) : State :=
  {| activeConversation := v; messages := messages s; conversations := conversations s;
     inputValue := inputValue s; isTyping := isTyping s; isSending := isSending s;
     serviceStatus := serviceStatus s; lastHealthCheck := lastHealthCheck s;
     rateLimitInfo := rateLimitInfo s; error := error s; lastError := lastError s |}.

Definition withMessages (v : list Msg.t) (s : State) : State :=
  {| activeConversation := activeConversation s; messages := v;
     conversations := conversations s;
     inputValue := inputValue s; isTyping := isTyping s; isSending := isSending s;
     serviceStatus := serviceStatus s; lastHealthCheck := lastHealthCheck s;
     rateLimitInfo := rateLimitInfo s; error := error s; lastError := lastError s |}.

Definition withConversations (v : list Conv.t) (s : State) : State :=
  {| activeConversation := activeConversation s; messages := messages s;
     conversations := v;
     inputValue := inputValue s; isTyping := isTyping s; isSending := isSending s;
     serviceStatus := serviceStatus s; lastHealthCheck := lastHealthCheck s;
     rateLimitInfo := rateLimitInfo s; error := error s; lastError := lastError s |}.

Definition withInputValue (v : string) (s : State) : State :=
  {| activeConversation := activeConversation s; messages := messages s;
     conversations := conversations s;
     inputValue := v; isTyping := isTyping s; isSending := isSending s;
     serviceStatus := serviceStatus s; lastHealthCheck := lastHealthCheck s;
     rateLimitInfo := rateLimitInfo s; error := error s; lastError := lastError s |}.

Definition withIsTyping (v : bool) (s : State) : State :=
  {| activeConversation := activeConversation s; messages := messages s;
     conversations := conversations s;
     inputValue := inputValue s; isTyping := v; isSending := isSending s;
     serviceStatus := serviceStatus s; lastHealthCheck := lastHealthCheck s;
     rateLimitInfo := rateLimitInfo s; error := error s; lastError := lastError s |}.

Definition withIsSending (v : bool) (s : State) : State :=
  {| activeConversation := activeConversation s; messages := messages s;
     conversations := conversations s;
     inputValue := inputValue s; isTyping := isTyping s; isSending := v;
     serviceStatus := serviceStatus s; lastHealthCheck := lastHealthCheck s;
     rateLimitInfo := rateLimitInfo s; error := error s; lastError := lastError s |}.

Definition withServiceStatus (v : ServiceStatus) (checked : option Z) (s : State) : State :=
  {| activeConversation := activeConversation s; messages := messages s;
     conversations := conversations s;
     inputValue := inputValue s; isTyping := isTyping s; isSending := isSending s;
     serviceStatus := v; lastHealthCheck := checked;
     rateLimitInfo := rateLimitInfo s; error := error s; lastError := lastError s |}.

Definition withRateLimitInfo (v : RateLimitInfo) (s : State) : State :=
  {| activeConversation := activeConversation s; messages := messages s;
     conversations := conversations s;
     inputValue := inputValue s; isTyping := isTyping s; isSending := isSending s;
     serviceStatus := serviceStatus s; lastHealthCheck := lastHealthCheck s;
     rateLimitInfo := v; error := error s; lastError := lastError s |}.

Definition withError (v : option string) (s : State) : State :=
  {| activeConversation := activeConversation s; messages := messages s;
     conversations := conversations s;
     inputValue := inputValue s; isTyping := isTyping s; isSending := isSending s;
     serviceStatus := serviceStatus s; lastHealthCheck := lastHealthCheck s;
     rateLimitInfo := rateLimitInfo s; error := v; lastError := lastError s |}.

Definition withLastError (v : option LastError) (s : State) : State :=
  {| activeConversation := activeConversation s; messages := messages s;
     conversations := conversations s;
     inputValue := inputValue s; isTyping := isTyping s; isSending := isSending s;
     serviceStatus := serviceStatus s; lastHealthCheck := lastHealthCheck s;
     rateLimitInfo := rateLimitInfo s; error := error s; lastError := v |}.

(** The payloads the action creators of the file build; [NoPayload] is an
    action without a [payload] property. *)
Inductive Payload : Type :=
| NoPayload
| StartPayload (tempId : Js.value) (content : string)
| SuccessPayload (userMessage assistantMessage : Msg.t) (conversationId : Js.value)
| FailurePayload (type error : string) (details : Client.Details)
| ActivePayload (conversationId : Js.value) (messages : option (list Msg.t))
| ListPayload (conversations : list Conv.t)
| ConversationPayload (conversation : Conv.t)
| IdPayload (conversationId : Js.value)
| TextPayload (value : string)
| FlagPayload (flag : bool)
| StatusPayload (status : ServiceStatus) (timestamp : option Z)
| RatePayload (info : RateLimitInfo).

Record Action : Type := {
  type : string;
  payload : Payload
}.

(** What a call of the reducer gives: the next state, or no state of
    this model when the payload lacks what the case of the type reads.
    (JavaScript then raises a TypeError, as [SEND_MESSAGE_START] does on
    [action.payload.tempId] without a payload, or stores [undefined] in a
    field of the state; no such action is dispatched anywhere in the
    file.) *)
Inductive Reduced : Type :=
| Next (state : State)
| IllShaped.

(** [chatReducer(state, action)], called when the clock reads [clock]:
    three cases stamp the state with [new Date().toISOString()]. *)
Definition chatReducer (clock : Z) (state : State) (action : Action) : Reduced :=
  if String.eqb (type action) SEND_MESSAGE_START then
    match payload action with
    | StartPayload tempId content =>
        Next (withMessages
                (messages state ++
                 [ {| Msg.id := tempId;
                      Msg.tempId := Js.Undefined;
                      Msg.type := USER;
                      Msg.content := Js.Str content;
                      Msg.timestamp := clock;
                      Msg.isTemporary := Js.Bool true;
                      Msg.intent := Js.Undefined;
                      Msg.metadata := Js.Undefined;
                      Msg.conversationId := Js.Undefined;
                      Msg.processingTime := Js.Undefined |} ])
                (withError None (withIsSending true state)))
    | _ => IllShaped
    end
  else if String.eqb (type action) SEND_MESSAGE_SUCCESS then
    match payload action with
    | SuccessPayload userMessage assistantMessage conversationId =>
        Next (withMessages
                (filter (fun msg => negb (Js.strictEq (Msg.id msg) (Msg.tempId userMessage)))
                        (messages state)
                 ++ [ Msg.withIsTemporary (Js.Bool false) userMessage; assistantMessage ])
                (withActiveConversation conversationId
                   (withInputValue "" (withIsTyping false (withIsSending false state)))))
    | _ => IllShaped
    end
  else if String.eqb (type action) SEND_MESSAGE_FAILURE then
    match payload action with
    | FailurePayload type error details =>
        Next (withMessages
                (* Remove temporary message on failure *)
                (filter (fun msg => negb (Js.truthy (Msg.isTemporary msg))) (messages state))
                (withLastError
                   (Some {| lastType := type; lastMessage := error;
                            lastTimestamp := clock; lastDetails := details |})
                   (withError (Some error)
                      (withIsTyping false (withIsSending false state)))))
    | _ => IllShaped
    end
  else if String.eqb (type action) SET_ACTIVE_CONVERSATION then
    match payload action with
    | ActivePayload conversationId messages =>
        Next (withMessages (match messages with Some list => list | None => [] end)
                (withActiveConversation conversationId state))
    | _ => IllShaped
    end
  else if String.eqb (type action) LOAD_CONVERSATIONS then
    match payload action with
    | ListPayload conversations => Next (withConversations conversations state)
    | _ => IllShaped
    end
  else if String.eqb (type action) CREATE_CONVERSATION then
    match payload action with
    | ConversationPayload newConversation =>
        Next (withMessages []
                (withActiveConversation (Conv.id newConversation)
                   (withConversations (newConversation :: conversations state) state)))
    | _ => IllShaped
    end
  else if String.eqb (type action) DELETE_CONVERSATION then
    match payload action with
    | IdPayload conversationIdToDelete =>
        let kept := withConversations
                      (filter (fun conv => negb (Js.strictEq (Conv.id conv)
                                                             conversationIdToDelete))
                              (conversations state))
                      state in
        Next (if Js.strictEq (activeConversation state) conversationIdToDelete
              then withMessages [] (withActiveConversation Js.Null kept)
              else kept)
    | _ => IllShaped
    end
  else if String.eqb (type action) SET_INPUT_VALUE then
    match payload action with
    | TextPayload value => Next (withInputValue value state)
    | _ => IllShaped
    end
  else if String.eqb (type action) SET_TYPING_INDICATOR then
    match payload action with
    | FlagPayload flag => Next (withIsTyping flag state)
    | _ => IllShaped
    end
  else if String.eqb (type action) CLEAR_ERRORS then
    Next (withLastError None (withError None state))
  else if String.eqb (type action) SET_SERVICE_STATUS then
    match payload action with
    | StatusPayload status timestamp =>
        Next (withServiceStatus status
                (Some (match timestamp with Some t => t | None => clock end)) state)
    | _ => IllShaped
    end
  else if String.eqb (type action) UPDATE_RATE_LIMIT then
    match payload action with
    | RatePayload info => Next (withRateLimitInfo info state)
    | _ => IllShaped
    end
  else Next state.

(** [type] is one of the cases of the [switch]. *)
Definition handled (type : string) : bool :=
  existsb (String.eqb type) CHAT_ACTIONS.

(** The payload has the fields the case of [type] reads: any payload
    will do for [CLEAR_ERRORS] and for a type without a case. *)
Definition wellShaped (action : Action) : bool :=
  negb (handled (type action)) || String.eqb (type action) CLEAR_ERRORS
  ||
  match payload action with
  | NoPayload => false
  | StartPayload _ _ => String.eqb (type action) SEND_MESSAGE_START
  | SuccessPayload _ _ _ => String.eqb (type action) SEND_MESSAGE_SUCCESS
  | FailurePayload _ _ _ => String.eqb (type action) SEND_MESSAGE_FAILURE
  | ActivePayload _ _ => String.eqb (type action) SET_ACTIVE_CONVERSATION
  | ListPayload _ => String.eqb (type action) LOAD_CONVERSATIONS
  | ConversationPayload _ => String.eqb (type action) CREATE_CONVERSATION
  | IdPayload _ => String.eqb (type action) DELETE_CONVERSATION
  | TextPayload _ => String.eqb (type action) SET_INPUT_VALUE
  | FlagPayload _ => String.eqb (type action) SET_TYPING_INDICATOR
  | StatusPayload _ _ => String.eqb (type action) SET_SERVICE_STATUS
  | RatePayload _ => String.eqb (type action) UPDATE_RATE_LIMIT
  end.

(** The cases that read the clock. *)
Definition stamps (type : string) : bool :=
  existsb (String.eqb type)
          [SEND_MESSAGE_START; SEND_MESSAGE_FAILURE; SET_SERVICE_STATUS].

(** [dispatch(action)] at clock [clock].  An action the reducer cannot
    reduce leaves the stored state as it was. *)
Definition dispatch (clock : Z) (action : Action) (state : State) : State :=
  match chatReducer clock state action with
  | Next state' => state'
  | IllShaped => state
  end.

(** *** [ChatProvider] *)

Section Provider.

Variable server : Wire.Server.

(** [checkServiceStatus], the body of the 30 second health poll. *)
Definition checkServiceStatus (w : Client.World) (state : State)
    : Client.World * State :=
  match Client.getStatus server w with
  | (Client.Ok result, w') =>
      (w', dispatch (Client.now w')
             {| type := SET_SERVICE_STATUS;
                payload := StatusPayload
                             (if Client.succeeded result then healthy else degraded)
                             (Some (Client.now w')) |}
             state)
  | (Client.Throw error, w') =>
      let w'' := snd (Client.log (Client.Warn "Service status check failed:"
                                              (Client.message_of error)) w') in
      (w'', dispatch (Client.now w'')
              {| type := SET_SERVICE_STATUS;
                 payload := StatusPayload down (Some (Client.now w'')) |}
              state)
  | (Client.Pending, w') => (w', state)
  end.

(** [intentMapping[label]]: UI labels to API enum values.  Each key
    starts with an emoji and a space, written here as its UTF-8 bytes. *)
Definition intentMapping (label : string) : option string :=
  if String.eqb label "💻 Coding Help" then Some CODING
  else if String.eqb label "🌐 Translation" then Some TRANSLATION
  else if String.eqb label "💬 General Chat" then Some GENERAL
  else None.

(** What [generateTempId] and [generateMessageId] return during one
    send (each built from the clock and [Math.random()]). *)
Record Ids : Type := {
  freshTempId : string;
  freshUserMessageId : string;
  freshAssistantMessageId : string
}.

(** What [sendMessage] resolves to: [{ success: true, conversationId,
    messages, metadata }] or [{ success: false, error, type, details }]. *)
Inductive SendOutcome : Type :=
| Sent (conversationId : Js.value) (messages : list Msg.t) (metadata : Js.value)
| NotSent (error type : string) (details : Client.Details).

(** The [catch] block of [sendMessage]: the type, the user-facing message
    and the details of an error. *)
Definition describe (error : Client.Thrown) : string * string * Client.Details :=
  let '(errorType, errorMessage, errorDetails) :=
    match error with
    | Client.ChatbotError message code details => (code, message, details)
    | _ => ("UNKNOWN_ERROR",
            Client.strOr (Client.message_of error) "Failed to send message",
            Client.NoDetails)
    end in
  let errorMessage :=
    if String.eqb errorType "RATE_LIMITED" then
      "You are sending messages too quickly. Please wait "
        +++ Client.numeral (match errorDetails with
                            | Client.RetryAfter n => if n =? 0 then 60 else n
                            | _ => 60
                            end)
        +++ " seconds."
    else if String.eqb errorType "UNAUTHORIZED" then
      "Your session has expired. Please log in again."
    else if String.eqb errorType "NETWORK_ERROR" then
      "Unable to connect to the chat service. Please check your internet connection."
    else if String.eqb errorType "TIMEOUT" then
      "The request timed out. Please try again."
    else if String.eqb errorType "SERVICE_ERROR" then
      "The chat service is temporarily unavailable. Please try again in a moment."
    else if String.eqb errorType "MESSAGE_TOO_LONG" then
      "Your message is too long. Please limit to 4000 characters."
    else if String.eqb errorType "INVALID_INPUT" then
      "Please enter a valid message."
    else errorMessage in
  (errorType, errorMessage, errorDetails).

(** [intentMapping[intent] || intent || CHAT_INTENTS.GENERAL] *)
Definition normalizeIntent (intent : string) : string :=
  match intentMapping intent with
  | Some value => value
  | None => if String.eqb intent "" then GENERAL else intent
  end.

(** The API call of [sendMessage]: the trimmed content, the active
    conversation of the closed-over state, the normalized intent and the
    metadata of the web app. *)
Definition callApi (userId : Js.value) (closed : State) (content intent : string)
    : Client.M Client.Reply :=
  fun w =>
    Client.sendMessage server (Js.Str (Js.trim content))
      (activeConversation closed) (Js.Str (normalizeIntent intent))
      [("source", Js.Str "web_app"); ("user_id", userId);
       ("timestamp", Js.Num (Client.now w))] w.

(** The typing timer, armed for 500 ms at clock [started]: it has fired
    when its deadline is not later than the clock [settled] at which the
    awaited call settles. *)
Definition typingTimer (started settled : Z) (state : State) : State :=
  if started + 500 <=? settled
  then dispatch (started + 500)
         {| type := SET_TYPING_INDICATOR; payload := FlagPayload true |} state
  else state.

(** [sendMessage(content, intent)].  [closed] is the state the callback
    closed over when it was created; [state] is the state of the store.
    On the failure path the typing timer is not cleared: when it is still
    armed it fires after the function has returned. *)
Definition sendMessage (isAuthenticated : bool) (userId : Js.value) (fresh : Ids)
    (closed : State) (content intent : string)
    (w : Client.World) (state : State)
    : Client.Result SendOutcome * Client.World * State :=
  if negb isAuthenticated
  then (Client.Throw (Client.JsError "Authentication required"), w, state)
  else if String.eqb content "" || (Js.length (Js.trim content) =? 0)
  then (Client.Throw (Client.JsError "Message cannot be empty"), w, state)
  else
    let tempId := Js.Str (freshTempId fresh) in
    let normalizedIntent := normalizeIntent intent in
    (* Start sending *)
    let started := Client.now w in
    let state := dispatch started
                   {| type := SEND_MESSAGE_START;
                      payload := StartPayload tempId (Js.trim content) |} state in
    (* API call *)
    match callApi userId closed content intent w with
    | (Client.Ok response, w') =>
        let state := typingTimer started (Client.now w') state in
        let data := Client.data response in
        (* User + Assistant messages *)
        let userMessage :=
          {| Msg.id := Js.Str (freshUserMessageId fresh);
             Msg.tempId := tempId;
             Msg.type := USER;
             Msg.content := Js.Str (Js.trim content);
             Msg.timestamp := Client.now w';
             Msg.isTemporary := Js.Undefined;
             Msg.intent := Js.Str normalizedIntent;
             Msg.metadata := Js.Undefined;
             Msg.conversationId := Client.conversationId data;
             Msg.processingTime := Js.Undefined |} in
        let assistantMessage :=
          {| Msg.id := Js.or (Client.messageId data)
                             (Js.Str (freshAssistantMessageId fresh));
             Msg.tempId := Js.Undefined;
             Msg.type := ASSISTANT;
             Msg.content := Client.reply data;
             Msg.timestamp := Client.timestamp data;
             Msg.isTemporary := Js.Undefined;
             Msg.intent := Client.intent data;
             Msg.metadata := Client.metadata data;
             Msg.conversationId := Client.conversationId data;
             Msg.processingTime := Client.processingTime data |} in
        let state := dispatch (Client.now w')
                       {| type := SEND_MESSAGE_SUCCESS;
                          payload := SuccessPayload userMessage assistantMessage
                                       (Client.conversationId data) |} state in
        let state :=
          if negb (Js.truthy (activeConversation closed))
             && Js.truthy (Client.conversationId data)
          then
            let newConversation :=
              {| Conv.id := Client.conversationId data;
                 Conv.title := Js.slice0 50 content
                               +++ (if Js.length content >? 50 then "..." else "");
                 Conv.status := ACTIVE;
                 Conv.created_at := Client.now w';
                 Conv.updated_at := Client.now w';
                 Conv.message_count := 2;
                 Conv.last_message := Js.slice0 100 content
                                      +++ (if Js.length content >? 100 then "..." else "") |} in
            dispatch (Client.now w')
              {| type := LOAD_CONVERSATIONS;
                 payload := ListPayload (newConversation :: conversations closed) |} state
          else state in
        (Client.Ok (Sent (Client.conversationId data) [userMessage; assistantMessage]
                         (Client.metadata data)),
         w', state)
    | (Client.Throw error, w') =>
        let state := typingTimer started (Client.now w') state in
        let '(errorType, errorMessage, errorDetails) := describe error in
        let state := dispatch (Client.now w')
                       {| type := SEND_MESSAGE_FAILURE;
                          payload := FailurePayload errorType errorMessage errorDetails |}
                       state in
        (Client.Ok (NotSent errorMessage errorType errorDetails), w', state)
    | (Client.Pending, w') => (Client.Pending, w', state)
    end.

End Provider.

End Chat.

(* ------------------------------------------------------------------ *)
(** ** Sample servers, worlds and states *)

Module Sample.

(** A response body with no field set. *)
Definition noData : Wire.Data :=
  {| Wire.reply := Js.Undefined; Wire.conversation_id := Js.Undefined;
     Wire.message_id := Js.Undefined; Wire.intent := Js.Undefined;
     Wire.processing_time := Js.Undefined; Wire.metadata := Js.Undefined;
     Wire.error := None; Wire.detail := Wire.NoDetail; Wire.message := None;
     Wire.retry_after := None |}.

(** The body of a reply that opens conversation 7. *)
Definition helloData : Wire.Data :=
  {| Wire.reply := Js.Str "Hello!"; Wire.conversation_id := Js.Num 7;
     Wire.message_id := Js.Str "m-1"; Wire.intent := Js.Str "general";
     Wire.processing_time := Js.Num 85; Wire.metadata := Js.Undefined;
     Wire.error := None; Wire.detail := Wire.NoDetail; Wire.message := None;
     Wire.retry_after := None |}.

(** An answer with the given status, 120 ms after the request. *)
Definition answer (status : Z) (data : Wire.Data) : Wire.Exchange :=
  {| Wire.elapsed := 120;
     Wire.outcome := Wire.Replied {| Wire.status := status; Wire.data := data;
                                     Wire.retry_after_header := None |} |}.

(** The status of an answer, if there is a response. *)
Definition statusOf (e : Wire.Exchange) : option Z :=
  match Wire.outcome e with Wire.Replied r => Some (Wire.status r) | _ => None end.

Definition always (status : Z) : Wire.Server := fun _ => answer status noData.

(** [n] times [status], then 200 with [helloData]. *)
Definition failing (n : nat) (status : Z) : Wire.Server :=
  fun k => if (k <? n)%nat then answer status noData else answer 200 helloData.

Definition healthyServer : Wire.Server := failing 0 200.

Definition unreachable : Wire.Server :=
  fun _ => {| Wire.elapsed := 15; Wire.outcome := Wire.Unreachable |}.

Definition silent : Wire.Server :=
  fun _ => {| Wire.elapsed := 0; Wire.outcome := Wire.TimedOut |}.

(** A browser that has sent nothing yet. *)
Definition idle : Client.World :=
  {| Client.now := 1700000000000; Client.tracker := RateLimit.rateLimitTracker;
     Client.calls := []; Client.delays := []; Client.console := [] |}.

(** A browser that recorded 100 requests during the last second. *)
Definition saturated : Client.World :=
  {| Client.now := 1700000000000;
     Client.tracker := {| RateLimit.requests := repeat 1699999999000 100;
                          RateLimit.maxPerMinute := 100 |};
     Client.calls := []; Client.delays := []; Client.console := [] |}.

(** The same browser one minute later. *)
Definition recovered : Client.World :=
  {| Client.now := 1700000060000; Client.tracker := Client.tracker saturated;
     Client.calls := []; Client.delays := []; Client.console := [] |}.

(** The configuration of a first attempt. *)
Definition firstTry : Client.RequestConfig :=
  {| Client.method := "post"; Client.url := Client.CHAT; Client.payload := None;
     Client._retryCount := None |}.

Definition ids : Chat.Ids :=
  {| Chat.freshTempId := "temp_1700000000000_k3j9x0q2a";
     Chat.freshUserMessageId := "msg_1700000000120_p0o9i8u7y";
     Chat.freshAssistantMessageId := "msg_1700000000120_a1s2d3f4g" |}.

Definition fresh : Chat.State := Chat.initialState 1699999990000.

(** An older message of a conversation. *)
Definition earlier : Chat.Msg.t :=
  {| Chat.Msg.id := Js.Str "m-0"; Chat.Msg.tempId := Js.Undefined;
     Chat.Msg.type := Chat.ASSISTANT; Chat.Msg.content := Js.Str "Welcome back.";
     Chat.Msg.timestamp := 1699999000000; Chat.Msg.isTemporary := Js.Undefined;
     Chat.Msg.intent := Js.Undefined; Chat.Msg.metadata := Js.Undefined;
     Chat.Msg.conversationId := Js.Num 3; Chat.Msg.processingTime := Js.Undefined |}.

(** A state with conversation 3 open and one message shown. *)
Definition talking : Chat.State :=
  Chat.withMessages [earlier] (Chat.withActiveConversation (Js.Num 3) fresh).

End Sample.

(* ------------------------------------------------------------------ *)
(** ** Vocabulary of the statements *)

Module Terms.
Import Client.

(** The guard of the first [if] of [chatbotAPI.sendMessage]. *)
Definition emptyContent (content : Js.value) : bool :=
  negb (Js.truthy content) || negb (Js.isString content)
  || (Js.length (Js.trim (text content)) =? 0).

(** The retries already made for a request: its [_retryCount], 0 while
    the property is undefined. *)
Definition retriesOf (config : RequestConfig) : Z :=
  match _retryCount config with Some n => n | None => 0 end.

(** The delay before the k-th retry. *)
Definition backoff (k : Z) : Z :=
  retryDelay RETRY_CONFIG * backoffMultiplier RETRY_CONFIG ^ (k - 1).

(** The delays before retries [k], [k + 1], ..., [k + n - 1]. *)
Fixpoint schedule (k : Z) (n : nat) : list Z :=
  match n with
  | O => []
  | S m => backoff k :: schedule (k + 1) m
  end.

(** The world after the k-th retry was announced on the console and its
    delay awaited. *)
Definition slept (k : Z) (w : World) : World :=
  {| now := now w + backoff k; tracker := tracker w; calls := calls w;
     delays := delays w ++ [backoff k];
     console := console w ++ [Retrying k (maxRetries RETRY_CONFIG) (backoff k)] |}.

(** The rate window has room for [n] more requests, even if no recorded
    timestamp leaves it. *)
Definition room (n : Z) (w : World) : Prop :=
  Z.of_nat (List.length (RateLimit.requests (tracker w))) + n
  <= RateLimit.maxPerMinute (tracker w).

(** The world after the request interceptor let a request through. *)
Definition recorded (w : World) : World :=
  setTracker (RateLimit.recordRequest (now w)
                (snd (RateLimit.canMakeRequest (now w) (tracker w)))) w.

(** The world after the request interceptor turned a request down. *)
Definition pruned (w : World) : World :=
  setTracker (snd (RateLimit.canMakeRequest (now w) (tracker w))) w.

(** A failure the retry logic is meant for: no response at all (a
    connection failure or a timeout), or a response with status 500 or
    more. *)
Definition transient (response : option Wire.Response) : Prop :=
  response = None \/ exists r, response = Some r /\ 500 <= Wire.status r.

(** The error axios raises for a response outside 2xx. *)
Definition badStatus (config : RequestConfig) (r : Wire.Response) : Thrown :=
  AxiosError ("Request failed with status code " +++ numeral (Wire.status r))
             (badStatusCode (Wire.status r)) (Some config) (Some r).

(** The body of the request [sendMessage] posts. *)
Definition payloadOf (content conversationId intent : Js.value)
    (metadata : list (string * Js.value)) : Wire.Payload :=
  {| Wire.content := Js.trim (text content);
     Wire.payload_metadata := ("source", Js.Str "web_app") :: metadata;
     Wire.payload_conversation_id :=
       if present conversationId then Some conversationId else None;
     Wire.payload_intent := if Js.truthy intent then Some intent else None |}.

(** The answer is a response with a status in 2xx. *)
Definition answers2xx (e : Wire.Exchange) : bool :=
  match Wire.outcome e with
  | Wire.Replied r => (200 <=? Wire.status r) && (Wire.status r <? 300)
  | _ => false
  end.

(** The promise was fulfilled. *)
Definition fulfilled {A : Type} (result : Result A) : bool :=
  match result with Ok _ => true | _ => false end.

End Terms.

(* ------------------------------------------------------------------ *)
(** ** More of JavaScript's strings *)

Module JsText.

(** [s.slice(n)] for [0 <= n] *)
Fixpoint drop (n : nat) (s : string) : string :=
  match n, s with
  | O, _ => s
  | S k, String _ rest => drop k rest
  | S _, EmptyString => EmptyString
  end.

(** [s.slice(0, n)] for [0 <= n] *)
Fixpoint take (n : nat) (s : string) : string :=
  match n, s with
  | O, _ => EmptyString
  | S k, String c rest => String c (take k rest)
  | S _, EmptyString => EmptyString
  end.

(** [s.slice(from, to)] for [0 <= from] and [0 <= to] *)
Definition slice (from to : nat) (s : string) : string :=
  take (to - from) (drop from s).

(** [s.startsWith(sub)] *)
Fixpoint startsWith (sub s : string) : bool :=
  match sub, s with
  | EmptyString, _ => true
  | String _ _, EmptyString => false
  | String a sub', String b s' => Ascii.eqb a b && startsWith sub' s'
  end.

(** [s.includes(sub)] *)
Fixpoint includes (sub s : string) : bool :=
  match s with
  | EmptyString => startsWith sub EmptyString
  | String _ rest => startsWith sub s || includes sub rest
  end.

(** The lower-case form of a code unit below 256: [A] to [Z], and the
    capital letters from U+00C0 to U+00DE other than the sign U+00D7. *)
Definition lowerChar (c : ascii) : ascii :=
  let n := N_of_ascii c in
  if ((65 <=? n) && (n <=? 90)
      || (192 <=? n) && (n <=? 222) && negb (n =? 215))%N
  then ascii_of_N (n + 32)
  else c.

(** [s.toLowerCase()] *)
Fixpoint toLowerCase (s : string) : string :=
  match s with
  | EmptyString => EmptyString
  | String c rest => String (lowerChar c) (toLowerCase rest)
  end.

(** [`${v}`] *)
Definition interpolate (v : Js.value) : string :=
  match v with
  | Js.Undefined => "undefined"
  | Js.Null => "null"
  | Js.Bool true => "true"
  | Js.Bool false => "false"
  | Js.Num n => Client.numeral n
  | Js.Str s => s
  | Js.Obj _ => "[object Object]"
  end.

End JsText.

(* ------------------------------------------------------------------ *)
(** ** The rest of [chatbotAPI] (ChatbotClient.js) *)

Module Api.
Import Client.

(** [ENDPOINTS] *)
Definition HEALTH : string := "/health".
Definition CONVERSATIONS : string := "/chat/conversations".

(** [error.response?.data?.error || error.message || fallback] *)
Definition errorText (error : Thrown) (fallback : string) : string :=
  textOr (dataError_of error) (strOr (message_of error) fallback).

(** [error.response?.status || 'network_error'] *)
Definition statusOr (error : Thrown) : Js.value :=
  match status_of error with
  | Some n => if n =? 0 then Js.Str "network_error" else Js.Num n
  | None => Js.Str "network_error"
  end.

(** [{ success: true, data }] or [{ success: false, error, status }] *)
Inductive HealthResult : Type :=
| HealthOk (data : Wire.Data)
| HealthFailed (error : string) (status : Js.value).

(** What [getConversations] resolves to: [{ success: true, data }] with
    the body of the response, the same with the placeholder
    [{ user_id: null, conversations: [], message: 'Conversation history
    feature coming soon' }], or [{ success: false, error }]. *)
Inductive ConversationsResult : Type :=
| Listed (data : Wire.Data)
| ComingSoon
| NotListed (error : string).

(** [{ success: true, data }] or [{ success: false, error }] *)
Inductive DeleteResult : Type :=
| Deleted (data : Wire.Data)
| NotDeleted (error : string).

(** What [checkServiceConnectivity] resolves to. *)
Record Connectivity : Type := {
  isOnline : bool;
  status : Chat.ServiceStatus;
  lastChecked : Z;
  error : option string
}.

(** [error.response?.status === 200 ||
     error.response?.data?.message?.includes('coming soon')] *)
Definition comingSoon (error : Thrown) : bool :=
  isNum (status_of error) 200
  || match dataMessage_of error with
     | Some message => JsText.includes "coming soon" message
     | None => false
     end.

(** [getRateLimitInfo()] *)
Definition getRateLimitInfo (w : World) : Chat.RateLimitInfo :=
  {| Chat.remaining :=
       Z.max 0 (RateLimit.maxPerMinute (tracker w)
                - Z.of_nat (List.length (RateLimit.requests (tracker w))));
     Chat.resetTime := now w + 60000;
     Chat.maxPerMinute := RateLimit.maxPerMinute (tracker w) |}.

Section Endpoints.

Variable server : Wire.Server.

(** [chatbotClient.get(url)] and [chatbotClient.delete(url)] *)
Definition get (url : string) : M Wire.Response :=
  chatbotClient server {| method := "get"; url := url; payload := None;
                          _retryCount := None |}.

Definition delete (url : string) : M Wire.Response :=
  chatbotClient server {| method := "delete"; url := url; payload := None;
                          _retryCount := None |}.

Definition getHealth : M HealthResult :=
  tryCatch
    (response <- get HEALTH ;;
     ret (HealthOk (Wire.data response)))
    (fun error =>
       ret (HealthFailed (errorText error "Health check failed") (statusOr error))).

Definition getConversations : M ConversationsResult :=
  tryCatch
    (response <- get CONVERSATIONS ;;
     ret (Listed (Wire.data response)))
    (fun error =>
       if comingSoon error then ret ComingSoon
       else ret (NotListed (errorText error "Failed to load conversations"))).

Definition deleteConversation (conversationId : Js.value) : M DeleteResult :=
  tryCatch
    (response <- delete ("/chat/conversations/" +++ JsText.interpolate conversationId) ;;
     ret (Deleted (Wire.data response)))
    (fun error => ret (NotDeleted (errorText error "Failed to delete conversation"))).

(** [result.error || null] *)
Definition errorOrNull (result : StatusResult) : option string :=
  match result with
  | StatusOk _ => None
  | StatusFailed error _ => if String.eqb error "" then None else Some error
  end.

Definition checkServiceConnectivity : M Connectivity :=
  tryCatch
    (result <- getStatus server ;;
     lastChecked <- clock ;;
     ret {| isOnline := succeeded result;
            status := if succeeded result then Chat.healthy else Chat.down;
            lastChecked := lastChecked;
            error := errorOrNull result |})
    (fun error =>
       lastChecked <- clock ;;
       ret {| isOnline := false;
              status := Chat.down;
              lastChecked := lastChecked;
              error := Some (message_of error) |}).

End Endpoints.

End Api.

(* ------------------------------------------------------------------ *)
(** ** The rest of [ChatProvider] (ChatContext.jsx) *)

Module Provider.
Import Chat.

(** The helpers of the context value, each a [dispatch] or a few, at
    clock [clock]. *)
Definition setInputValue (clock : Z) (value : string) (state : State) : State :=
  dispatch clock {| type := SET_INPUT_VALUE; payload := TextPayload value |} state.

Definition clearErrors (clock : Z) (state : State) : State :=
  dispatch clock {| type := CLEAR_ERRORS; payload := NoPayload |} state.

Definition createNewConversation (clock : Z) (state : State) : State :=
  let state := dispatch clock {| type := SET_ACTIVE_CONVERSATION;
                                 payload := ActivePayload Js.Null (Some []) |} state in
  let state := dispatch clock {| type := SET_INPUT_VALUE; payload := TextPayload "" |}
                        state in
  dispatch clock {| type := CLEAR_ERRORS; payload := NoPayload |} state.

Definition switchConversation (clock : Z) (conversationId : Js.value) (state : State)
    : State :=
  let state := dispatch clock {| type := SET_ACTIVE_CONVERSATION;
                                 payload := ActivePayload conversationId (Some []) |}
                        state in
  dispatch clock {| type := CLEAR_ERRORS; payload := NoPayload |} state.

Definition deleteConversation (clock : Z) (conversationId : Js.value) (state : State)
    : State :=
  dispatch clock {| type := DELETE_CONVERSATION; payload := IdPayload conversationId |}
           state.

(** The effect that runs when the user is no longer authenticated. *)
Definition resetOnLogout (clock : Z) (state : State) : State :=
  let state := dispatch clock {| type := SET_ACTIVE_CONVERSATION;
                                 payload := ActivePayload Js.Null (Some []) |} state in
  let state := dispatch clock {| type := LOAD_CONVERSATIONS; payload := ListPayload [] |}
                        state in
  dispatch clock {| type := CLEAR_ERRORS; payload := NoPayload |} state.

(** [updateRateLimit], the body of the 10 second refresh. *)
Definition updateRateLimit (w : Client.World) (state : State) : State :=
  dispatch (Client.now w)
    {| type := UPDATE_RATE_LIMIT; payload := RatePayload (Api.getRateLimitInfo w) |}
    state.

(** The typing timer of a send that started at clock [started], looked
    at once its deadline has passed.  [sendMessage] clears the timer on
    its success path only: after a call that was rejected at clock
    [settled], before the deadline, the timer is still armed and fires at
    [started + 500]. *)
Definition afterTypingDeadline (started settled : Z)
    (result : Client.Result SendOutcome) (state : State) : State :=
  match result with
  | Client.Ok (NotSent _ _ _) =>
      if settled <? started + 500
      then dispatch (started + 500)
             {| type := SET_TYPING_INDICATOR; payload := FlagPayload true |} state
      else state
  | _ => state
  end.

(** [msg.type === MESSAGE_TYPES.USER] and [... === MESSAGE_TYPES.ERROR] *)
Definition isUser (type : MessageType) : bool :=
  match type with USER => true | _ => false end.

Definition isError (type : MessageType) : bool :=
  match type with ERROR => true | _ => false end.

(** What [getConversationSummary] returns; [lastMessage] is [None] for
    [null]. *)
Record Summary : Type := {
  messageCount : Z;
  lastMessage : option Msg.t;
  hasErrors : bool;
  totalMessages : Z
}.

Definition getConversationSummary (state : State) : Summary :=
  if Z.of_nat (List.length (messages state)) =? 0 then
    {| messageCount := 0; lastMessage := None; hasErrors := false; totalMessages := 0 |}
  else
    let userMessages :=
      filter (fun msg => isUser (Msg.type msg) && negb (Js.truthy (Msg.isTemporary msg)))
             (messages state) in
    let lastMessage := nth_error (messages state) (List.length (messages state) - 1) in
    let hasErrors := existsb (fun msg => isError (Msg.type msg)) (messages state) in
    {| messageCount := Z.of_nat (List.length userMessages);
       lastMessage := lastMessage;
       hasErrors := hasErrors;
       totalMessages := Z.of_nat (List.length (messages state)) |}.

(** [state.serviceStatus !== 'down'] *)
Definition notDown (status : ServiceStatus) : bool :=
  match status with down => false | _ => true end.

Definition canSendMessage (isAuthenticated : bool) (state : State) : bool :=
  let trimmedInput := Js.trim (inputValue state) in
  isAuthenticated && negb (isSending state)
  && (Js.length trimmedInput >? 0) && (Js.length trimmedInput <=? 4000)
  && (remaining (rateLimitInfo state) >? 0) && notDown (serviceStatus state).

(** [isRateLimited] of the context value *)
Definition isRateLimited (state : State) : bool :=
  remaining (rateLimitInfo state) <=? 0.

Section Loading.

Variable server : Wire.Server.

(** [data.conversations] of a response body: [None] when the body has no
    such array.  ([Wire.Data] keeps the fields the other endpoints
    read.) *)
Variable conversationsOf : Wire.Data -> option (list Conv.t).


End Loading.

End Provider.

(* ------------------------------------------------------------------ *)
(** ** The chat box (ChatBox.jsx) *)

Module ChatBox.

(** A part of a message: [{ type: 'text', content }] or
    [{ type: 'code', language, content }]. *)
Inductive Part : Type :=
| TextPart (content : string)
| CodePart (language content : string).

(** [\w]: a letter, a digit or the underscore. *)
Definition isWordChar (c : ascii) : bool :=
  let n := N_of_ascii c in
  ((48 <=? n) && (n <=? 57) || (65 <=? n) && (n <=? 90) || (n =? 95)
   || (97 <=? n) && (n <=? 122))%N.

(** The three backquotes of a fence. *)
Definition fence : string := "```".

(** The longest run of word characters at the head of [s], and what
    follows it. *)
Fixpoint wordRun (s : string) : string * string :=
  match s with
  | EmptyString => (EmptyString, EmptyString)
  | String c rest =>
      if isWordChar c
      then let (word, after) := wordRun rest in (String c word, after)
      else (EmptyString, s)
  end.

(** [[\s\S]*?] followed by a fence: the text before the first fence of
    [s], if there is a fence. *)
Fixpoint untilFence (s : string) : option string :=
  if JsText.startsWith fence s then Some EmptyString
  else
    match s with
    | EmptyString => None
    | String c rest => option_map (String c) (untilFence rest)
    end.

(** A match of [/```(\w+)?\n([\s\S]*?)```/] that starts at the head of
    [s]: group 1 ([None] when it took no part), group 2, and the length
    of the whole match.  The greedy group 1 is the whole run of word
    characters after the fence, since only that run can be followed by
    the line feed; the lazy group 2 ends at the first fence after it. *)
Definition matchAt (s : string) : option (option string * string * nat) :=
  if JsText.startsWith fence s then
    let (word, after) := wordRun (JsText.drop 3 s) in
    match after with
    | String "010" body =>
        match untilFence body with
        | Some code =>
            Some (match word with EmptyString => None | _ => Some word end,
                  code,
                  (3 + String.length word + 1 + String.length code + 3)%nat)
        | None => None
        end
    | _ => None
    end
  else None.

(** The result of [exec]: [match.index], [match[0].length], [match[1]]
    and [match[2]]. *)
Record Match : Type := {
  index : nat;
  whole : nat;
  language : option string;
  code : string
}.

(** The leftmost match in [s], the suffix of the content that starts at
    [index]. *)
Fixpoint execFrom (s : string) (index : nat) : option Match :=
  match matchAt s with
  | Some (language, code, whole) =>
      Some {| index := index; whole := whole; language := language; code := code |}
  | None =>
      match s with
      | EmptyString => None
      | String _ rest => execFrom rest (S index)
      end
  end.

(** [codeBlockRegex.exec(content)] when the [lastIndex] of the regular
    expression is [lastIndex]. *)
Definition exec (content : string) (lastIndex : nat) : option Match :=
  execFrom (JsText.drop lastIndex content) lastIndex.

(** The [while] loop of [parseMessageContent], at most [fuel] turns: the
    parts pushed and the last index reached. *)
Fixpoint loop (fuel : nat) (content : string) (lastIndex : nat) (parts : list Part)
    : list Part * nat :=
  match fuel with
  | O => (parts, lastIndex)
  | S fuel' =>
      match exec content lastIndex with
      | None => (parts, lastIndex)
      | Some m =>
          (* Add text before code block *)
          let parts :=
            if (lastIndex <? index m)%nat
            then parts ++ [TextPart (JsText.slice lastIndex (index m) content)]
            else parts in
          (* Add code block *)
          let parts :=
            parts ++ [CodePart (match language m with Some l => l | None => "text" end)
                               (code m)] in
          loop fuel' content (index m + whole m) parts
      end
  end.

(** [parseMessageContent(content)].  A match takes at least seven
    characters, so the loop ends within [length content] turns. *)
Definition parseMessageContent (content : string) : list Part :=
  let (parts, lastIndex) := loop (S (String.length content)) content 0 [] in
  (* Add remaining text *)
  let parts :=
    if (lastIndex <? String.length content)%nat
    then parts ++ [TextPart (JsText.drop lastIndex content)]
    else parts in
  match parts with
  | [] => [TextPart content]
  | _ => parts
  end.

(** What [handleSubmit] leaves behind: the world, the store, and the
    error its [catch] block wrote with [console.error], if any. *)
Record Submitted : Type := {
  world : Client.World;
  store : Chat.State;
  logged : option Client.Thrown
}.

Section Form.

Variable server : Wire.Server.

(** [handleSubmit(e)].  [canSendMessage], [inputValue] and [sendMessage]
    are those of the last render, whose state is [state]. *)
Definition handleSubmit (isAuthenticated : bool) (userId : Js.value) (fresh : Chat.Ids)
    (selectedIntent : string) (w : Client.World) (state : Chat.State) : Submitted :=
  if negb (Provider.canSendMessage isAuthenticated state)
     || String.eqb (Js.trim (Chat.inputValue state)) ""
  then {| world := w; store := state; logged := None |}
  else
    let cleared := Provider.clearErrors (Client.now w) state in
    match Chat.sendMessage server isAuthenticated userId fresh state
            (Js.trim (Chat.inputValue state)) selectedIntent w cleared with
    | (Client.Throw error, w', state') =>
        {| world := w'; store := state'; logged := Some error |}
    | (_, w', state') => {| world := w'; store := state'; logged := None |}
    end.

End Form.

End ChatBox.

(** Vocabulary for the parts of a message. *)
Module Parts.

(** Every character of [s] is a word character. *)
Fixpoint allWord (s : string) : bool :=
  match s with
  | EmptyString => true
  | String c rest => ChatBox.isWordChar c && allWord rest
  end.

(** No character of [s] is a backquote. *)
Fixpoint noBackquote (s : string) : bool :=
  match s with
  | EmptyString => true
  | String c rest => negb (Ascii.eqb c "`") && noBackquote rest
  end.

(** A part as the loop can push it: a text that is not empty, or a code
    block whose label is a run of word characters and whose content
    holds no fence. *)
Definition proper (part : ChatBox.Part) : bool :=
  match part with
  | ChatBox.TextPart content => negb (String.eqb content "")
  | ChatBox.CodePart language content =>
      negb (String.eqb language "") && allWord language
      && negb (JsText.includes ChatBox.fence content)
  end.

(** The source text of a fenced block: the fence, the label, a line
    feed, the code and the closing fence. *)
Definition block (language code : string) : string :=
  ChatBox.fence +++ language +++ String "010" (code +++ ChatBox.fence).

End Parts.

(* ------------------------------------------------------------------ *)
(** ** The sidebar (Sidebar.jsx) *)

Module Sidebar.
Import Chat.

(** [conv.status === CONVERSATION_STATUS.ACTIVE] and [... ARCHIVED] *)
Definition isActive (status : ConversationStatus) : bool :=
  match status with ACTIVE => true | _ => false end.

Definition isArchived (status : ConversationStatus) : bool :=
  match status with ARCHIVED => true | _ => false end.

(** The comparator of the sort:
    [new Date(b.updated_at) - new Date(a.updated_at)]. *)
Definition compare (a b : Conv.t) : Z := Conv.updated_at b - Conv.updated_at a.

(** [array.sort(compare)], a stable sort: [a] is put before the first
    entry it need not follow. *)
Fixpoint insert (a : Conv.t) (sorted : list Conv.t) : list Conv.t :=
  match sorted with
  | [] => [a]
  | b :: rest => if compare a b <=? 0 then a :: sorted else b :: insert a rest
  end.

Definition sort (array : list Conv.t) : list Conv.t := fold_right insert [] array.

(** The array [filtered] of [filteredConversations] before it is sorted,
    and whether it is still the array of the store. *)
Definition filtered (conversations : list Conv.t) (activeFilter searchTerm : string)
    : list Conv.t * bool :=
  (* Apply status filter *)
  let '(filtered, same) :=
    if String.eqb activeFilter "active"
    then (filter (fun conv => isActive (Conv.status conv)) conversations, false)
    else if String.eqb activeFilter "archived"
    then (filter (fun conv => isArchived (Conv.status conv)) conversations, false)
    else (conversations, true) in
  (* Apply search filter *)
  if negb (String.eqb (Js.trim searchTerm) "")
  then
    let search := JsText.toLowerCase searchTerm in
    (filter (fun conv => JsText.includes search (JsText.toLowerCase (Conv.title conv)))
            filtered, false)
  else (filtered, same).

(** [filteredConversations]: the list the sidebar shows. *)
Definition filteredConversations (conversations : list Conv.t)
    (activeFilter searchTerm : string) : list Conv.t :=
  sort (fst (filtered conversations activeFilter searchTerm)).

(** The array of the store after [filteredConversations] was computed:
    [sort] works in place, on the array of the store itself when no
    filter made a new one. *)
Definition conversationsAfter (conversations : list Conv.t)
    (activeFilter searchTerm : string) : list Conv.t :=
  if snd (filtered conversations activeFilter searchTerm)
  then sort conversations
  else conversations.

End Sidebar.

(** Vocabulary for the list of the sidebar. *)
Module Order.
Import Chat.

(** [a] was updated no earlier than [b]. *)
Definition notOlder (a b : Conv.t) : Prop := Conv.updated_at b <= Conv.updated_at a.

(** The entry passes the status filter and the search of the sidebar. *)
Definition shows (activeFilter searchTerm : string) (conv : Conv.t) : bool :=
  (if String.eqb activeFilter "active" then Sidebar.isActive (Conv.status conv)
   else if String.eqb activeFilter "archived" then Sidebar.isArchived (Conv.status conv)
   else true)
  && (if String.eqb (Js.trim searchTerm) "" then true
      else JsText.includes (JsText.toLowerCase searchTerm)
                           (JsText.toLowerCase (Conv.title conv))).

End Order.

(* ------------------------------------------------------------------ *)
(** ** More vocabulary of the statements *)

Module Outcomes.
Import Client.

(** The codes a [ChatbotError] is created with in ChatbotClient.js. *)
Definition taxonomy : list string :=
  ["INVALID_INPUT"; "MESSAGE_TOO_LONG"; "INVALID_RESPONSE"; "RATE_LIMITED";
   "VALIDATION_ERROR"; "UNAUTHORIZED"; "SERVICE_ERROR"; "TIMEOUT"; "NETWORK_ERROR";
   "UNKNOWN_ERROR"].

(** The status of a response lies in 2xx. *)
Definition is2xx (r : Wire.Response) : bool :=
  (200 <=? Wire.status r) && (Wire.status r <? 300).

(** An answer the retry logic is meant for: no response, or a response
    with status 500 or more. *)
Definition retryable (e : Wire.Exchange) : bool :=
  match Wire.outcome e with
  | Wire.Replied r => 500 <=? Wire.status r
  | _ => true
  end.

(** The [code] and the [response] of the axios error of an answer that
    is not a 2xx response. *)
Definition axiosCode (e : Wire.Exchange) : option string :=
  match Wire.outcome e with
  | Wire.Replied r => badStatusCode (Wire.status r)
  | Wire.TimedOut => Some "ECONNABORTED"
  | Wire.Unreachable => Some "ERR_NETWORK"
  end.

Definition responseOf (e : Wire.Exchange) : option Wire.Response :=
  match Wire.outcome e with
  | Wire.Replied r => Some r
  | _ => None
  end.

(** The code under which a retryable answer surfaces once the retries
    are used up. *)
Definition failureCode (e : Wire.Exchange) : string :=
  match Wire.outcome e with
  | Wire.Replied _ => "SERVICE_ERROR"
  | Wire.TimedOut => "TIMEOUT"
  | Wire.Unreachable => "NETWORK_ERROR"
  end.

(** The code under which a response with a status below 500 and outside
    2xx surfaces. *)
Definition codeOfStatus (status : Z) : string :=
  if status =? 401 then "UNAUTHORIZED"
  else if status =? 422 then "VALIDATION_ERROR"
  else if status =? 429 then "RATE_LIMITED"
  else "UNKNOWN_ERROR".

(** The errors the promise chain of [chatbotClient] rejects with: an
    axios error without a response or with one outside 2xx, the
    [TypeError] of the rejection handler, and the two [ChatbotError]s the
    handler creates. *)
Definition fromChain (error : Thrown) : bool :=
  match error with
  | AxiosError _ _ _ (Some r) => negb (is2xx r)
  | AxiosError _ _ _ None => true
  | ChatbotError _ code _ =>
      String.eqb code "RATE_LIMITED" || String.eqb code "VALIDATION_ERROR"
  | TypeError _ => true
  | JsError _ => false
  end.


(** The configuration of a request of [chatbotClient] before any
    retry. *)
Definition request (method url : string) (payload : option Wire.Payload)
    : RequestConfig :=
  {| Client.method := method; Client.url := url; Client.payload := payload;
     _retryCount := None |}.

End Outcomes.

(* ------------------------------------------------------------------ *)
(** ** More sample servers, worlds and states *)

Module Cases.

(** A 429 response whose header asks for 17 seconds and whose body asks
    for 30. *)
Definition slowDown : Wire.Response :=
  {| Wire.status := 429;
     Wire.data :=
       {| Wire.reply := Js.Undefined; Wire.conversation_id := Js.Undefined;
          Wire.message_id := Js.Undefined; Wire.intent := Js.Undefined;
          Wire.processing_time := Js.Undefined; Wire.metadata := Js.Undefined;
          Wire.error := None; Wire.detail := Wire.NoDetail;
          Wire.message := Some "Slow down"; Wire.retry_after := Some 30 |};
     Wire.retry_after_header := Some 17 |}.

Definition throttling : Wire.Server :=
  fun _ => {| Wire.elapsed := 40; Wire.outcome := Wire.Replied slowDown |}.

(** A 404 response that announces the conversation history. *)
Definition notYet : Wire.Response :=
  {| Wire.status := 404;
     Wire.data :=
       {| Wire.reply := Js.Undefined; Wire.conversation_id := Js.Undefined;
          Wire.message_id := Js.Undefined; Wire.intent := Js.Undefined;
          Wire.processing_time := Js.Undefined; Wire.metadata := Js.Undefined;
          Wire.error := None; Wire.detail := Wire.NoDetail;
          Wire.message := Some "Conversation history is coming soon";
          Wire.retry_after := None |};
     Wire.retry_after_header := None |}.

Definition announcing : Wire.Server :=
  fun _ => {| Wire.elapsed := 40; Wire.outcome := Wire.Replied notYet |}.

(** Conversation 3 open, with "hello" typed into the input. *)
Definition typed : Chat.State :=
  Provider.setInputValue 1699999995000 "hello" Sample.talking.

(** Three entries of a conversation list, as the store holds them. *)
Definition parsing : Chat.Conv.t :=
  {| Chat.Conv.id := Js.Num 3; Chat.Conv.title := "Parsing JSON in Rust";
     Chat.Conv.status := Chat.ACTIVE; Chat.Conv.created_at := 1699990000000;
     Chat.Conv.updated_at := 1699999000000; Chat.Conv.message_count := 4;
     Chat.Conv.last_message := "Welcome back." |}.

Definition greeting : Chat.Conv.t :=
  {| Chat.Conv.id := Js.Num 5; Chat.Conv.title := "French greetings";
     Chat.Conv.status := Chat.ARCHIVED; Chat.Conv.created_at := 1699980000000;
     Chat.Conv.updated_at := 1699985000000; Chat.Conv.message_count := 2;
     Chat.Conv.last_message := "Bonjour" |}.

Definition sorting : Chat.Conv.t :=
  {| Chat.Conv.id := Js.Num 7; Chat.Conv.title := "Sorting in rust";
     Chat.Conv.status := Chat.ACTIVE; Chat.Conv.created_at := 1699999500000;
     Chat.Conv.updated_at := 1699999900000; Chat.Conv.message_count := 2;
     Chat.Conv.last_message := "Use sort_by_key." |}.

(** The store with these three entries, oldest update first. *)
Definition listed : Chat.State :=
  Chat.withConversations [greeting; parsing; sorting] typed.

End Cases.

(* ------------------------------------------------------------------ *)
(** ** Properties of the rate-limit tracker *)

Module RateLimitFacts.
Import RateLimit.

Lemma canMakeRequest_ceiling now t :
  maxPerMinute (snd (canMakeRequest now t)) = maxPerMinute t.
Proof. reflexivity. Qed.

Lemma canMakeRequest_requests now t :
  requests (snd (canMakeRequest now t)) = window now t.
Proof. reflexivity. Qed.

Lemma window_length now t :
  (List.length (window now t) <= List.length (requests t))%nat.
Proof. unfold window. apply filter_length_le. Qed.

Lemma checkThenRecord_ceiling times t :
  maxPerMinute (snd (checkThenRecord times t)) = maxPerMinute t.
Proof.
  unfold checkThenRecord.
  destruct (canMakeRequest (fst times) t) as [ok t'] eqn:E.
  assert (maxPerMinute t' = maxPerMinute t)
    by (change t' with (snd (ok, t')); rewrite <- E; apply canMakeRequest_ceiling).
  destruct ok; simpl; assumption.
Qed.

Lemma checkThenRecord_within times t :
  within t -> within (snd (checkThenRecord times t)).
Proof.
  unfold within, checkThenRecord, canMakeRequest. intros H.
  set (kept := filter _ (requests t)).
  assert (Hk : (List.length kept <= List.length (requests t))%nat)
    by apply filter_length_le.
  cbn [fst snd requests maxPerMinute].
  destruct (Z.of_nat (List.length kept) <? maxPerMinute t) eqn:E;
    cbn [fst snd requests maxPerMinute recordRequest].
  - apply Z.ltb_lt in E. rewrite length_app. simpl. lia.
  - lia.
Qed.

Lemma operate_ceiling ops : forall t,
  maxPerMinute (operate ops t) = maxPerMinute t.
Proof.
  induction ops as [|times rest IH]; intros t; simpl.
  - reflexivity.
  - rewrite IH. apply checkThenRecord_ceiling.
Qed.

Lemma operate_within ops : forall t, within t -> within (operate ops t).
Proof.
  induction ops as [|times rest IH]; intros t H; simpl.
  - exact H.
  - apply IH, checkThenRecord_within, H.
Qed.

(** C7.  Invariant of the rate-limit window: start from a tracker that
    holds no more timestamps than its ceiling (the tracker of the module
    starts empty) and run any sequence of check-then-record operations, a
    request being recorded only when the availability check succeeded,
    at any clock readings.  Then, read at any clock [now], the timestamps
    of the trailing 60-second window are at most [maxPerMinute]; so is
    the whole stored sequence, and the ceiling itself is unchanged. *)
Theorem window_never_exceeds_ceiling (t : tracker) (ops : list (Z * Z)) (now : Z) :
  within t ->
  Z.of_nat (List.length (window now (operate ops t))) <= maxPerMinute t
  /\ Z.of_nat (List.length (requests (operate ops t))) <= maxPerMinute t
  /\ maxPerMinute (operate ops t) = maxPerMinute t.
Proof.
  intros H.
  pose proof (operate_within ops t H) as Hw.
  pose proof (window_length now (operate ops t)) as Hl.
  unfold within in Hw. rewrite operate_ceiling in Hw.
  repeat split; [lia | lia | apply operate_ceiling].
Qed.

(** The module's own tracker after 150 operations in one millisecond:
    the window holds exactly the 100 requests the checks let through. *)
Lemma window_never_exceeds_ceiling_witness :
  within rateLimitTracker
  /\ Z.of_nat (List.length (window 5 (operate (repeat (5, 5) 150) rateLimitTracker))) = 100
  /\ Z.of_nat (List.length (window 5 (operate (repeat (5, 5) 150) rateLimitTracker)))
     <= maxPerMinute rateLimitTracker.
Proof.
  assert (H : within rateLimitTracker) by (unfold within; simpl; lia).
  split; [exact H |].
  split; [vm_compute; reflexivity |].
  exact (proj1 (window_never_exceeds_ceiling rateLimitTracker (repeat (5, 5) 150) 5 H)).
Defined.

End RateLimitFacts.

(* ------------------------------------------------------------------ *)
(** ** Input validation of [chatbotAPI.sendMessage] *)

Module ValidationFacts.
Import Client Terms.

Lemma trimStart_blank s : Js.allWhiteSpace s = true -> Js.trimStart s = "".
Proof.
  induction s as [|c rest IH]; simpl; intros H.
  - reflexivity.
  - apply andb_true_iff in H. destruct H as [Hc Hrest].
    rewrite Hc. apply IH, Hrest.
Qed.

Lemma trim_blank s : Js.allWhiteSpace s = true -> Js.trim s = "".
Proof. intros H. unfold Js.trim. rewrite (trimStart_blank s H). reflexivity. Qed.

Lemma trimStart_head s :
  Js.allWhiteSpace s = false ->
  exists c rest, Js.trimStart s = String c rest /\ Js.isWhiteSpace c = false.
Proof.
  induction s as [|c rest IH]; simpl; intros H.
  - discriminate.
  - destruct (Js.isWhiteSpace c) eqn:Hc.
    + apply IH. exact H.
    + exists c, rest. split; [reflexivity | exact Hc].
Qed.

Lemma trimEnd_head c rest :
  Js.isWhiteSpace c = false -> exists kept, Js.trimEnd (String c rest) = String c kept.
Proof.
  intros Hc. simpl. destruct (Js.trimEnd rest) as [|d kept].
  - rewrite Hc. exists "". reflexivity.
  - exists (String d kept). reflexivity.
Qed.

Lemma trim_not_blank s :
  Js.allWhiteSpace s = false -> (Js.length (Js.trim s) =? 0) = false.
Proof.
  intros H. destruct (trimStart_head s H) as (c & rest & Hs & Hc).
  unfold Js.trim. rewrite Hs.
  destruct (trimEnd_head c rest Hc) as (kept & Hk). rewrite Hk.
  unfold Js.length. simpl String.length. apply Z.eqb_neq. lia.
Qed.

Lemma not_blank_truthy s : Js.allWhiteSpace s = false -> Js.truthy (Js.Str s) = true.
Proof. destruct s; simpl; [discriminate | reflexivity]. Qed.

Lemma sendMessage_empty server content conversationId intent metadata w :
  emptyContent content = true ->
  sendMessage server content conversationId intent metadata w
  = (Throw (ChatbotError "Message content cannot be empty" "INVALID_INPUT" NoDetails), w).
Proof.
  unfold emptyContent, sendMessage, tryCatch. intros H. rewrite H. reflexivity.
Qed.

Lemma sendMessage_long server content conversationId intent metadata w :
  emptyContent content = false ->
  (Js.length (text content) >? 4000) = true ->
  sendMessage server content conversationId intent metadata w
  = (Throw (ChatbotError "Message too long. Please limit to 4000 characters."
                         "MESSAGE_TOO_LONG" NoDetails), w).
Proof.
  unfold emptyContent, sendMessage, tryCatch. intros H L. rewrite H, L. reflexivity.
Qed.

Lemma emptyContent_not_blank s :
  Js.allWhiteSpace s = false -> emptyContent (Js.Str s) = false.
Proof.
  intros H. unfold emptyContent.
  rewrite (not_blank_truthy s H). cbn [Js.isString text negb orb].
  apply trim_not_blank, H.
Qed.

(** C9.  For every input that is empty, is not a string, or consists only
    of white space, whatever the server and the state of the browser,
    [sendMessage] is rejected with the [ChatbotError] of code
    [INVALID_INPUT], and the world is left as it was: nothing was put on
    the wire, nothing recorded in the rate window. *)
Theorem empty_input_rejected_before_any_call
    (server : Wire.Server) (content conversationId intent : Js.value)
    (metadata : list (string * Js.value)) (w : World) :
  content = Js.Str ""
  \/ Js.isString content = false
  \/ (exists s, content = Js.Str s /\ Js.allWhiteSpace s = true) ->
  sendMessage server content conversationId intent metadata w
  = (Throw (ChatbotError "Message content cannot be empty" "INVALID_INPUT" NoDetails), w).
Proof.
  intros H. apply sendMessage_empty. unfold emptyContent.
  destruct H as [H | [H | (s & H & Hs)]].
  - subst content. reflexivity.
  - rewrite H. cbn [negb]. apply orb_true_iff. left. apply orb_true_r.
  - subst content. cbn [text]. rewrite (trim_blank s Hs).
    apply orb_true_r.
Qed.

(** Three spaces and a line break, sent to a healthy server. *)
Lemma empty_input_rejected_before_any_call_witness :
  Js.allWhiteSpace (String " " (String " " (String " " (String "010" "")))) = true
  /\ sendMessage Sample.healthyServer
       (Js.Str (String " " (String " " (String " " (String "010" "")))))
       Js.Null Js.Null [] Sample.idle
     = (Throw (ChatbotError "Message content cannot be empty" "INVALID_INPUT" NoDetails),
        Sample.idle).
Proof.
  assert (H : Js.allWhiteSpace (String " " (String " " (String " " (String "010" ""))))
              = true) by reflexivity.
  split; [exact H |].
  apply empty_input_rejected_before_any_call.
  right. right. eexists. split; [reflexivity | exact H].
Defined.

(** C8, as the claim states it, fails: a string of 4001 spaces is longer
    than 4000 characters, and [sendMessage] rejects it with
    [INVALID_INPUT], the emptiness check coming first. *)
Lemma long_blank_input_is_invalid_input :
  Js.length (Js.replicate 4001 " ") = 4001
  /\ fst (sendMessage Sample.healthyServer (Js.Str (Js.replicate 4001 " "))
             Js.Null Js.Null [] Sample.idle)
     = Throw (ChatbotError "Message content cannot be empty" "INVALID_INPUT" NoDetails)
  /\ code_of (ChatbotError "Message content cannot be empty" "INVALID_INPUT" NoDetails)
     <> Some "MESSAGE_TOO_LONG".
Proof.
  split; [vm_compute; reflexivity |].
  split; [vm_compute; reflexivity | discriminate].
Qed.

(** C8, amended.  For every input string whose length exceeds 4000
    characters and that does not consist only of white space, whatever
    the server and the state of the browser, [sendMessage] is rejected
    with the [ChatbotError] of code [MESSAGE_TOO_LONG], and the world is
    left as it was: no network call occurs. *)
Theorem long_input_rejected_without_call
    (server : Wire.Server) (s : string) (conversationId intent : Js.value)
    (metadata : list (string * Js.value)) (w : World) :
  Js.length s > 4000 ->
  Js.allWhiteSpace s = false ->
  sendMessage server (Js.Str s) conversationId intent metadata w
  = (Throw (ChatbotError "Message too long. Please limit to 4000 characters."
                         "MESSAGE_TOO_LONG" NoDetails), w).
Proof.
  intros L B. apply sendMessage_long.
  - apply emptyContent_not_blank, B.
  - cbn [text]. apply Z.gtb_lt. lia.
Qed.

(** 4001 letters [a]. *)
Lemma long_input_rejected_without_call_witness :
  Js.length (Js.replicate 4001 "a") > 4000
  /\ Js.allWhiteSpace (Js.replicate 4001 "a") = false
  /\ sendMessage Sample.healthyServer (Js.Str (Js.replicate 4001 "a"))
       Js.Null Js.Null [] Sample.idle
     = (Throw (ChatbotError "Message too long. Please limit to 4000 characters."
                            "MESSAGE_TOO_LONG" NoDetails), Sample.idle).
Proof.
  assert (L : Js.length (Js.replicate 4001 "a") > 4000) by (vm_compute; reflexivity).
  assert (B : Js.allWhiteSpace (Js.replicate 4001 "a") = false) by reflexivity.
  split; [exact L |]. split; [exact B |].
  exact (long_input_rejected_without_call Sample.healthyServer (Js.replicate 4001 "a")
           Js.Null Js.Null [] Sample.idle L B).
Defined.

End ValidationFacts.

(* ------------------------------------------------------------------ *)
(** ** The request chain and its retry loop *)

Module RetryFacts.
Import Client Terms.

Lemma requestFulfilled_room config w :
  room 1 w -> requestFulfilled config w = (Ok config, recorded w).
Proof.
  unfold room, requestFulfilled, recorded, RateLimit.canMakeRequest. intros H.
  cbn [fst snd RateLimit.requests RateLimit.maxPerMinute].
  pose proof (filter_length_le (fun timestamp => timestamp >? now w - 60000)
                (RateLimit.requests (tracker w))) as Hk.
  replace (Z.of_nat _ <? RateLimit.maxPerMinute (tracker w)) with true
    by (symmetry; apply Z.ltb_lt; lia).
  reflexivity.
Qed.

Lemma requestFulfilled_full config w :
  Z.of_nat (List.length (RateLimit.window (now w) (tracker w)))
  >= RateLimit.maxPerMinute (tracker w) ->
  requestFulfilled config w
  = (Throw (JsError "Rate limit exceeded. Please slow down your requests."), pruned w).
Proof.
  unfold requestFulfilled, pruned, RateLimit.canMakeRequest, RateLimit.window. intros H.
  cbn [fst snd RateLimit.requests RateLimit.maxPerMinute].
  replace (Z.of_nat _ <? RateLimit.maxPerMinute (tracker w)) with false
    by (symmetry; apply Z.ltb_ge; lia).
  reflexivity.
Qed.

Lemma recorded_room n w : room (n + 1) w -> room n (recorded w).
Proof.
  unfold room, recorded, setTracker, RateLimit.recordRequest, RateLimit.canMakeRequest.
  cbn [tracker fst snd RateLimit.requests RateLimit.maxPerMinute]. intros H.
  pose proof (filter_length_le (fun timestamp => timestamp >? now w - 60000)
                (RateLimit.requests (tracker w))) as Hk.
  rewrite length_app. simpl List.length. lia.
Qed.

Lemma dispatchRequest_bad server timeout config w r :
  Wire.outcome (server (List.length (calls w))) = Wire.Replied r ->
  ((200 <=? Wire.status r) && (Wire.status r <? 300)) = false ->
  dispatchRequest server timeout config w
  = (Throw (badStatus config r),
     afterCall config (Wire.elapsed (server (List.length (calls w)))) w).
Proof.
  intros Ho Hs. unfold dispatchRequest. rewrite Ho, Hs. reflexivity.
Qed.

(** One turn of the chain when the rate window has room. *)
Lemma chain_step server fuel config w :
  room 1 w ->
  chatbotClientWithin server (S fuel) config w
  = match dispatchRequest server chatbotTimeout config (recorded w) with
    | (Throw e, w') => responseRejected (chatbotClientWithin server fuel) e w'
    | settled => settled
    end.
Proof.
  intros H. cbn [chatbotClientWithin]. unfold tryCatch, bind.
  rewrite (requestFulfilled_room config w H). reflexivity.
Qed.

(** One turn of the chain when the rate window is full: the plain error
    of the request interceptor reaches the rejection handler, which finds
    no [config] on it. *)
Lemma chain_full server fuel config w :
  Z.of_nat (List.length (RateLimit.window (now w) (tracker w)))
  >= RateLimit.maxPerMinute (tracker w) ->
  chatbotClientWithin server (S fuel) config w = (Throw undefinedRetryCount, pruned w).
Proof.
  intros H. cbn [chatbotClientWithin]. unfold tryCatch, bind.
  rewrite (requestFulfilled_full config w H). reflexivity.
Qed.


Lemma transient_checks msg code config response :
  transient response ->
  let error := AxiosError msg code config response in
  isNum (status_of error) 401 = false
  /\ isNum (status_of error) 429 = false
  /\ isNum (status_of error) 422 = false
  /\ shouldRetry error = true.
Proof.
  intros [H | (r & H & Hs)]; subst response; cbn zeta.
  - repeat split; reflexivity.
  - unfold shouldRetry, status_of, response_of, isNum, geNum, ltNum, neNum, option_map.
    assert (E1 : (Wire.status r =? 401) = false) by (apply Z.eqb_neq; lia).
    assert (E2 : (Wire.status r =? 429) = false) by (apply Z.eqb_neq; lia).
    assert (E3 : (Wire.status r =? 422) = false) by (apply Z.eqb_neq; lia).
    assert (E4 : (Wire.status r <? 500) = false) by (apply Z.ltb_ge; lia).
    assert (E5 : (Wire.status r >=? 500) = true) by (apply Z.geb_le; lia).
    rewrite E1, E2, E3, E4, E5.
    repeat split; try reflexivity.
    rewrite andb_false_r. cbn [andb]. apply orb_true_r.
Qed.

(** A transient failure with fewer than three retries behind it: the
    handler announces the next retry, waits its delay and calls the
    client again. *)
Lemma responseRejected_retries retry msg code config response w :
  transient response ->
  retriesOf config < maxRetries RETRY_CONFIG ->
  responseRejected retry (AxiosError msg code (Some config) response) w
  = retry (setRetryCount (retriesOf config + 1) config) (slept (retriesOf config + 1) w).
Proof.
  intros T L.
  destruct (transient_checks msg code (Some config) response T) as (E1 & E2 & E3 & E4).
  cbn zeta in E1, E2, E3, E4.
  unfold responseRejected. rewrite E1, E2, E3, E4.
  cbn [config_of]. unfold retriesOf in *.
  destruct (_retryCount config) as [n|] eqn:C.
  - unfold noNum. destruct (n =? 0) eqn:N.
    + apply Z.eqb_eq in N. subst n. reflexivity.
    + unfold bind, ret. rewrite C. unfold ltNum.
      replace (n <? maxRetries RETRY_CONFIG) with true by (symmetry; apply Z.ltb_lt; lia).
      unfold log, sleep, slept, backoff.
      replace (n + 1 - 1) with n by lia. reflexivity.
  - reflexivity.
Qed.

(** A transient failure after the third retry: the error is thrown as it
    is. *)
Lemma responseRejected_gives_up retry msg code config response w :
  transient response ->
  maxRetries RETRY_CONFIG <= retriesOf config ->
  responseRejected retry (AxiosError msg code (Some config) response) w
  = (Throw (AxiosError msg code (Some config) response), w).
Proof.
  intros T L.
  destruct (transient_checks msg code (Some config) response T) as (E1 & E2 & E3 & E4).
  cbn zeta in E1, E2, E3, E4.
  unfold responseRejected. rewrite E1, E2, E3, E4.
  cbn [config_of]. unfold retriesOf in *.
  destruct (_retryCount config) as [n|] eqn:C.
  - unfold noNum.
    replace (n =? 0) with false by (symmetry; apply Z.eqb_neq; cbn in L; lia).
    unfold bind, ret. rewrite C. unfold ltNum.
    replace (n <? maxRetries RETRY_CONFIG) with false by (symmetry; apply Z.ltb_ge; lia).
    reflexivity.
  - cbn in L. lia.
Qed.

(** A response in 4xx other than 429: the handler throws at once,
    without waiting and without calling the client. *)
Lemma responseRejected_client_error msg code config r w :
  400 <= Wire.status r < 500 ->
  Wire.status r <> 429 ->
  exists thrown, forall retry,
    responseRejected retry (AxiosError msg code config (Some r)) w = (Throw thrown, w).
Proof.
  intros R N.
  assert (S : shouldRetry (AxiosError msg code config (Some r)) = false).
  { unfold shouldRetry, status_of, response_of, geNum, ltNum, neNum, isNum, option_map.
    replace (Wire.status r >=? 400) with true by (symmetry; apply Z.geb_le; lia).
    replace (Wire.status r <? 500) with true by (symmetry; apply Z.ltb_lt; lia).
    replace (Wire.status r =? 429) with false by (symmetry; apply Z.eqb_neq; lia).
    reflexivity. }
  unfold responseRejected. rewrite S.
  unfold status_of, response_of, option_map, isNum.
  replace (Wire.status r =? 429) with false by (symmetry; apply Z.eqb_neq; lia).
  destruct (Wire.status r =? 401); [eexists; intros; reflexivity |].
  destruct (Wire.status r =? 422); eexists; intros; reflexivity.
Qed.


(** The handler either throws, leaving the world as it is, or goes for
    the next retry of the request the error carries. *)
Lemma responseRejected_cases retry error w :
  (exists thrown, responseRejected retry error w = (Throw thrown, w))
  \/ (exists config,
        config_of error = Some config
        /\ retriesOf config < maxRetries RETRY_CONFIG
        /\ responseRejected retry error w
           = retry (setRetryCount (retriesOf config + 1) config)
                   (slept (retriesOf config + 1) w)).
Proof.
  unfold responseRejected.
  destruct (isNum (status_of error) 401); [left; eexists; reflexivity |].
  destruct (isNum (status_of error) 429);
    [left; destruct (response_of error); eexists; reflexivity |].
  destruct (isNum (status_of error) 422); [left; eexists; reflexivity |].
  destruct (shouldRetry error); [| left; eexists; reflexivity].
  destruct (config_of error) as [config|]; [| left; eexists; reflexivity].
  unfold retriesOf.
  destruct (_retryCount config) as [n|] eqn:C.
  - unfold noNum. destruct (n =? 0) eqn:N.
    + apply Z.eqb_eq in N. subst n.
      right. exists config. rewrite C.
      split; [reflexivity | split; [cbn; lia | reflexivity]].
    + unfold bind, ret. rewrite C. unfold ltNum.
      destruct (n <? maxRetries RETRY_CONFIG) eqn:L.
      * right. exists config. rewrite C. apply Z.ltb_lt in L.
        split; [reflexivity | split; [exact L |]].
        unfold log, sleep, slept, backoff.
        replace (n + 1 - 1) with n by lia. reflexivity.
      * left. eexists. reflexivity.
  - right. exists config. rewrite C.
    split; [reflexivity | split; [cbn; lia | reflexivity]].
Qed.

Lemma requestFulfilled_frame config w :
  (requestFulfilled config w = (Ok config, recorded w)
   \/ exists m, requestFulfilled config w = (Throw (JsError m), pruned w)).
Proof.
  unfold requestFulfilled, recorded, pruned.
  destruct (RateLimit.canMakeRequest (now w) (tracker w)) as [ok t].
  destruct ok; cbn [negb snd]; [left | right; eexists]; reflexivity.
Qed.

Lemma dispatchRequest_frame server timeout config w :
  let settled := dispatchRequest server timeout config w in
  delays (snd settled) = delays w
  /\ calls (snd settled) = calls w ++ [config]
  /\ ((exists r, fst settled = Ok r)
      \/ exists msg code response,
           fst settled = Throw (AxiosError msg code (Some config) response)).
Proof.
  unfold dispatchRequest.
  destruct (Wire.outcome (server (List.length (calls w)))) as [r| |].
  - destruct ((200 <=? Wire.status r) && (Wire.status r <? 300)); cbn;
      repeat split; [left | right]; repeat eexists.
  - cbn. repeat split. right. repeat eexists.
  - cbn. repeat split. right. repeat eexists.
Qed.

(** The shape of every run of the chain: it settles when the fuel covers
    the retries left, it waits the delays of consecutive retries, and it
    puts on the wire at most one request more than it waited delays. *)
Lemma run_shape server fuel : forall config w,
  0 <= retriesOf config ->
  let settled := chatbotClientWithin server fuel config w in
  (Z.max 0 (maxRetries RETRY_CONFIG - retriesOf config) < Z.of_nat fuel ->
   fst settled <> Pending)
  /\ exists n : nat,
       (n = O \/ retriesOf config + Z.of_nat n <= maxRetries RETRY_CONFIG)
       /\ delays (snd settled) = delays w ++ schedule (retriesOf config + 1) n
       /\ (List.length (calls (snd settled)) <= List.length (calls w) + n + 1)%nat.
Proof.
  induction fuel as [|fuel IH]; intros config w R; cbn zeta.
  - cbn [chatbotClientWithin fst snd]. split; [lia |].
    exists O. cbn [schedule]. rewrite app_nil_r. repeat split; [left; reflexivity | lia].
  - cbn [chatbotClientWithin]. unfold tryCatch, bind.
    destruct (requestFulfilled_frame config w) as [E | (m & E)]; rewrite E.
    + pose proof (dispatchRequest_frame server chatbotTimeout config (recorded w))
        as (D & C & S).
      cbn zeta in D, C, S.
      destruct (dispatchRequest server chatbotTimeout config (recorded w)) as [res w2].
      cbn [fst snd] in D, C, S.
      change (delays (recorded w)) with (delays w) in D.
      change (calls (recorded w)) with (calls w) in C.
      destruct S as [(r & S) | (msg & code & response & S)]; subst res.
      * cbn [fst snd]. split; [discriminate |].
        exists O. cbn [schedule]. rewrite app_nil_r, D, C, length_app. cbn.
        repeat split; [left; reflexivity | lia].
      * destruct (responseRejected_cases (chatbotClientWithin server fuel)
                    (AxiosError msg code (Some config) response) w2)
          as [(thrown & H) | (config' & Hc & Hl & H)]; rewrite H.
        -- cbn [fst snd]. split; [discriminate |].
           exists O. cbn [schedule]. rewrite app_nil_r, D, C, length_app. cbn.
           repeat split; [left; reflexivity | lia].
        -- cbn [config_of] in Hc. injection Hc as <-.
           set (config' := setRetryCount (retriesOf config + 1) config) in *.
           assert (R' : retriesOf config' = retriesOf config + 1) by reflexivity.
           destruct (IH config' (slept (retriesOf config + 1) w2) ltac:(lia))
             as (P & n & B & Dn & Cn).
           cbn zeta in P, Dn, Cn. rewrite R' in *.
           split.
           ++ intros F. apply P. lia.
           ++ exists (S n). cbn [schedule]. rewrite Dn.
              cbn [slept delays calls] in *. rewrite D, <- app_assoc.
              rewrite C, length_app in Cn. cbn in Cn.
              split; [right; destruct B as [-> | B]; lia |].
              split; [reflexivity | lia].
    + destruct (responseRejected_cases (chatbotClientWithin server fuel) (JsError m)
                  (pruned w)) as [(thrown & H) | (config' & Hc & _)];
        [rewrite H | discriminate Hc].
      cbn [fst snd]. split; [discriminate |].
      exists O. cbn [schedule]. rewrite app_nil_r.
      repeat split; [left; reflexivity | cbn; lia].
Qed.


(** The request interceptor is one check-then-record operation on the
    tracker, both clock readings being [now]. *)
Lemma requestFulfilled_tracker config w :
  tracker (snd (requestFulfilled config w))
  = snd (RateLimit.checkThenRecord (now w, now w) (tracker w)).
Proof.
  unfold requestFulfilled, RateLimit.checkThenRecord. cbn [fst snd].
  destruct (RateLimit.canMakeRequest (now w) (tracker w)) as [ok t].
  destruct ok; reflexivity.
Qed.

Lemma dispatchRequest_tracker server timeout config w :
  tracker (snd (dispatchRequest server timeout config w)) = tracker w.
Proof.
  unfold dispatchRequest.
  destruct (Wire.outcome (server (List.length (calls w)))) as [r| |]; [| reflexivity..].
  destruct ((200 <=? Wire.status r) && (Wire.status r <? 300)); reflexivity.
Qed.

(** The whole chain of a request, retries included, keeps the tracker
    within its ceiling. *)
Lemma chain_keeps_within server fuel : forall config w,
  RateLimit.within (tracker w) ->
  RateLimit.within (tracker (snd (chatbotClientWithin server fuel config w))).
Proof.
  induction fuel as [|fuel IH]; intros config w H.
  - exact H.
  - cbn [chatbotClientWithin]. unfold tryCatch, bind.
    pose proof (requestFulfilled_tracker config w) as T.
    pose proof (RateLimitFacts.checkThenRecord_within (now w, now w) (tracker w) H) as W.
    rewrite <- T in W. clear T.
    destruct (requestFulfilled config w) as [[config' | thrown |] w1]; cbn [snd] in W.
    + pose proof (dispatchRequest_tracker server chatbotTimeout config' w1) as D.
      destruct (dispatchRequest server chatbotTimeout config' w1) as [[r | thrown |] w2];
        cbn [snd] in D; rewrite <- D in W; [exact W | | exact W].
      destruct (responseRejected_cases (chatbotClientWithin server fuel) thrown w2)
        as [(e & E) | (c & _ & _ & E)]; rewrite E; [exact W |].
      apply IH. exact W.
    + destruct (responseRejected_cases (chatbotClientWithin server fuel) thrown w1)
        as [(e & E) | (c & _ & _ & E)]; rewrite E; [exact W |].
      apply IH. exact W.
    + exact W.
Qed.

(** So does a send, whatever its input and whatever the server answers. *)
Lemma sendMessage_keeps_within server content conversationId intent metadata w :
  RateLimit.within (tracker w) ->
  RateLimit.within
    (tracker (snd (sendMessage server content conversationId intent metadata w))).
Proof.
  intros H. unfold sendMessage, tryCatch, bind.
  destruct (negb (Js.truthy content) || negb (Js.isString content)
            || (Js.length (Js.trim (text content)) =? 0)); [exact H |].
  destruct (Js.length (text content) >? 4000); [exact H |].
  match goal with
  | |- context [post server CHAT ?p w] =>
      pose proof (chain_keeps_within server retryFuel
                    {| method := "post"; url := CHAT; payload := Some p;
                       _retryCount := None |} w H) as W;
      change (chatbotClientWithin server retryFuel
                {| method := "post"; url := CHAT; payload := Some p;
                   _retryCount := None |} w)
        with (post server CHAT p w) in W;
      destruct (post server CHAT p w) as [[response | thrown |] w']
  end; cbn [snd] in W; [| exact W | exact W].
  destruct (negb (Js.truthy (Wire.reply (Wire.data response)))); exact W.
Qed.

(** When every answer is a 5xx response and the rate window has room,
    the chain runs through all the retries that are left and throws the
    error of the last response. *)
Lemma exhausts server : forall (m fuel : nat) config w,
  retriesOf config = maxRetries RETRY_CONFIG - Z.of_nat m ->
  (m < fuel)%nat ->
  room (Z.of_nat m + 1) w ->
  (forall i, (i <= m)%nat ->
     exists r, Wire.outcome (server (List.length (calls w) + i)%nat) = Wire.Replied r
               /\ 500 <= Wire.status r) ->
  exists msg code config' r w',
    chatbotClientWithin server fuel config w
    = (Throw (AxiosError msg code config' (Some r)), w')
    /\ 500 <= Wire.status r
    /\ List.length (calls w') = (List.length (calls w) + m + 1)%nat
    /\ delays w' = delays w ++ schedule (retriesOf config + 1) m.
Proof.
  induction m as [|m IH]; intros fuel config w R F Hroom Hserver;
    (destruct fuel as [|fuel]; [lia |]);
    destruct (Hserver O ltac:(lia)) as (r & Ho & Hs);
    rewrite Nat.add_0_r in Ho;
    assert (Hbad : ((200 <=? Wire.status r) && (Wire.status r <? 300)) = false)
      by (apply andb_false_iff; right; apply Z.ltb_ge; lia);
    assert (Hroom1 : room 1 w) by (unfold room in *; lia);
    rewrite (chain_step server fuel config w Hroom1);
    change (calls w) with (calls (recorded w)) in Ho;
    rewrite (dispatchRequest_bad server chatbotTimeout config (recorded w) r Ho Hbad);
    unfold badStatus.
  - rewrite responseRejected_gives_up; [| right; exists r; split; [reflexivity | exact Hs] | lia].
    do 5 eexists. split; [reflexivity |]. split; [exact Hs |].
    cbn [afterCall calls delays recorded setTracker schedule].
    rewrite length_app, app_nil_r. cbn. split; [lia | reflexivity].
  - rewrite responseRejected_retries;
      [| right; exists r; split; [reflexivity | exact Hs] | lia].
    set (w1 := afterCall config _ (recorded w)).
    set (config1 := setRetryCount (retriesOf config + 1) config).
    assert (C1 : calls (slept (retriesOf config + 1) w1) = calls w ++ [config])
      by reflexivity.
    assert (D1 : delays (slept (retriesOf config + 1) w1)
                 = delays w ++ [backoff (retriesOf config + 1)]) by reflexivity.
    destruct (IH fuel config1 (slept (retriesOf config + 1) w1))
      as (msg & code & config' & r' & w' & E & Hs' & Hc & Hd).
    + change (retriesOf config1) with (retriesOf config + 1). lia.
    + lia.
    + change (room (Z.of_nat m + 1) (recorded w)). apply recorded_room.
      replace (Z.of_nat m + 1 + 1) with (Z.of_nat (S m) + 1) by lia. exact Hroom.
    + intros i Hi. rewrite C1, length_app. cbn [List.length].
      replace (List.length (calls w) + 1 + i)%nat with (List.length (calls w) + S i)%nat
        by lia.
      apply Hserver. lia.
    + exists msg, code, config', r', w'.
      split; [exact E |]. split; [exact Hs' |].
      rewrite Hc, Hd, C1, D1, length_app, <- app_assoc. cbn [List.length schedule app].
      change (retriesOf config1) with (retriesOf config + 1).
      split; [lia | reflexivity].
Qed.

(** [classify] on the error of a 5xx response. *)
Lemma classify_server_error msg code config r :
  500 <= Wire.status r ->
  classify (AxiosError msg code config (Some r))
  = ChatbotError (textOr (Wire.error (Wire.data r)) "Chatbot service temporarily unavailable"
                  +++ ". Please try again.")
                 "SERVICE_ERROR" NoDetails.
Proof.
  intros H. unfold classify, status_of, response_of, option_map, isNum, geNum.
  replace (Wire.status r =? 401) with false by (symmetry; apply Z.eqb_neq; lia).
  replace (Wire.status r =? 422) with false by (symmetry; apply Z.eqb_neq; lia).
  replace (Wire.status r =? 429) with false by (symmetry; apply Z.eqb_neq; lia).
  replace (Wire.status r >=? 500) with true by (symmetry; apply Z.geb_le; lia).
  reflexivity.
Qed.

(** An input that passes both checks: whatever rejects the request is
    classified by the [catch] block. *)
Lemma sendMessage_rejected server content conversationId intent metadata w thrown w' :
  emptyContent content = false ->
  (Js.length (text content) >? 4000) = false ->
  post server CHAT (payloadOf content conversationId intent metadata) w = (Throw thrown, w') ->
  sendMessage server content conversationId intent metadata w = (Throw (classify thrown), w').
Proof.
  unfold emptyContent, sendMessage, tryCatch, bind, payloadOf. intros E L P.
  rewrite E, L, P. reflexivity.
Qed.

Lemma sendMessage_replied server content conversationId intent metadata w response w' :
  emptyContent content = false ->
  (Js.length (text content) >? 4000) = false ->
  post server CHAT (payloadOf content conversationId intent metadata) w = (Ok response, w') ->
  Js.truthy (Wire.reply (Wire.data response)) = true ->
  sendMessage server content conversationId intent metadata w
  = (Ok {| success := true;
           data := {| reply := Wire.reply (Wire.data response);
                      conversationId := Wire.conversation_id (Wire.data response);
                      messageId := Wire.message_id (Wire.data response);
                      intent := Wire.intent (Wire.data response);
                      processingTime := Wire.processing_time (Wire.data response);
                      metadata := Js.or (Wire.metadata (Wire.data response)) emptyObject;
                      timestamp := now w' |} |}, w').
Proof.
  unfold emptyContent, sendMessage, tryCatch, bind, payloadOf. intros E L P T.
  rewrite E, L, P, T. reflexivity.
Qed.


(** A 500 response followed by a 200 response: the caller observes the
    reply, after two requests and one delay of [retryDelay]. *)
Example one_retry_after_a_500 :
  let settled := sendMessage (Sample.failing 1 500) (Js.Str "hello") Js.Null Js.Null []
                             Sample.idle in
  fulfilled (fst settled) = true
  /\ List.length (calls (snd settled)) = 2%nat
  /\ delays (snd settled) = [retryDelay RETRY_CONFIG].
Proof. vm_compute. repeat split. Qed.

(** A 401 response is thrown at once and surfaces as [UNAUTHORIZED]. *)
Example unauthorized_is_not_retried :
  let settled := sendMessage (Sample.always 401) (Js.Str "hello") Js.Null Js.Null []
                             Sample.idle in
  fst settled = Throw (ChatbotError "Authentication required" "UNAUTHORIZED" NoDetails)
  /\ List.length (calls (snd settled)) = 1%nat
  /\ delays (snd settled) = [].
Proof. vm_compute. repeat split. Qed.

(** C1, as the claim states it, fails.  The server answers 503 to the
    first three requests of a send and 200 to the next one.  After the
    third 503 the client waits 4000 ms and puts a fourth request on the
    wire, and the caller observes a fulfilled promise, not an error:
    [maxRetries] is 3, so a request is tried four times. *)
Lemma fourth_request_follows_three_503 :
  let settled := sendMessage (Sample.failing 3 503) (Js.Str "hello") Js.Null Js.Null []
                             Sample.idle in
  map (fun k => Sample.statusOf (Sample.failing 3 503 k)) [0; 1; 2; 3]%nat
  = [Some 503; Some 503; Some 503; Some 200]
  /\ fulfilled (fst settled) = true
  /\ List.length (calls (snd settled)) = 4%nat
  /\ delays (snd settled) = [1000; 2000; 4000].
Proof. vm_compute. repeat split. Qed.

(** C1, amended.  If a [sendMessage] request and each of its three
    automatic retries receive a 503 response (four consecutive 503s,
    with room for four requests in the local rate window), the retry
    budget is used up: the caller observes a [ChatbotError] of code
    [SERVICE_ERROR], exactly four requests were put on the wire (there is
    no further retry after the fourth 503), and the delays awaited were
    1000, 2000 and 4000 ms. *)
Theorem four_503_use_up_the_retries
    (server : Wire.Server) (s : string) (conversationId intent : Js.value)
    (metadata : list (string * Js.value)) (w : World) :
  Js.allWhiteSpace s = false ->
  Js.length s <= 4000 ->
  room 4 w ->
  (forall i, (i < 4)%nat ->
     exists r, Wire.outcome (server (List.length (calls w) + i)%nat) = Wire.Replied r
               /\ Wire.status r = 503) ->
  exists message w',
    sendMessage server (Js.Str s) conversationId intent metadata w
    = (Throw (ChatbotError message "SERVICE_ERROR" NoDetails), w')
    /\ List.length (calls w') = (List.length (calls w) + 4)%nat
    /\ delays w' = delays w ++ [1000; 2000; 4000].
Proof.
  intros B L Hroom Hserver.
  destruct (exhausts server 3 retryFuel
              {| method := "post"; url := CHAT;
                 payload := Some (payloadOf (Js.Str s) conversationId intent metadata);
                 _retryCount := None |} w)
    as (msg & code & config' & r & w' & E & Hs & Hc & Hd).
  - reflexivity.
  - change retryFuel with 4%nat. lia.
  - exact Hroom.
  - intros i Hi. destruct (Hserver i ltac:(lia)) as (r & Ho & Hr).
    exists r. split; [exact Ho | lia].
  - exists (textOr (Wire.error (Wire.data r)) "Chatbot service temporarily unavailable"
            +++ ". Please try again."), w'.
    split; [| split; [rewrite Hc; lia | rewrite Hd; reflexivity]].
    rewrite <- (classify_server_error msg code config' r Hs).
    apply sendMessage_rejected.
    + apply ValidationFacts.emptyContent_not_blank, B.
    + cbn [text]. rewrite Z.gtb_ltb. apply Z.ltb_ge. lia.
    + exact E.
Qed.

(** A server that answers every request with 503, from an idle browser. *)
Lemma four_503_use_up_the_retries_witness :
  exists message w',
    sendMessage (Sample.always 503) (Js.Str "hello") Js.Null Js.Null [] Sample.idle
    = (Throw (ChatbotError message "SERVICE_ERROR" NoDetails), w')
    /\ List.length (calls w') = (List.length (calls Sample.idle) + 4)%nat
    /\ delays w' = delays Sample.idle ++ [1000; 2000; 4000].
Proof.
  apply (four_503_use_up_the_retries (Sample.always 503) "hello").
  - reflexivity.
  - vm_compute. discriminate.
  - unfold room. simpl. lia.
  - intros i _. eexists. split; reflexivity.
Defined.

(** C3.  The retry policy of the response interceptor.
    (1) A failed request whose response has a status in 4xx other than
    429 is never retried: the handler throws at once, whatever the retry
    function, and leaves the world as it was (no delay, no request); a
    [post] answered that way rejects after exactly one request and no
    delay.
    (2) A network error or a timeout (no response) or a response with
    status 500 or more is retried while fewer than 3 retries were made:
    before the k-th retry (k = 1, 2, 3) the handler waits
    [retryDelay * 2 ^ (k - 1)] ms, then calls the client again with
    [_retryCount] set to k.
    (3) After the third retry the error is thrown instead.
    (4) Every run of [post] settles, awaits the delays of retries 1 to n
    for some n up to 3 and nothing else, and puts at most n + 1 requests
    on the wire.
    (5) The delay before the first retry is [retryDelay]. *)
Theorem retry_policy :
  (forall msg code config r w,
     400 <= Wire.status r < 500 ->
     Wire.status r <> 429 ->
     exists thrown, forall retry,
       responseRejected retry (AxiosError msg code config (Some r)) w = (Throw thrown, w))
  /\ (forall server url data w r,
        room 1 w ->
        Wire.outcome (server (List.length (calls w))) = Wire.Replied r ->
        400 <= Wire.status r < 500 ->
        Wire.status r <> 429 ->
        exists thrown,
          fst (post server url data w) = Throw thrown
          /\ List.length (calls (snd (post server url data w)))
             = (List.length (calls w) + 1)%nat
          /\ delays (snd (post server url data w)) = delays w)
  /\ (forall retry msg code config response w k,
        transient response ->
        1 <= k <= 3 ->
        retriesOf config = k - 1 ->
        responseRejected retry (AxiosError msg code (Some config) response) w
        = retry (setRetryCount k config) (slept k w)
        /\ delays (slept k w) = delays w ++ [retryDelay RETRY_CONFIG * 2 ^ (k - 1)])
  /\ (forall retry msg code config response w,
        transient response ->
        retriesOf config = 3 ->
        responseRejected retry (AxiosError msg code (Some config) response) w
        = (Throw (AxiosError msg code (Some config) response), w))
  /\ (forall server url data w,
        fst (post server url data w) <> Pending
        /\ exists n : nat,
             (n <= 3)%nat
             /\ delays (snd (post server url data w)) = delays w ++ schedule 1 n
             /\ (List.length (calls (snd (post server url data w)))
                 <= List.length (calls w) + n + 1)%nat)
  /\ backoff 1 = retryDelay RETRY_CONFIG.
Proof.
  split; [| split; [| split; [| split; [| split]]]].
  - intros msg code config r w R N.
    apply responseRejected_client_error; assumption.
  - intros server url data w r Hroom Ho R N.
    unfold post, chatbotClient. change retryFuel with 4%nat.
    rewrite (chain_step server 3 _ w Hroom).
    change (calls w) with (calls (recorded w)) in Ho.
    rewrite (dispatchRequest_bad server chatbotTimeout _ (recorded w) r Ho)
      by (apply andb_false_iff; right; apply Z.ltb_ge; lia).
    unfold badStatus.
    match goal with
    | |- context [responseRejected _ (AxiosError ?m ?c ?g (Some r)) ?v] =>
        destruct (responseRejected_client_error m c g r v R N) as (thrown & H)
    end.
    rewrite H. exists thrown. cbn [fst snd afterCall calls delays recorded setTracker].
    rewrite length_app. cbn. split; [reflexivity | split; [lia | reflexivity]].
  - intros retry msg code config response w k T K R.
    split; [| reflexivity].
    replace k with (retriesOf config + 1) by lia.
    apply responseRejected_retries; [exact T | cbn; lia].
  - intros retry msg code config response w T R.
    apply responseRejected_gives_up; [exact T | cbn; lia].
  - intros server url data w.
    pose proof (run_shape server retryFuel
                  {| method := "post"; url := url; payload := Some data;
                     _retryCount := None |} w ltac:(cbn; lia)) as (P & n & B & D & C).
    cbn zeta in P, D, C. unfold post, chatbotClient.
    split.
    + apply P. vm_compute. reflexivity.
    + exists n. split; [| split; [exact D | exact C]].
      destruct B as [-> | B]; [lia | cbn in B; lia].
  - reflexivity.
Qed.

(** The policy at work: a 404 is thrown at once; a 500 before any retry
    leads to the first retry after 1000 ms; a timeout after two retries
    leads to the third retry after 4000 ms; a server that never answers
    is asked four times. *)
Lemma retry_policy_witness :
  (exists thrown, forall retry,
     responseRejected retry
       (AxiosError "Request failed with status code 404" (Some "ERR_BAD_REQUEST") None
                   (Some {| Wire.status := 404; Wire.data := Sample.noData;
                            Wire.retry_after_header := None |}))
       Sample.idle
     = (Throw thrown, Sample.idle))
  /\ (responseRejected (chatbotClientWithin Sample.healthyServer 1)
        (AxiosError "Request failed with status code 500" (Some "ERR_BAD_RESPONSE")
                    (Some Sample.firstTry)
                    (Some {| Wire.status := 500; Wire.data := Sample.noData;
                             Wire.retry_after_header := None |}))
        Sample.idle
      = chatbotClientWithin Sample.healthyServer 1 (setRetryCount 1 Sample.firstTry)
          (slept 1 Sample.idle)
      /\ delays (slept 1 Sample.idle) = [1000])
  /\ (responseRejected (chatbotClientWithin Sample.healthyServer 1)
        (AxiosError "timeout of 30000ms exceeded" (Some "ECONNABORTED")
                    (Some (setRetryCount 2 Sample.firstTry)) None)
        Sample.idle
      = chatbotClientWithin Sample.healthyServer 1 (setRetryCount 3 Sample.firstTry)
          (slept 3 Sample.idle)
      /\ delays (slept 3 Sample.idle) = [4000])
  /\ delays (snd (post Sample.silent CHAT
                     (payloadOf (Js.Str "hello") Js.Null Js.Null []) Sample.idle))
     = [1000; 2000; 4000].
Proof.
  destruct retry_policy as (A & _ & B & _ & _ & _).
  split; [| split; [| split]].
  - apply A; simpl; lia.
  - apply (B (chatbotClientWithin Sample.healthyServer 1) _ _ Sample.firstTry _
             Sample.idle 1);
      [right; eexists; split; [reflexivity | simpl; lia] | lia | reflexivity].
  - apply (B (chatbotClientWithin Sample.healthyServer 1) _ _
             (setRetryCount 2 Sample.firstTry) None Sample.idle 3);
      [left; reflexivity | lia | reflexivity].
  - vm_compute. reflexivity.
Defined.

Lemma elapsed_window_is_empty now t :
  (forall timestamp, In timestamp (RateLimit.requests t) -> timestamp + 60000 <= now) ->
  RateLimit.window now t = [].
Proof.
  unfold RateLimit.window. induction (RateLimit.requests t) as [|x rest IH]; intros H.
  - reflexivity.
  - cbn [filter].
    replace (x >? now - 60000) with false
      by (symmetry; rewrite Z.gtb_ltb; apply Z.ltb_ge;
          specialize (H x (or_introl eq_refl)); lia).
    apply IH. intros y Hy. apply H. right. exact Hy.
Qed.

(** C2, what the code does.  (1) When the timestamps recorded within
    the trailing 60 seconds are as many as the per-minute ceiling, a send
    with a valid message fails without a network call; the error the
    caller observes is the [ChatbotError] of code [NETWORK_ERROR], not a
    rate-limit error: the plain [Error] of the request interceptor has no
    [config], the rejection handler fails on it with a [TypeError], and
    the [catch] block of [sendMessage] files an error without a response
    under [NETWORK_ERROR]; the plain [Error] itself would be filed there
    too.
    (2) Once every recorded timestamp is 60 seconds old, the request
    interceptor lets the next request through and records it. *)
Theorem full_window_surfaces_as_network_error
    (server : Wire.Server) (s : string) (conversationId intent : Js.value)
    (metadata : list (string * Js.value)) (w : World) :
  (Js.allWhiteSpace s = false ->
   Js.length s <= 4000 ->
   Z.of_nat (List.length (RateLimit.window (now w) (tracker w)))
   >= RateLimit.maxPerMinute (tracker w) ->
   sendMessage server (Js.Str s) conversationId intent metadata w
   = (Throw (ChatbotError
               "Unable to connect to chatbot service. Check your internet connection."
               "NETWORK_ERROR" NoDetails),
      pruned w)
   /\ calls (pruned w) = calls w)
  /\ (forall config,
        (forall timestamp, In timestamp (RateLimit.requests (tracker w)) ->
                           timestamp + 60000 <= now w) ->
        0 < RateLimit.maxPerMinute (tracker w) ->
        requestFulfilled config w = (Ok config, recorded w)
        /\ RateLimit.requests (tracker (recorded w)) = [now w])
  /\ classify (JsError "Rate limit exceeded. Please slow down your requests.")
     = ChatbotError
         "Unable to connect to chatbot service. Check your internet connection."
         "NETWORK_ERROR" NoDetails.
Proof.
  split; [| split; [| reflexivity]].
  - intros B L F. split; [| reflexivity].
    change (ChatbotError
              "Unable to connect to chatbot service. Check your internet connection."
              "NETWORK_ERROR" NoDetails)
      with (classify undefinedRetryCount).
    apply sendMessage_rejected.
    + apply ValidationFacts.emptyContent_not_blank, B.
    + cbn [text]. rewrite Z.gtb_ltb. apply Z.ltb_ge. lia.
    + unfold post, chatbotClient. change retryFuel with 4%nat.
      apply chain_full, F.
  - intros config H P.
    pose proof (elapsed_window_is_empty (now w) (tracker w) H) as E.
    unfold requestFulfilled, recorded, RateLimit.canMakeRequest.
    change (filter _ (RateLimit.requests (tracker w)))
      with (RateLimit.window (now w) (tracker w)).
    rewrite E. cbn [fst snd RateLimit.requests RateLimit.maxPerMinute List.length].
    replace (Z.of_nat 0 <? RateLimit.maxPerMinute (tracker w)) with true
      by (symmetry; apply Z.ltb_lt; lia).
    split; reflexivity.
Qed.

(** A browser that recorded 100 requests during the last second, and the
    same browser a minute later. *)
Lemma full_window_surfaces_as_network_error_witness :
  (Z.of_nat (List.length (RateLimit.window (now Sample.saturated)
                                           (tracker Sample.saturated))) = 100
   /\ sendMessage Sample.healthyServer (Js.Str "hello") Js.Null Js.Null [] Sample.saturated
      = (Throw (ChatbotError
                  "Unable to connect to chatbot service. Check your internet connection."
                  "NETWORK_ERROR" NoDetails),
         pruned Sample.saturated)
   /\ calls (pruned Sample.saturated) = calls Sample.saturated)
  /\ (requestFulfilled Sample.firstTry Sample.recovered
      = (Ok Sample.firstTry, recorded Sample.recovered)
      /\ RateLimit.requests (tracker (recorded Sample.recovered))
         = [now Sample.recovered]).
Proof.
  split.
  - split; [vm_compute; reflexivity |].
    apply (proj1 (full_window_surfaces_as_network_error Sample.healthyServer "hello"
                    Js.Null Js.Null [] Sample.saturated)).
    + reflexivity.
    + vm_compute. discriminate.
    + vm_compute. discriminate.
  - apply (proj1 (proj2 (full_window_surfaces_as_network_error Sample.healthyServer
                            "hello" Js.Null Js.Null [] Sample.recovered))).
    + intros timestamp H. apply repeat_spec in H. subst timestamp. vm_compute. discriminate.
    + reflexivity.
Defined.

End RetryFacts.

(* ------------------------------------------------------------------ *)
(** ** The reducer and the provider *)

Module ChatFacts.
Import Chat Terms.

(** A type without a case: every comparison of the [switch] fails. *)
Lemma unhandled_type type :
  handled type = false ->
  String.eqb type SEND_MESSAGE_START = false
  /\ String.eqb type SEND_MESSAGE_SUCCESS = false
  /\ String.eqb type SEND_MESSAGE_FAILURE = false
  /\ String.eqb type SET_ACTIVE_CONVERSATION = false
  /\ String.eqb type LOAD_CONVERSATIONS = false
  /\ String.eqb type CREATE_CONVERSATION = false
  /\ String.eqb type DELETE_CONVERSATION = false
  /\ String.eqb type SET_INPUT_VALUE = false
  /\ String.eqb type SET_TYPING_INDICATOR = false
  /\ String.eqb type CLEAR_ERRORS = false
  /\ String.eqb type SET_SERVICE_STATUS = false
  /\ String.eqb type UPDATE_RATE_LIMIT = false.
Proof.
  unfold handled, CHAT_ACTIONS. cbn [existsb]. intros H.
  repeat (apply orb_false_iff in H; destruct H as [? H]).
  repeat split; assumption.
Qed.

Lemma chatReducer_default clock state action :
  handled (type action) = false -> chatReducer clock state action = Next state.
Proof.
  intros H.
  destruct (unhandled_type _ H)
    as (E1 & E2 & E3 & E4 & E5 & E6 & E7 & E8 & E9 & E10 & E11 & E12).
  unfold chatReducer.
  rewrite E1, E2, E3, E4, E5, E6, E7, E8, E9, E10, E11, E12. reflexivity.
Qed.

Lemma chatReducer_total clock state action :
  wellShaped action = true -> exists state', chatReducer clock state action = Next state'.
Proof.
  intros H. destruct (handled (type action)) eqn:Hh.
  - destruct action as [type payload]. unfold wellShaped in H.
    cbn [Chat.type Chat.payload] in *. rewrite Hh in H. cbn [negb orb] in H.
    destruct (String.eqb type CLEAR_ERRORS) eqn:Hc.
    + apply String.eqb_eq in Hc. subst type. eexists. reflexivity.
    + cbn [orb] in H.
      destruct payload; try discriminate H;
        apply String.eqb_eq in H; subst type; eexists; reflexivity.
  - exists state. apply chatReducer_default, Hh.
Qed.

Lemma chatReducer_clock clock clock' state action :
  stamps (type action) = false ->
  chatReducer clock' state action = chatReducer clock state action.
Proof.
  unfold stamps. cbn [existsb]. intros H.
  repeat (apply orb_false_iff in H; destruct H as [? H]).
  unfold chatReducer.
  repeat match goal with E : String.eqb _ _ = false |- _ => rewrite E; clear E end.
  reflexivity.
Qed.


(** The equations of [dispatch] for the actions of a send. *)
Lemma dispatch_start clock state tempId content :
  dispatch clock {| type := SEND_MESSAGE_START; payload := StartPayload tempId content |}
           state
  = withMessages
      (messages state ++
       [ {| Msg.id := tempId; Msg.tempId := Js.Undefined; Msg.type := USER;
            Msg.content := Js.Str content; Msg.timestamp := clock;
            Msg.isTemporary := Js.Bool true; Msg.intent := Js.Undefined;
            Msg.metadata := Js.Undefined; Msg.conversationId := Js.Undefined;
            Msg.processingTime := Js.Undefined |} ])
      (withError None (withIsSending true state)).
Proof. reflexivity. Qed.

Lemma dispatch_success clock state userMessage assistantMessage conversationId :
  dispatch clock {| type := SEND_MESSAGE_SUCCESS;
                    payload := SuccessPayload userMessage assistantMessage conversationId |}
           state
  = withMessages
      (filter (fun msg => negb (Js.strictEq (Msg.id msg) (Msg.tempId userMessage)))
              (messages state)
       ++ [ Msg.withIsTemporary (Js.Bool false) userMessage; assistantMessage ])
      (withActiveConversation conversationId
         (withInputValue "" (withIsTyping false (withIsSending false state)))).
Proof. reflexivity. Qed.

Lemma dispatch_failure clock state errorType errorMessage details :
  dispatch clock {| type := SEND_MESSAGE_FAILURE;
                    payload := FailurePayload errorType errorMessage details |}
           state
  = withMessages
      (filter (fun msg => negb (Js.truthy (Msg.isTemporary msg))) (messages state))
      (withLastError
         (Some {| lastType := errorType; lastMessage := errorMessage;
                  lastTimestamp := clock; lastDetails := details |})
         (withError (Some errorMessage) (withIsTyping false (withIsSending false state)))).
Proof. reflexivity. Qed.

Lemma dispatch_typing clock state flag :
  dispatch clock {| type := SET_TYPING_INDICATOR; payload := FlagPayload flag |} state
  = withIsTyping flag state.
Proof. reflexivity. Qed.

Lemma dispatch_load clock state list :
  dispatch clock {| type := LOAD_CONVERSATIONS; payload := ListPayload list |} state
  = withConversations list state.
Proof. reflexivity. Qed.

(** C10, as the claim states it, fails: the reducer is not a function of
    the pair (state, action) alone.  The same state and the same
    [SEND_MESSAGE_START] action give two different states when the clock
    reads 0 and when it reads 1, the optimistic message being stamped
    with [new Date().toISOString()] inside the reducer.  Nor is it total:
    the same type without a payload gives no state. *)
Lemma reducer_reads_the_clock :
  let start := {| type := SEND_MESSAGE_START;
                  payload := StartPayload (Js.Str "temp_1") "hi" |} in
  (exists s0 s1,
     chatReducer 0 Sample.fresh start = Next s0
     /\ chatReducer 1 Sample.fresh start = Next s1
     /\ map Msg.timestamp (messages s0) = [0]
     /\ map Msg.timestamp (messages s1) = [1])
  /\ chatReducer 0 Sample.fresh start <> chatReducer 1 Sample.fresh start
  /\ chatReducer 0 Sample.fresh {| type := SEND_MESSAGE_START; payload := NoPayload |}
     = IllShaped.
Proof.
  cbn zeta. split; [| split].
  - do 2 eexists. repeat split.
  - intros H. apply (f_equal (fun r => match r with
                                       | Next s => map Msg.timestamp (messages s)
                                       | IllShaped => []
                                       end)) in H.
    vm_compute in H. discriminate H.
  - reflexivity.
Qed.

(** C10, amended.  For every chat state and every action whose type is
    not one of the handled action types, the reducer returns the state
    unchanged, whatever the clock reads.  The reducer gives a next state
    for every action whose payload has the fields its case reads.  Its
    result is a function of the state, the action and the clock reading,
    and of the state and the action alone for every type other than
    [SEND_MESSAGE_START], [SEND_MESSAGE_FAILURE] and
    [SET_SERVICE_STATUS]. *)
Theorem reducer_default_total_and_clock (clock : Z) (state : State) (action : Action) :
  (handled (type action) = false -> chatReducer clock state action = Next state)
  /\ (wellShaped action = true ->
      exists state', chatReducer clock state action = Next state')
  /\ (stamps (type action) = false ->
      forall clock', chatReducer clock' state action = chatReducer clock state action).
Proof.
  split; [| split].
  - apply chatReducer_default.
  - apply chatReducer_total.
  - intros H clock'. apply chatReducer_clock, H.
Qed.

(** An action of a type the switch does not list; a well-shaped
    [SET_INPUT_VALUE], which also does not read the clock. *)
Lemma reducer_default_total_and_clock_witness :
  chatReducer 5 Sample.talking {| type := "RESET"; payload := NoPayload |}
  = Next Sample.talking
  /\ (exists state',
        chatReducer 5 Sample.talking {| type := SET_INPUT_VALUE; payload := TextPayload "hi" |}
        = Next state')
  /\ chatReducer 9 Sample.talking {| type := SET_INPUT_VALUE; payload := TextPayload "hi" |}
     = chatReducer 5 Sample.talking {| type := SET_INPUT_VALUE; payload := TextPayload "hi" |}.
Proof.
  split; [| split].
  - apply (proj1 (reducer_default_total_and_clock 5 Sample.talking
                    {| type := "RESET"; payload := NoPayload |})).
    reflexivity.
  - apply (proj1 (proj2 (reducer_default_total_and_clock 5 Sample.talking
                           {| type := SET_INPUT_VALUE; payload := TextPayload "hi" |}))).
    reflexivity.
  - apply (proj2 (proj2 (reducer_default_total_and_clock 5 Sample.talking
                           {| type := SET_INPUT_VALUE; payload := TextPayload "hi" |}))).
    reflexivity.
Defined.

(** The messages of [state] that are not temporary. *)
Lemma filter_settled (list : list Msg.t) :
  (forall msg, In msg list -> Js.truthy (Msg.isTemporary msg) = false) ->
  filter (fun msg => negb (Js.truthy (Msg.isTemporary msg))) list = list.
Proof.
  induction list as [|m rest IH]; intros H; cbn [filter].
  - reflexivity.
  - rewrite (H m (or_introl eq_refl)). cbn [negb].
    rewrite IH; [reflexivity |]. intros msg Hm. apply H. right. exact Hm.
Qed.

(** C6.  For every chat state, clock reading and failure payload, the
    send-failure transition gives a state whose message list is the
    previous list without its temporary messages, in the same order:
    a message is in the new list exactly when it was in the old one and
    is not temporary, so no message (in particular no assistant message)
    is appended; [isSending] is cleared and [error] is set to the error
    of the payload.  In particular, a failure that follows a send-start
    on a list without temporary messages gives that list back. *)
Theorem send_failure_drops_optimistic_message
    (clock : Z) (state : State) (errorType errorMessage : string) (details : Client.Details) :
  exists state',
    chatReducer clock state {| Chat.type := SEND_MESSAGE_FAILURE;
                               payload := FailurePayload errorType errorMessage details |}
    = Next state'
    /\ messages state'
       = filter (fun msg => negb (Js.truthy (Msg.isTemporary msg))) (messages state)
    /\ (forall msg, In msg (messages state')
                    <-> In msg (messages state) /\ Js.truthy (Msg.isTemporary msg) = false)
    /\ (List.length (messages state') <= List.length (messages state))%nat
    /\ isSending state' = false
    /\ error state' = Some errorMessage
    /\ (forall clock0 tempId content,
          (forall msg, In msg (messages state) -> Js.truthy (Msg.isTemporary msg) = false) ->
          messages
            (dispatch clock {| Chat.type := SEND_MESSAGE_FAILURE;
                               payload := FailurePayload errorType errorMessage details |}
               (dispatch clock0 {| Chat.type := SEND_MESSAGE_START;
                                   payload := StartPayload tempId content |} state))
          = messages state).
Proof.
  eexists. split; [reflexivity |]. cbn [messages withMessages isSending error withError
                                        withLastError withIsTyping withIsSending].
  split; [reflexivity |].
  split.
  { intros msg. rewrite filter_In, negb_true_iff. reflexivity. }
  split; [apply filter_length_le |].
  split; [reflexivity |]. split; [reflexivity |].
  intros clock0 tempId content H.
  rewrite dispatch_start, dispatch_failure. cbn [messages withMessages].
  rewrite filter_app, (filter_settled _ H). cbn. apply app_nil_r.
Qed.

(** A failure after a send-start on the open conversation of
    [Sample.talking]: the earlier message stays, the optimistic one
    goes. *)
Lemma send_failure_drops_optimistic_message_witness :
  (forall msg, In msg (messages Sample.talking) -> Js.truthy (Msg.isTemporary msg) = false)
  /\ messages
       (dispatch 20 {| Chat.type := SEND_MESSAGE_FAILURE;
                       payload := FailurePayload "TIMEOUT" "The request timed out."
                                                 Client.NoDetails |}
          (dispatch 10 {| Chat.type := SEND_MESSAGE_START;
                          payload := StartPayload (Js.Str "temp_1") "hi" |}
             Sample.talking))
     = [Sample.earlier].
Proof.
  assert (H : forall msg, In msg (messages Sample.talking) ->
                          Js.truthy (Msg.isTemporary msg) = false).
  { intros msg [<- | []]. reflexivity. }
  split; [exact H |].
  destruct (send_failure_drops_optimistic_message 20 Sample.talking "TIMEOUT"
              "The request timed out." Client.NoDetails)
    as (state' & _ & _ & _ & _ & _ & _ & R).
  exact (R 10 (Js.Str "temp_1") "hi" H).
Defined.


(** A send whose API call is rejected: the store ends with the messages
    it had (the optimistic message is gone and nothing is appended),
    [isSending] cleared and [error] set to the user-facing message. *)
Lemma failed_send_restores_messages
    (server : Wire.Server) (userId : Js.value) (fresh : Ids) (closed state : State)
    (content intent : string) (w w' : Client.World) (thrown : Client.Thrown) :
  (String.eqb content "" || (Js.length (Js.trim content) =? 0)) = false ->
  callApi server userId closed content intent w = (Client.Throw thrown, w') ->
  (forall msg, In msg (messages state) -> Js.truthy (Msg.isTemporary msg) = false) ->
  exists state',
    sendMessage server true userId fresh closed content intent w state
    = (Client.Ok (NotSent (snd (fst (describe thrown))) (fst (fst (describe thrown)))
                          (snd (describe thrown))),
       w', state')
    /\ messages state' = messages state
    /\ isSending state' = false
    /\ error state' = Some (snd (fst (describe thrown))).
Proof.
  intros C Api H. unfold sendMessage. cbn [negb]. rewrite C, Api.
  destruct (describe thrown) as [[errorType errorMessage] errorDetails].
  cbn [fst snd]. eexists. split; [reflexivity |].
  unfold typingTimer.
  destruct (Client.now w + 500 <=? Client.now w');
    rewrite ?dispatch_typing, dispatch_start, dispatch_failure;
    cbn [messages isSending error withMessages withLastError withError withIsTyping
         withIsSending];
    rewrite filter_app, (filter_settled _ H); cbn; rewrite app_nil_r; repeat split.
Qed.

(** C4, what the code does.  [getStatus] catches every failure of the
    status request and resolves to [{ success: false, ... }], so the
    [catch] block of [checkServiceStatus] (the one that warns on the
    console and stores [down]) is never entered: whenever the status
    request does not succeed, nothing is written to the console (the
    status client has no interceptor, so not in a development build
    either) and the status stored in the chat state is [degraded].
    Whatever the answer, the stored status is [healthy] or [degraded]. *)
Theorem failed_poll_stores_degraded
    (server : Wire.Server) (w : Client.World) (state : State) :
  (answers2xx (server (List.length (Client.calls w))) = false ->
   (exists error status,
      fst (Client.getStatus server w) = Client.Ok (Client.StatusFailed error status))
   /\ serviceStatus (snd (checkServiceStatus server w state)) = degraded
   /\ Client.console (fst (checkServiceStatus server w state)) = Client.console w)
  /\ (serviceStatus (snd (checkServiceStatus server w state)) = healthy
      \/ serviceStatus (snd (checkServiceStatus server w state)) = degraded).
Proof.
  unfold answers2xx, checkServiceStatus, Client.getStatus, Client.tryCatch, Client.bind,
    Client.dispatchRequest.
  destruct (Wire.outcome (server (List.length (Client.calls w)))) as [r| |].
  - destruct ((200 <=? Wire.status r) && (Wire.status r <? 300)).
    + split; [discriminate | left; reflexivity].
    + split; [intros _ | right; reflexivity].
      split; [do 2 eexists; reflexivity | split; reflexivity].
  - split; [intros _ | right; reflexivity].
    split; [do 2 eexists; reflexivity | split; reflexivity].
  - split; [intros _ | right; reflexivity].
    split; [do 2 eexists; reflexivity | split; reflexivity].
Qed.

(** A server that cannot be reached, and one that answers 503. *)
Lemma failed_poll_stores_degraded_witness :
  (serviceStatus (snd (checkServiceStatus Sample.unreachable Sample.idle Sample.fresh))
   = degraded
   /\ Client.console (fst (checkServiceStatus Sample.unreachable Sample.idle Sample.fresh))
      = [])
  /\ serviceStatus (snd (checkServiceStatus (Sample.always 503) Sample.idle Sample.fresh))
     = degraded.
Proof.
  split.
  - apply (proj1 (failed_poll_stores_degraded Sample.unreachable Sample.idle Sample.fresh)).
    reflexivity.
  - apply (proj1 (failed_poll_stores_degraded (Sample.always 503) Sample.idle Sample.fresh)).
    reflexivity.
Defined.

(** C5.  For every chat state with no active conversation and an empty
    message list (the state the callback closed over being the state of
    the store), when the API call of a send is fulfilled with a
    conversation id the code takes for one (a truthy value), the send
    resolves to its success result and the store ends in a state where
    the active conversation is that id, a new entry for that id stands at
    the front of the conversation list, before the former entries, and
    the message list holds exactly two messages: the user message, no
    longer temporary, with the trimmed content, followed by the
    assistant message with the reply. *)
Theorem first_send_opens_a_conversation
    (server : Wire.Server) (userId : Js.value) (fresh : Ids) (state : State)
    (content intent : string) (w w' : Client.World) (reply : Client.Reply) :
  Js.truthy (activeConversation state) = false ->
  messages state = [] ->
  (String.eqb content "" || (Js.length (Js.trim content) =? 0)) = false ->
  callApi server userId state content intent w = (Client.Ok reply, w') ->
  Js.truthy (Client.conversationId (Client.data reply)) = true ->
  exists userMessage assistantMessage entry state',
    sendMessage server true userId fresh state content intent w state
    = (Client.Ok (Sent (Client.conversationId (Client.data reply))
                       [userMessage; assistantMessage]
                       (Client.metadata (Client.data reply))),
       w', state')
    /\ activeConversation state' = Client.conversationId (Client.data reply)
    /\ conversations state' = entry :: conversations state
    /\ Conv.id entry = Client.conversationId (Client.data reply)
    /\ messages state' = [Msg.withIsTemporary (Js.Bool false) userMessage; assistantMessage]
    /\ Msg.type userMessage = USER
    /\ Msg.content userMessage = Js.Str (Js.trim content)
    /\ Msg.type assistantMessage = ASSISTANT
    /\ Msg.content assistantMessage = Client.reply (Client.data reply).
Proof.
  intros A M C Api T.
  unfold sendMessage. cbn [negb]. rewrite C, Api, A, T. cbn [negb andb].
  do 4 eexists. split; [reflexivity |].
  unfold typingTimer.
  destruct (Client.now w + 500 <=? Client.now w');
    rewrite ?dispatch_typing, dispatch_start, dispatch_success, dispatch_load;
    cbn [activeConversation conversations messages withConversations withMessages
         withActiveConversation withInputValue withIsTyping withIsSending withError
         Conv.id Msg.type Msg.content Msg.tempId];
    rewrite M; cbn [app filter Msg.id Js.strictEq];
    rewrite String.eqb_refl; cbn [negb app];
    repeat split.
Qed.


(** A first message sent from the initial state to a healthy server,
    which opens conversation 7. *)
Lemma first_send_opens_a_conversation_witness :
  exists state',
    snd (sendMessage Sample.healthyServer true (Js.Num 1) Sample.ids Sample.fresh
           "hello" "general" Sample.idle Sample.fresh)
    = state'
    /\ activeConversation state' = Js.Num 7
    /\ map Conv.id (conversations state') = [Js.Num 7]
    /\ map Msg.type (messages state') = [USER; ASSISTANT]
    /\ map Msg.content (messages state') = [Js.Str "hello"; Js.Str "Hello!"].
Proof.
  edestruct (first_send_opens_a_conversation Sample.healthyServer (Js.Num 1) Sample.ids
               Sample.fresh "hello" "general" Sample.idle)
    as (userMessage & assistantMessage & entry & state' & E & A & C & I & M & Tu & Cu & Ta & Ca).
  - reflexivity.
  - reflexivity.
  - reflexivity.
  - vm_compute. reflexivity.
  - reflexivity.
  - exists state'. rewrite E, A, C, M. cbn [snd map Msg.type Msg.content Msg.withIsTemporary].
    rewrite I, Tu, Cu, Ta, Ca. repeat split.
Defined.

End ChatFacts.

(* ------------------------------------------------------------------ *)
(** ** Strings *)

Module JsFacts.

Lemma trimStart_cases s :
  Js.trimStart s = ""
  \/ exists c rest, Js.trimStart s = String c rest /\ Js.isWhiteSpace c = false.
Proof.
  induction s as [|c rest IH]; cbn [Js.trimStart].
  - left. reflexivity.
  - destruct (Js.isWhiteSpace c) eqn:Hc; [exact IH |].
    right. exists c, rest. split; [reflexivity | exact Hc].
Qed.

Lemma trimEnd_idempotent s : Js.trimEnd (Js.trimEnd s) = Js.trimEnd s.
Proof.
  induction s as [|c rest IH]; [reflexivity |].
  cbn [Js.trimEnd].
  destruct (Js.trimEnd rest) as [|d kept] eqn:E.
  - destruct (Js.isWhiteSpace c) eqn:Hc; [reflexivity |].
    cbn [Js.trimEnd]. rewrite Hc. reflexivity.
  - change (Js.trimEnd (String c (String d kept)))
      with (match Js.trimEnd (String d kept) with
            | EmptyString => if Js.isWhiteSpace c then EmptyString else String c EmptyString
            | kept' => String c kept'
            end).
    rewrite IH. reflexivity.
Qed.

(** [trim] is idempotent. *)
Lemma trim_idempotent s : Js.trim (Js.trim s) = Js.trim s.
Proof.
  unfold Js.trim.
  destruct (trimStart_cases s) as [E | (c & rest & E & Hc)]; rewrite E.
  - reflexivity.
  - destruct (ValidationFacts.trimEnd_head c rest Hc) as (kept & K). rewrite K.
    cbn [Js.trimStart]. rewrite Hc, <- K. apply trimEnd_idempotent.
Qed.

Lemma trimStart_length s :
  (String.length (Js.trimStart s) <= String.length s)%nat.
Proof.
  induction s as [|c rest IH]; cbn [Js.trimStart]; [lia |].
  destruct (Js.isWhiteSpace c); cbn [String.length]; lia.
Qed.

Lemma trimEnd_length s :
  (String.length (Js.trimEnd s) <= String.length s)%nat.
Proof.
  induction s as [|c rest IH]; cbn [Js.trimEnd]; [lia |].
  destruct (Js.trimEnd rest) as [|d kept].
  - destruct (Js.isWhiteSpace c); cbn [String.length]; lia.
  - cbn [String.length] in *. lia.
Qed.

Lemma trim_length s : Js.length (Js.trim s) <= Js.length s.
Proof.
  unfold Js.length, Js.trim.
  pose proof (trimEnd_length (Js.trimStart s)). pose proof (trimStart_length s). lia.
Qed.

(** A text whose trimmed form is not empty is not blank, and neither is
    the trimmed form. *)
Lemma trim_nonempty_not_blank s :
  Js.length (Js.trim s) > 0 ->
  Js.allWhiteSpace s = false /\ Js.allWhiteSpace (Js.trim s) = false.
Proof.
  intros H.
  assert (B : Js.allWhiteSpace s = false).
  { destruct (Js.allWhiteSpace s) eqn:E; [| reflexivity].
    rewrite (ValidationFacts.trim_blank s E) in H. cbn in H. lia. }
  split; [exact B |].
  destruct (ValidationFacts.trimStart_head s B) as (c & rest & E & Hc).
  unfold Js.trim. rewrite E.
  destruct (ValidationFacts.trimEnd_head c rest Hc) as (kept & K). rewrite K.
  cbn [Js.allWhiteSpace]. rewrite Hc. reflexivity.
Qed.

Lemma length_zero s : (Js.length s =? 0) = String.eqb s "".
Proof. destruct s; reflexivity. Qed.

End JsFacts.

(* ------------------------------------------------------------------ *)
(** ** What the promise chain rejects with *)

Module ChainFacts.
Import Client Terms Outcomes RetryFacts.

Lemma withConfig_fromChain error config :
  fromChain (withConfig error config) = fromChain error.
Proof. destruct error as [m c g [r|] | | |]; reflexivity. Qed.

(** The adapter rejects with an axios error that carries the request
    and, if any, a response outside 2xx. *)
Lemma dispatchRequest_fromChain server timeout config w error w' :
  dispatchRequest server timeout config w = (Throw error, w') -> fromChain error = true.
Proof.
  unfold dispatchRequest.
  destruct (Wire.outcome (server (List.length (calls w)))) as [r| |].
  - destruct ((200 <=? Wire.status r) && (Wire.status r <? 300)) eqn:E;
      intros H; inversion H; subst. cbn [fromChain]. unfold is2xx. rewrite E. reflexivity.
  - intros H; inversion H; reflexivity.
  - intros H; inversion H; reflexivity.
Qed.

(** The rejection handler turns such an error, or the plain error of
    the request interceptor, into an error of the same kind, unless it
    goes for a retry. *)
Lemma responseRejected_fromChain retry error w thrown w' :
  (forall config w0 e w1, retry config w0 = (Throw e, w1) -> fromChain e = true) ->
  (fromChain error = true \/ exists m, error = JsError m) ->
  responseRejected retry error w = (Throw thrown, w') ->
  fromChain thrown = true.
Proof.
  intros R E. unfold responseRejected.
  destruct (isNum (status_of error) 401) eqn:S1.
  { destruct E as [E | (m & ->)]; [| discriminate S1].
    intros H; inversion H; subst. exact E. }
  destruct (isNum (status_of error) 429) eqn:S2.
  { destruct (response_of error) eqn:Hr.
    - intros H; inversion H; reflexivity.
    - unfold status_of in S2. rewrite Hr in S2. discriminate S2. }
  destruct (isNum (status_of error) 422) eqn:S3.
  { intros H; inversion H; reflexivity. }
  destruct (shouldRetry error) eqn:SR.
  - destruct (config_of error) as [request|] eqn:C.
    + assert (F : fromChain error = true).
      { destruct E as [E | (m & ->)]; [exact E | discriminate C]. }
      unfold bind, ret, throw, log, sleep.
      destruct (noNum (_retryCount request));
        cbn [_retryCount setRetryCount];
        match goal with
        | |- context [if ltNum ?c ?n then _ else _] => destruct (ltNum c n)
        end;
        try (intros H; apply R in H; exact H);
        intros H; inversion H; subst; rewrite withConfig_fromChain; exact F.
    + unfold bind, throw. intros H; inversion H; reflexivity.
  - unfold bind, ret, throw. intros H; inversion H; subst.
    destruct E as [E | (m & ->)]; [exact E | discriminate SR].
Qed.

(** Whatever the chain rejects with is an error of that kind. *)
Lemma chain_fromChain server fuel : forall config w error w',
  chatbotClientWithin server fuel config w = (Throw error, w') -> fromChain error = true.
Proof.
  induction fuel as [|fuel IH]; intros config w error w'.
  - cbn. discriminate.
  - cbn [chatbotClientWithin]. unfold tryCatch, bind.
    destruct (requestFulfilled_frame config w) as [E | (m & E)]; rewrite E.
    + destruct (dispatchRequest server chatbotTimeout config (recorded w))
        as [[r | e |] w1] eqn:D; try discriminate.
      apply responseRejected_fromChain; [exact IH |].
      left. apply (dispatchRequest_fromChain _ _ _ _ _ _ D).
    + apply responseRejected_fromChain; [exact IH |].
      right. exists m. reflexivity.
Qed.

(** A request of [chatbotClient] settles. *)
Lemma chatbotClient_settles server config w :
  _retryCount config = None -> fst (chatbotClient server config w) <> Pending.
Proof.
  intros C.
  pose proof (run_shape server retryFuel config w) as H.
  unfold retriesOf in H. rewrite C in H.
  destruct (H ltac:(lia)) as (P & _). apply P. vm_compute. reflexivity.
Qed.

(** An error without a 2xx response is never taken for a 200. *)
Lemma fromChain_not_200 error : fromChain error = true -> isNum (status_of error) 200 = false.
Proof.
  destruct error as [m c g [r|] | | |]; try reflexivity.
  cbn [fromChain status_of response_of option_map isNum]. unfold is2xx.
  intros H. apply negb_true_iff, andb_false_iff in H. apply Z.eqb_neq.
  destruct H as [H | H]; [apply Z.leb_gt in H | apply Z.ltb_ge in H]; lia.
Qed.

(** The [catch] block of [sendMessage] files every such error under a
    code of the taxonomy. *)
Lemma classify_taxonomy error :
  fromChain error = true \/ (exists m, error = JsError m)
  \/ (exists m, error = ChatbotError m "INVALID_RESPONSE" NoDetails) ->
  exists message code details,
    classify error = ChatbotError message code details /\ In code taxonomy.
Proof.
  intros H. unfold classify.
  destruct error as [m c g r | m code d | m | m].
  2: { exists m, code, d. split; [reflexivity |].
       destruct H as [H | [(m' & H) | (m' & H)]]; [| discriminate H |].
       - cbn [fromChain] in H. apply orb_true_iff in H.
         destruct H as [H | H]; apply String.eqb_eq in H; subst code; cbn; tauto.
       - inversion H. cbn. tauto. }
  all: repeat match goal with
       | |- context [if ?b then _ else _] => destruct b
       | |- context [match response_of ?e with _ => _ end] => destruct (response_of e)
       end;
    do 3 eexists; (split; [reflexivity | cbn; tauto]).
Qed.

(** An error of the chain is never filed under a code of the input
    checks. *)
Lemma classify_transport error :
  fromChain error = true ->
  exists message code details,
    classify error = ChatbotError message code details
    /\ code <> "INVALID_INPUT" /\ code <> "MESSAGE_TOO_LONG" /\ code <> "INVALID_RESPONSE".
Proof.
  intros H. unfold classify.
  destruct error as [m c g r | m code d | m | m].
  2: { exists m, code, d. split; [reflexivity |].
       cbn [fromChain] in H. apply orb_true_iff in H.
       destruct H as [H | H]; apply String.eqb_eq in H; subst code;
         repeat split; discriminate. }
  all: repeat match goal with
       | |- context [if ?b then _ else _] => destruct b
       | |- context [match response_of ?e with _ => _ end] => destruct (response_of e)
       end;
    do 3 eexists; (split; [reflexivity | repeat split; discriminate]).
Qed.




End ChainFacts.

(* ------------------------------------------------------------------ *)
(** ** The endpoints of [chatbotAPI] *)

Module ApiFacts.
Import Client Terms Outcomes RetryFacts ChainFacts.

(** A retryable answer makes the adapter reject with the axios error of
    that answer. *)
Lemma dispatchRequest_retryable server timeout config w :
  retryable (server (List.length (calls w))) = true ->
  exists msg elapsed,
    dispatchRequest server timeout config w
    = (Throw (AxiosError msg (axiosCode (server (List.length (calls w)))) (Some config)
                         (responseOf (server (List.length (calls w))))),
       afterCall config elapsed w).
Proof.
  unfold retryable, dispatchRequest, axiosCode, responseOf.
  destruct (Wire.outcome (server (List.length (calls w)))) as [r| |]; intros H.
  - replace ((200 <=? Wire.status r) && (Wire.status r <? 300)) with false
      by (symmetry; apply andb_false_iff; right; apply Z.ltb_ge; apply Z.leb_le in H; lia).
    do 2 eexists. reflexivity.
  - do 2 eexists. reflexivity.
  - do 2 eexists. reflexivity.
Qed.

Lemma retryable_transient e : retryable e = true -> transient (responseOf e).
Proof.
  unfold retryable, responseOf, transient.
  destruct (Wire.outcome e) as [r| |]; intros H; [right | left; reflexivity..].
  exists r. split; [reflexivity | apply Z.leb_le, H].
Qed.

(** A 2xx answer fulfils the promise of the adapter. *)
Lemma dispatchRequest_2xx server timeout config w r :
  Wire.outcome (server (List.length (calls w))) = Wire.Replied r ->
  is2xx r = true ->
  dispatchRequest server timeout config w
  = (Ok r, afterCall config (Wire.elapsed (server (List.length (calls w)))) w).
Proof.
  unfold dispatchRequest, is2xx. intros O H. rewrite O, H. reflexivity.
Qed.

(** [k] retryable answers followed by a 2xx response, with retries left
    for each of them: the chain is fulfilled with that response after
    [k + 1] requests, having waited the delays of [k] consecutive
    retries. *)
Lemma recovers server : forall (k fuel : nat) config w r,
  0 <= retriesOf config ->
  retriesOf config + Z.of_nat k <= maxRetries RETRY_CONFIG ->
  (k < fuel)%nat ->
  room (Z.of_nat k + 1) w ->
  (forall i, (i < k)%nat -> retryable (server (List.length (calls w) + i)%nat) = true) ->
  Wire.outcome (server (List.length (calls w) + k)%nat) = Wire.Replied r ->
  is2xx r = true ->
  exists w',
    chatbotClientWithin server fuel config w = (Ok r, w')
    /\ List.length (calls w') = (List.length (calls w) + k + 1)%nat
    /\ delays w' = delays w ++ schedule (retriesOf config + 1) k.
Proof.
  induction k as [|k IH]; intros fuel config w r R0 R F Hroom Hfail Hlast H2;
    (destruct fuel as [|fuel]; [lia |]);
    assert (Hroom1 : room 1 w) by (unfold room in *; lia);
    rewrite (chain_step server fuel config w Hroom1).
  - rewrite Nat.add_0_r in Hlast.
    change (calls w) with (calls (recorded w)) in Hlast.
    rewrite (dispatchRequest_2xx server chatbotTimeout config (recorded w) r Hlast H2).
    eexists. split; [reflexivity |].
    cbn [afterCall calls delays recorded setTracker schedule].
    rewrite length_app, app_nil_r. cbn. split; [lia | reflexivity].
  - pose proof (Hfail O ltac:(lia)) as H0. rewrite Nat.add_0_r in H0.
    change (calls w) with (calls (recorded w)) in H0.
    destruct (dispatchRequest_retryable server chatbotTimeout config (recorded w) H0)
      as (msg & elapsed & D).
    rewrite D.
    rewrite responseRejected_retries; [| apply retryable_transient, H0 | lia].
    set (w1 := afterCall config elapsed (recorded w)).
    set (config1 := setRetryCount (retriesOf config + 1) config).
    assert (C1 : calls (slept (retriesOf config + 1) w1) = calls w ++ [config])
      by reflexivity.
    assert (D1 : delays (slept (retriesOf config + 1) w1)
                 = delays w ++ [backoff (retriesOf config + 1)]) by reflexivity.
    destruct (IH fuel config1 (slept (retriesOf config + 1) w1) r)
      as (w' & E & Hc & Hd).
    + change (retriesOf config1) with (retriesOf config + 1). lia.
    + change (retriesOf config1) with (retriesOf config + 1). lia.
    + lia.
    + change (room (Z.of_nat k + 1) (recorded w)). apply recorded_room.
      replace (Z.of_nat k + 1 + 1) with (Z.of_nat (S k) + 1) by lia. exact Hroom.
    + intros i Hi. rewrite C1, length_app. cbn [List.length].
      replace (List.length (calls w) + 1 + i)%nat with (List.length (calls w) + S i)%nat
        by lia.
      apply Hfail. lia.
    + rewrite C1, length_app. cbn [List.length].
      replace (List.length (calls w) + 1 + k)%nat with (List.length (calls w) + S k)%nat
        by lia.
      exact Hlast.
    + exact H2.
    + exists w'. split; [exact E |].
      rewrite Hc, Hd, C1, D1, length_app, <- app_assoc. cbn [List.length schedule app].
      change (retriesOf config1) with (retriesOf config + 1).
      split; [lia | reflexivity].
Qed.

(** When every answer is retryable and the rate window has room, the
    chain runs through all the retries that are left and throws the
    axios error of the last answer. *)
Lemma exhausts_retryable server : forall (m fuel : nat) config w,
  retriesOf config = maxRetries RETRY_CONFIG - Z.of_nat m ->
  (m < fuel)%nat ->
  room (Z.of_nat m + 1) w ->
  (forall i, (i <= m)%nat -> retryable (server (List.length (calls w) + i)%nat) = true) ->
  exists msg config' w',
    chatbotClientWithin server fuel config w
    = (Throw (AxiosError msg (axiosCode (server (List.length (calls w) + m)%nat)) config'
                         (responseOf (server (List.length (calls w) + m)%nat))), w')
    /\ List.length (calls w') = (List.length (calls w) + m + 1)%nat
    /\ delays w' = delays w ++ schedule (retriesOf config + 1) m.
Proof.
  induction m as [|m IH]; intros fuel config w R F Hroom Hfail;
    (destruct fuel as [|fuel]; [lia |]);
    assert (Hroom1 : room 1 w) by (unfold room in *; lia);
    rewrite (chain_step server fuel config w Hroom1);
    pose proof (Hfail O ltac:(lia)) as H0; rewrite Nat.add_0_r in H0;
    change (calls w) with (calls (recorded w)) in H0;
    destruct (dispatchRequest_retryable server chatbotTimeout config (recorded w) H0)
      as (msg & elapsed & D);
    rewrite D; change (calls (recorded w)) with (calls w).
  - rewrite responseRejected_gives_up; [| apply retryable_transient, H0 | lia].
    rewrite Nat.add_0_r.
    do 3 eexists. split; [reflexivity |].
    cbn [afterCall calls delays recorded setTracker schedule].
    rewrite length_app, app_nil_r. cbn. split; [lia | reflexivity].
  - rewrite responseRejected_retries; [| apply retryable_transient, H0 | lia].
    set (w1 := afterCall config elapsed (recorded w)).
    set (config1 := setRetryCount (retriesOf config + 1) config).
    assert (C1 : calls (slept (retriesOf config + 1) w1) = calls w ++ [config])
      by reflexivity.
    assert (D1 : delays (slept (retriesOf config + 1) w1)
                 = delays w ++ [backoff (retriesOf config + 1)]) by reflexivity.
    destruct (IH fuel config1 (slept (retriesOf config + 1) w1))
      as (msg' & config' & w' & E & Hc & Hd).
    + change (retriesOf config1) with (retriesOf config + 1). lia.
    + lia.
    + change (room (Z.of_nat m + 1) (recorded w)). apply recorded_room.
      replace (Z.of_nat m + 1 + 1) with (Z.of_nat (S m) + 1) by lia. exact Hroom.
    + intros i Hi. rewrite C1, length_app. cbn [List.length].
      replace (List.length (calls w) + 1 + i)%nat with (List.length (calls w) + S i)%nat
        by lia.
      apply Hfail. lia.
    + rewrite C1, length_app in E. cbn [List.length] in E.
      replace (List.length (calls w) + 1 + m)%nat with (List.length (calls w) + S m)%nat
        in E by lia.
      exists msg', config', w'.
      split; [exact E |].
      rewrite Hc, Hd, C1, D1, length_app, <- app_assoc. cbn [List.length schedule app].
      change (retriesOf config1) with (retriesOf config + 1).
      split; [lia | reflexivity].
Qed.

(** [classify] on the axios error of a retryable answer. *)
Lemma classify_retryable msg config e :
  retryable e = true ->
  exists message,
    classify (AxiosError msg (axiosCode e) config (responseOf e))
    = ChatbotError message (failureCode e) NoDetails.
Proof.
  unfold retryable, axiosCode, responseOf, failureCode.
  destruct (Wire.outcome e) as [r| |]; intros H.
  - rewrite classify_server_error by (apply Z.leb_le, H). eexists. reflexivity.
  - eexists. reflexivity.
  - eexists. reflexivity.
Qed.

(** A text that is not blank and not too long passes both checks of
    [sendMessage]. *)
Lemma valid_text s :
  Js.allWhiteSpace s = false ->
  Js.length s <= 4000 ->
  emptyContent (Js.Str s) = false /\ (Js.length (text (Js.Str s)) >? 4000) = false.
Proof.
  intros B L. split; [apply ValidationFacts.emptyContent_not_blank, B |].
  cbn [text]. rewrite Z.gtb_ltb. apply Z.ltb_ge. lia.
Qed.

Lemma sendMessage_no_reply server content conversationId intent metadata w response w' :
  emptyContent content = false ->
  (Js.length (text content) >? 4000) = false ->
  post server CHAT (payloadOf content conversationId intent metadata) w = (Ok response, w') ->
  Js.truthy (Wire.reply (Wire.data response)) = false ->
  sendMessage server content conversationId intent metadata w
  = (Throw (ChatbotError "Invalid response from chatbot service" "INVALID_RESPONSE"
                         NoDetails), w').
Proof.
  unfold emptyContent, sendMessage, tryCatch, bind, payloadOf. intros E L P T.
  rewrite E, L, P, T. reflexivity.
Qed.

Lemma sendMessage_pending server content conversationId intent metadata w w' :
  emptyContent content = false ->
  (Js.length (text content) >? 4000) = false ->
  post server CHAT (payloadOf content conversationId intent metadata) w = (Pending, w') ->
  sendMessage server content conversationId intent metadata w = (Pending, w').
Proof.
  unfold emptyContent, sendMessage, tryCatch, bind, payloadOf. intros E L P.
  rewrite E, L, P. reflexivity.
Qed.

(** [sendMessage] settles. *)
Lemma sendMessage_settles server content conversationId intent metadata w :
  fst (sendMessage server content conversationId intent metadata w) <> Pending.
Proof.
  destruct (emptyContent content) eqn:E.
  { rewrite ValidationFacts.sendMessage_empty by exact E. discriminate. }
  destruct (Js.length (text content) >? 4000) eqn:L.
  { rewrite ValidationFacts.sendMessage_long by assumption. discriminate. }
  destruct (post server CHAT (payloadOf content conversationId intent metadata) w)
    as [[response | thrown |] w'] eqn:P.
  - destruct (Js.truthy (Wire.reply (Wire.data response))) eqn:T.
    + rewrite (sendMessage_replied _ _ _ _ _ _ _ _ E L P T). discriminate.
    + rewrite (sendMessage_no_reply _ _ _ _ _ _ _ _ E L P T). discriminate.
  - rewrite (sendMessage_rejected _ _ _ _ _ _ _ _ E L P). discriminate.
  - exfalso.
    apply (chatbotClient_settles server
             (request "post" CHAT (Some (payloadOf content conversationId intent metadata)))
             w eq_refl).
    unfold post in P. unfold request. rewrite P. reflexivity.
Qed.

(** A text that passes the checks is never rejected with a code of the
    checks. *)
Lemma sendMessage_valid_rejection server content conversationId intent metadata w thrown w' :
  emptyContent content = false ->
  (Js.length (text content) >? 4000) = false ->
  sendMessage server content conversationId intent metadata w = (Throw thrown, w') ->
  exists message code details,
    thrown = ChatbotError message code details
    /\ code <> "INVALID_INPUT" /\ code <> "MESSAGE_TOO_LONG".
Proof.
  intros E L.
  destruct (post server CHAT (payloadOf content conversationId intent metadata) w)
    as [[response | error |] w1] eqn:P.
  - destruct (Js.truthy (Wire.reply (Wire.data response))) eqn:T.
    + rewrite (sendMessage_replied _ _ _ _ _ _ _ _ E L P T). discriminate.
    + rewrite (sendMessage_no_reply _ _ _ _ _ _ _ _ E L P T).
      intros H. inversion H. do 3 eexists. repeat split; discriminate.
  - rewrite (sendMessage_rejected _ _ _ _ _ _ _ _ E L P).
    intros H. inversion H.
    destruct (classify_transport error (chain_fromChain server retryFuel _ _ _ _ P))
      as (message & code & details & C & N1 & N2 & _).
    exists message, code, details. repeat split; assumption.
  - rewrite (sendMessage_pending _ _ _ _ _ _ _ E L P). discriminate.
Qed.

(** X1.  Whatever the input, the server and the state of the browser,
    [chatbotAPI.sendMessage] settles, and it settles in one of two ways:
    it is fulfilled with [success: true] and a reply that is truthy, or
    it is rejected with a [ChatbotError] whose code is one of the ten
    codes of the file.  No axios error, plain [Error] or [TypeError]
    reaches the caller. *)
Theorem send_settles_within_the_taxonomy
    (server : Wire.Server) (content conversationId intent : Js.value)
    (metadata : list (string * Js.value)) (w : World) :
  match fst (sendMessage server content conversationId intent metadata w) with
  | Ok answer => success answer = true /\ Js.truthy (reply (data answer)) = true
  | Throw error =>
      exists message code details,
        error = ChatbotError message code details /\ In code taxonomy
  | Pending => False
  end.
Proof.
  destruct (emptyContent content) eqn:E.
  { rewrite ValidationFacts.sendMessage_empty by exact E.
    cbn [fst]. do 3 eexists. split; [reflexivity | cbn; tauto]. }
  destruct (Js.length (text content) >? 4000) eqn:L.
  { rewrite ValidationFacts.sendMessage_long by assumption.
    cbn [fst]. do 3 eexists. split; [reflexivity | cbn; tauto]. }
  destruct (post server CHAT (payloadOf content conversationId intent metadata) w)
    as [[response | thrown |] w'] eqn:P.
  - destruct (Js.truthy (Wire.reply (Wire.data response))) eqn:T.
    + rewrite (sendMessage_replied _ _ _ _ _ _ _ _ E L P T). cbn. split; [reflexivity | exact T].
    + rewrite (sendMessage_no_reply _ _ _ _ _ _ _ _ E L P T).
      cbn [fst]. do 3 eexists. split; [reflexivity | cbn; tauto].
  - rewrite (sendMessage_rejected _ _ _ _ _ _ _ _ E L P). cbn [fst].
    apply classify_taxonomy. left.
    unfold post, chatbotClient in P. apply (chain_fromChain _ _ _ _ _ _ P).
  - exfalso.
    apply (chatbotClient_settles server
             (request "post" CHAT (Some (payloadOf content conversationId intent metadata)))
             w eq_refl).
    unfold post in P. unfold request. rewrite P. reflexivity.
Qed.

(** X2.  For every text that passes the checks, when the first [k]
    answers ([k] at most 3) are failures the retry logic is meant for (no
    response, or a status of 500 or more), the next answer is a 2xx
    response with a reply, and the rate window has room for [k + 1]
    requests, [sendMessage] is fulfilled with that reply after exactly
    [k + 1] requests, having waited the delays of retries 1 to [k]:
    nothing for [k = 0], [retryDelay] alone for [k = 1]. *)
Theorem send_recovers_within_the_retry_budget
    (server : Wire.Server) (s : string) (conversationId intent : Js.value)
    (metadata : list (string * Js.value)) (w : World) (k : nat) (r : Wire.Response) :
  Js.allWhiteSpace s = false ->
  Js.length s <= 4000 ->
  (k <= 3)%nat ->
  room (Z.of_nat k + 1) w ->
  (forall i, (i < k)%nat -> retryable (server (List.length (calls w) + i)%nat) = true) ->
  Wire.outcome (server (List.length (calls w) + k)%nat) = Wire.Replied r ->
  is2xx r = true ->
  Js.truthy (Wire.reply (Wire.data r)) = true ->
  exists answer w',
    sendMessage server (Js.Str s) conversationId intent metadata w = (Ok answer, w')
    /\ reply (data answer) = Wire.reply (Wire.data r)
    /\ Client.conversationId (data answer) = Wire.conversation_id (Wire.data r)
    /\ List.length (calls w') = (List.length (calls w) + k + 1)%nat
    /\ delays w' = delays w ++ schedule 1 k
    /\ (k = 1%nat -> delays w' = delays w ++ [retryDelay RETRY_CONFIG]).
Proof.
  intros B L K Hroom Hfail Hlast H2 T.
  destruct (valid_text s B L) as (E & G).
  destruct (recovers server k retryFuel
              (request "post" CHAT (Some (payloadOf (Js.Str s) conversationId intent metadata)))
              w r) as (w' & P & Hc & Hd); try assumption.
  - cbn. lia.
  - cbn. lia.
  - change retryFuel with 4%nat. lia.
  - do 2 eexists. split; [apply sendMessage_replied; eassumption |].
    cbn [data reply Client.conversationId].
    split; [reflexivity |]. split; [reflexivity |]. split; [exact Hc |].
    split; [exact Hd |]. intros ->. exact Hd.
Qed.

(** A 500 response followed by the reply of [Sample.helloData]. *)
Lemma send_recovers_within_the_retry_budget_witness :
  exists answer w',
    sendMessage (Sample.failing 1 500) (Js.Str "hello") Js.Null Js.Null [] Sample.idle
    = (Ok answer, w')
    /\ reply (data answer) = Js.Str "Hello!"
    /\ List.length (calls w') = 2%nat
    /\ delays w' = [1000].
Proof.
  destruct (send_recovers_within_the_retry_budget (Sample.failing 1 500) "hello"
              Js.Null Js.Null [] Sample.idle 1
              {| Wire.status := 200; Wire.data := Sample.helloData;
                 Wire.retry_after_header := None |})
    as (answer & w' & E & Hr & _ & Hc & _ & Hd).
  - reflexivity.
  - vm_compute. discriminate.
  - lia.
  - unfold room. simpl. lia.
  - intros i Hi. assert (i = O) by lia. subst i. reflexivity.
  - reflexivity.
  - reflexivity.
  - reflexivity.
  - exists answer, w'. split; [exact E |]. split; [exact Hr |].
    split; [exact Hc | exact (Hd eq_refl)].
Defined.

(** X3.  For every text that passes the checks, when the request and
    each of its three retries get an answer the retry logic is meant for,
    and the rate window has room for four requests, [sendMessage] is
    rejected after exactly four requests and the delays 1000, 2000 and
    4000 ms, with the code of the last answer: [TIMEOUT] for a timeout,
    [NETWORK_ERROR] for a connection failure, [SERVICE_ERROR] for a
    status of 500 or more. *)
Theorem exhausted_retries_surface_the_last_failure
    (server : Wire.Server) (s : string) (conversationId intent : Js.value)
    (metadata : list (string * Js.value)) (w : World) :
  Js.allWhiteSpace s = false ->
  Js.length s <= 4000 ->
  room 4 w ->
  (forall i, (i < 4)%nat -> retryable (server (List.length (calls w) + i)%nat) = true) ->
  exists message w',
    sendMessage server (Js.Str s) conversationId intent metadata w
    = (Throw (ChatbotError message
                (failureCode (server (List.length (calls w) + 3)%nat)) NoDetails), w')
    /\ List.length (calls w') = (List.length (calls w) + 4)%nat
    /\ delays w' = delays w ++ [1000; 2000; 4000].
Proof.
  intros B L Hroom Hfail.
  destruct (valid_text s B L) as (E & G).
  destruct (exhausts_retryable server 3 retryFuel
              (request "post" CHAT (Some (payloadOf (Js.Str s) conversationId intent metadata)))
              w) as (msg & config' & w' & P & Hc & Hd).
  - reflexivity.
  - change retryFuel with 4%nat. lia.
  - exact Hroom.
  - intros i Hi. apply Hfail. lia.
  - destruct (classify_retryable msg config' (server (List.length (calls w) + 3)%nat))
      as (message & C); [apply Hfail; lia |].
    exists message, w'. rewrite <- C.
    split; [apply sendMessage_rejected; assumption |].
    split; [rewrite Hc; lia | rewrite Hd; reflexivity].
Qed.

(** A server that lets every request time out. *)
Lemma exhausted_retries_surface_the_last_failure_witness :
  exists message w',
    sendMessage Sample.silent (Js.Str "hello") Js.Null Js.Null [] Sample.idle
    = (Throw (ChatbotError message "TIMEOUT" NoDetails), w')
    /\ List.length (calls w') = 4%nat
    /\ delays w' = [1000; 2000; 4000].
Proof.
  apply (exhausted_retries_surface_the_last_failure Sample.silent "hello" Js.Null Js.Null []
           Sample.idle).
  - reflexivity.
  - vm_compute. discriminate.
  - unfold room. simpl. lia.
  - intros i _. reflexivity.
Defined.

(** The rejection handler on the error of a response below 500: it
    throws at once, and the [catch] block of [sendMessage] files what it
    throws by the status. *)
Lemma responseRejected_below_500 retry config r w :
  is2xx r = false ->
  Wire.status r < 500 ->
  exists thrown message details,
    responseRejected retry (badStatus config r) w = (Throw thrown, w)
    /\ classify thrown = ChatbotError message (codeOfStatus (Wire.status r)) details
    /\ (Wire.status r = 429 ->
        message = "Rate limit exceeded. Please wait before sending more messages."
        /\ details = RetryAfter (retryAfterOf r))
    /\ (Wire.status r = 422 ->
        details = Validation (if detailTruthy (Wire.detail (Wire.data r))
                              then Wire.detail (Wire.data r) else Wire.ListDetail [])).
Proof.
  intros N L.
  unfold responseRejected, badStatus, codeOfStatus.
  cbn [status_of response_of option_map isNum config_of].
  destruct (Wire.status r =? 401) eqn:S1.
  { apply Z.eqb_eq in S1.
    do 3 eexists. split; [reflexivity |].
    unfold classify. cbn [status_of response_of option_map isNum].
    rewrite S1. cbn [Z.eqb Pos.eqb]. split; [reflexivity |]. split; intros; lia. }
  destruct (Wire.status r =? 429) eqn:S2.
  { apply Z.eqb_eq in S2.
    replace (Wire.status r =? 422) with false by (symmetry; apply Z.eqb_neq; lia).
    do 3 eexists. split; [reflexivity |]. split; [reflexivity |].
    split; [intros _; split; reflexivity | intros; lia]. }
  destruct (Wire.status r =? 422) eqn:S3.
  { do 3 eexists. split; [reflexivity |]. split; [reflexivity |].
    apply Z.eqb_eq in S3.
    split; [intros; lia | intros _; reflexivity]. }
  assert (SR : shouldRetry (AxiosError ("Request failed with status code "
                                          +++ numeral (Wire.status r))
                              (badStatusCode (Wire.status r)) (Some config) (Some r))
               = false).
  { unfold shouldRetry, badStatusCode.
    cbn [status_of response_of option_map geNum ltNum].
    unfold neNum, isNum. rewrite S2.
    replace (Wire.status r <? 500) with true by (symmetry; apply Z.ltb_lt; lia).
    destruct (Wire.status r >=? 400) eqn:G; [reflexivity |].
    cbn [andb negb].
    replace (400 <=? Wire.status r) with false
      by (symmetry; apply Z.leb_gt; rewrite Z.geb_leb in G; apply Z.leb_gt in G; lia).
    replace (500 <=? Wire.status r) with false by (symmetry; apply Z.leb_gt; lia).
    cbn [andb]. unfold codeIs. cbn [code_of orb].
    rewrite Z.geb_leb. apply Z.leb_gt. lia. }
  rewrite SR. unfold bind, ret, throw.
  do 3 eexists. split; [reflexivity |].
  unfold classify. cbn [status_of response_of option_map isNum geNum].
  rewrite S1, S2, S3.
  replace (Wire.status r >=? 500) with false
    by (symmetry; rewrite Z.geb_leb; apply Z.leb_gt; lia).
  replace (codeIs (AxiosError ("Request failed with status code "
                                 +++ numeral (Wire.status r))
                     (badStatusCode (Wire.status r)) (Some config) (Some r)) "ECONNABORTED")
    with false.
  - split; [reflexivity |]. apply Z.eqb_neq in S2, S3. split; intros; lia.
  - unfold codeIs, badStatusCode. cbn [code_of].
    destruct ((400 <=? Wire.status r) && (Wire.status r <? 500)); [reflexivity |].
    destruct ((500 <=? Wire.status r) && (Wire.status r <? 600)); reflexivity.
Qed.

(** One request that gets a response below 500 and outside 2xx. *)
Lemma post_rejected_once server url data w r :
  room 1 w ->
  Wire.outcome (server (List.length (calls w))) = Wire.Replied r ->
  is2xx r = false ->
  Wire.status r < 500 ->
  exists thrown message details,
    post server url data w
    = (Throw thrown,
       afterCall (request "post" url (Some data))
                 (Wire.elapsed (server (List.length (calls w)))) (recorded w))
    /\ classify thrown = ChatbotError message (codeOfStatus (Wire.status r)) details
    /\ (Wire.status r = 429 ->
        message = "Rate limit exceeded. Please wait before sending more messages."
        /\ details = RetryAfter (retryAfterOf r))
    /\ (Wire.status r = 422 ->
        details = Validation (if detailTruthy (Wire.detail (Wire.data r))
                              then Wire.detail (Wire.data r) else Wire.ListDetail [])).
Proof.
  intros Hroom Ho N L.
  unfold post, chatbotClient. change retryFuel with 4%nat.
  rewrite (chain_step server 3 _ w Hroom).
  change (calls w) with (calls (recorded w)) in Ho.
  rewrite (dispatchRequest_bad server chatbotTimeout _ (recorded w) r Ho N).
  change (calls (recorded w)) with (calls w).
  match goal with
  | |- context [responseRejected ?retry (badStatus ?c r) ?v] =>
      destruct (responseRejected_below_500 retry c r v N L)
        as (thrown & message & details & H & C & D)
  end.
  rewrite H. exists thrown, message, details. split; [reflexivity |]. split; assumption.
Qed.



(** A 429 answer to a text that passes the checks. *)
Lemma sendMessage_throttled server s conversationId intent metadata w r :
  Js.allWhiteSpace s = false ->
  Js.length s <= 4000 ->
  room 1 w ->
  Wire.outcome (server (List.length (calls w))) = Wire.Replied r ->
  Wire.status r = 429 ->
  sendMessage server (Js.Str s) conversationId intent metadata w
  = (Throw (ChatbotError "Rate limit exceeded. Please wait before sending more messages."
              "RATE_LIMITED" (RetryAfter (retryAfterOf r))),
     afterCall (request "post" CHAT
                  (Some (payloadOf (Js.Str s) conversationId intent metadata)))
               (Wire.elapsed (server (List.length (calls w)))) (recorded w)).
Proof.
  intros B L Hroom Ho S.
  destruct (valid_text s B L) as (E & G).
  destruct (post_rejected_once server CHAT
              (payloadOf (Js.Str s) conversationId intent metadata) w r Hroom Ho)
    as (thrown & message & details & P & C & D & _).
  - unfold is2xx. rewrite S. reflexivity.
  - lia.
  - destruct (D S) as (-> & ->).
    rewrite (sendMessage_rejected _ _ _ _ _ _ _ _ E G P), C.
    unfold codeOfStatus. rewrite S. reflexivity.
Qed.

(** X5.  A 429 response is not retried, and the [RATE_LIMITED] error the
    caller observes is the one of the response interceptor: its message
    is fixed (the [message] of the body is not used) and its details
    carry the seconds to wait, read from the [retry-after] header when
    the response has one, else from a non-zero [retry_after] of the body,
    else 60. *)
Theorem rate_limited_answer_carries_retry_after
    (server : Wire.Server) (s : string) (conversationId intent : Js.value)
    (metadata : list (string * Js.value)) (w : World) (r : Wire.Response) :
  Js.allWhiteSpace s = false ->
  Js.length s <= 4000 ->
  room 1 w ->
  Wire.outcome (server (List.length (calls w))) = Wire.Replied r ->
  Wire.status r = 429 ->
  exists w',
    sendMessage server (Js.Str s) conversationId intent metadata w
    = (Throw (ChatbotError "Rate limit exceeded. Please wait before sending more messages."
                "RATE_LIMITED"
                (RetryAfter
                   match Wire.retry_after_header r, Wire.retry_after (Wire.data r) with
                   | Some seconds, _ => seconds
                   | None, Some seconds => if seconds =? 0 then 60 else seconds
                   | None, None => 60
                   end)), w')
    /\ List.length (calls w') = (List.length (calls w) + 1)%nat
    /\ delays w' = delays w.
Proof.
  intros B L Hroom Ho S. eexists.
  split.
  - rewrite (sendMessage_throttled _ _ _ _ _ _ _ B L Hroom Ho S).
    unfold retryAfterOf, noNum.
    destruct (Wire.retry_after_header r); [reflexivity |].
    destruct (Wire.retry_after (Wire.data r)) as [n|]; [| reflexivity].
    destruct (n =? 0); reflexivity.
  - cbn [afterCall calls delays recorded setTracker]. rewrite length_app.
    split; reflexivity.
Qed.

(** A 429 response whose header asks for 17 seconds and whose body asks
    for 30. *)
Lemma rate_limited_answer_carries_retry_after_witness :
  exists w',
    sendMessage Cases.throttling (Js.Str "hello") Js.Null Js.Null [] Sample.idle
    = (Throw (ChatbotError "Rate limit exceeded. Please wait before sending more messages."
                "RATE_LIMITED" (RetryAfter 17)), w')
    /\ List.length (calls w') = 1%nat
    /\ delays w' = [].
Proof.
  apply (rate_limited_answer_carries_retry_after Cases.throttling "hello" Js.Null Js.Null []
           Sample.idle Cases.slowDown).
  - reflexivity.
  - vm_compute. discriminate.
  - unfold room. simpl. lia.
  - reflexivity.
  - reflexivity.
Defined.



(** *** The other endpoints *)

(** X7.  [getStatus] never rejects and never waits: whatever the server
    answers it resolves after exactly one request, to a success exactly
    when the answer is a 2xx response.  Its client has no interceptor, so
    the request is not checked against the rate window, not recorded in
    it, not retried, and nothing is written to the console. *)
Theorem status_request_bypasses_the_interceptors (server : Wire.Server) (w : World) :
  exists result w',
    getStatus server w = (Ok result, w')
    /\ succeeded result = answers2xx (server (List.length (calls w)))
    /\ calls w' = calls w ++ [request "get" STATUS None]
    /\ tracker w' = tracker w
    /\ delays w' = delays w
    /\ console w' = console w.
Proof.
  unfold getStatus, tryCatch, bind, dispatchRequest, answers2xx, ret.
  destruct (Wire.outcome (server (List.length (calls w)))) as [r| |].
  - destruct ((200 <=? Wire.status r) && (Wire.status r <? 300));
      do 2 eexists; repeat split.
  - do 2 eexists; repeat split.
  - do 2 eexists; repeat split.
Qed.

Lemma failed_status_has_a_text error :
  String.eqb (textOr (dataError_of error) (strOr (message_of error) "Status check failed")) ""
  = false.
Proof.
  unfold textOr, strOr.
  destruct (dataError_of error) as [s|].
  - destruct (String.eqb s "") eqn:E; [| exact E].
    destruct (String.eqb (message_of error) "") eqn:F; [reflexivity | exact F].
  - destruct (String.eqb (message_of error) "") eqn:F; [reflexivity | exact F].
Qed.

(** X8.  [checkServiceConnectivity] never rejects: it resolves after one
    status request, online and [healthy] exactly when the answer is a 2xx
    response, and [down] (never [degraded] or [unknown]) with an error
    text otherwise; [lastChecked] is the clock reading after the
    request. *)
Theorem connectivity_is_healthy_or_down (server : Wire.Server) (w : World) :
  exists c w',
    Api.checkServiceConnectivity server w = (Ok c, w')
    /\ Api.isOnline c = answers2xx (server (List.length (calls w)))
    /\ Api.status c = (if answers2xx (server (List.length (calls w)))
                       then Chat.healthy else Chat.down)
    /\ (Api.error c = None <-> Api.isOnline c = true)
    /\ Api.lastChecked c = now w'
    /\ List.length (calls w') = (List.length (calls w) + 1)%nat.
Proof.
  unfold Api.checkServiceConnectivity, getStatus, tryCatch, bind, dispatchRequest,
    answers2xx, ret, clock.
  destruct (Wire.outcome (server (List.length (calls w)))) as [r| |].
  - destruct ((200 <=? Wire.status r) && (Wire.status r <? 300)).
    + do 2 eexists. split; [reflexivity |].
      cbn [Api.isOnline Api.status Api.error Api.lastChecked succeeded Api.errorOrNull
           afterCall calls now].
      rewrite length_app. repeat split.
    + do 2 eexists. split; [reflexivity |].
      cbn [Api.isOnline Api.status Api.error Api.lastChecked succeeded Api.errorOrNull
           afterCall calls now].
      rewrite failed_status_has_a_text, length_app.
      repeat split; discriminate.
  - do 2 eexists. split; [reflexivity |].
    cbn [Api.isOnline Api.status Api.error Api.lastChecked succeeded Api.errorOrNull
         afterCall calls now].
    rewrite length_app. repeat split; discriminate.
  - do 2 eexists. split; [reflexivity |].
    cbn [Api.isOnline Api.status Api.error Api.lastChecked succeeded Api.errorOrNull
         afterCall calls now].
    rewrite length_app. repeat split; discriminate.
Qed.








(** X10.  When the timestamps recorded within the trailing 60 seconds
    are as many as the per-minute ceiling, [getHealth],
    [getConversations] and [deleteConversation] resolve to a failure
    without a network call, and the error text they hand to the caller is
    the message of the [TypeError] the rejection handler fails with, not
    the rate-limit message of the request interceptor. *)
Theorem full_window_hands_out_the_type_error
    (server : Wire.Server) (conversationId : Js.value) (w : World) :
  Z.of_nat (List.length (RateLimit.window (now w) (tracker w)))
  >= RateLimit.maxPerMinute (tracker w) ->
  Api.getHealth server w
  = (Ok (Api.HealthFailed "Cannot read properties of undefined (reading '_retryCount')"
                          (Js.Str "network_error")), pruned w)
  /\ Api.getConversations server w
     = (Ok (Api.NotListed "Cannot read properties of undefined (reading '_retryCount')"),
        pruned w)
  /\ Api.deleteConversation server conversationId w
     = (Ok (Api.NotDeleted "Cannot read properties of undefined (reading '_retryCount')"),
        pruned w)
  /\ calls (pruned w) = calls w.
Proof.
  intros F.
  unfold Api.getHealth, Api.getConversations, Api.deleteConversation, Api.get, Api.delete,
    chatbotClient, tryCatch, bind.
  change retryFuel with 4%nat.
  rewrite !(chain_full server 3 _ w F).
  repeat split.
Qed.

(** A browser that recorded 100 requests during the last second. *)
Lemma full_window_hands_out_the_type_error_witness :
  Api.getConversations Sample.healthyServer Sample.saturated
  = (Ok (Api.NotListed "Cannot read properties of undefined (reading '_retryCount')"),
     pruned Sample.saturated)
  /\ calls (pruned Sample.saturated) = [].
Proof.
  destruct (full_window_hands_out_the_type_error Sample.healthyServer (Js.Num 7)
              Sample.saturated) as (_ & H & _ & C).
  - vm_compute. discriminate.
  - split; [exact H | exact C].
Defined.

(** A response in 4xx other than 422 and 429 goes through the rejection
    handler as the axios error it is. *)
Lemma responseRejected_passes retry config r w :
  400 <= Wire.status r < 500 ->
  Wire.status r <> 422 ->
  Wire.status r <> 429 ->
  responseRejected retry (badStatus config r) w = (Throw (badStatus config r), w).
Proof.
  intros R N2 N9.
  unfold responseRejected, badStatus, shouldRetry.
  cbn [status_of response_of option_map isNum geNum ltNum config_of].
  unfold neNum, isNum.
  replace (Wire.status r =? 429) with false by (symmetry; apply Z.eqb_neq; lia).
  replace (Wire.status r =? 422) with false by (symmetry; apply Z.eqb_neq; lia).
  replace (Wire.status r >=? 400) with true by (symmetry; apply Z.geb_le; lia).
  replace (Wire.status r <? 500) with true by (symmetry; apply Z.ltb_lt; lia).
  destruct (Wire.status r =? 401); reflexivity.
Qed.

(** X11.  The placeholder of [getConversations].  (1) A 2xx answer is
    never replaced by the placeholder: the result is the body of the
    response.  (2) Whenever the result is the placeholder, the request
    was rejected with an error whose response is not a 200 (the test
    [error.response?.status === 200] decides nothing) and whose body has
    a [message] that includes "coming soon".  (3) A response in 4xx other
    than 422 and 429 with such a message gives the placeholder. *)
Theorem placeholder_needs_a_coming_soon_message (server : Wire.Server) (w : World) :
  (forall r,
     room 1 w ->
     Wire.outcome (server (List.length (calls w))) = Wire.Replied r ->
     is2xx r = true ->
     fst (Api.getConversations server w) = Ok (Api.Listed (Wire.data r)))
  /\ (fst (Api.getConversations server w) = Ok Api.ComingSoon ->
      exists error w' message,
        Api.get server Api.CONVERSATIONS w = (Throw error, w')
        /\ isNum (status_of error) 200 = false
        /\ dataMessage_of error = Some message
        /\ JsText.includes "coming soon" message = true)
  /\ (forall r message,
        room 1 w ->
        Wire.outcome (server (List.length (calls w))) = Wire.Replied r ->
        400 <= Wire.status r < 500 ->
        Wire.status r <> 422 ->
        Wire.status r <> 429 ->
        Wire.message (Wire.data r) = Some message ->
        JsText.includes "coming soon" message = true ->
        fst (Api.getConversations server w) = Ok Api.ComingSoon).
Proof.
  split; [| split].
  - intros r Hroom Ho H2.
    unfold Api.getConversations, Api.get, chatbotClient, tryCatch, bind, ret.
    change retryFuel with 4%nat.
    rewrite (chain_step server 3 _ w Hroom).
    change (calls w) with (calls (recorded w)) in Ho.
    rewrite (dispatchRequest_2xx server chatbotTimeout _ (recorded w) r Ho H2).
    reflexivity.
  - unfold Api.getConversations, tryCatch, bind, ret.
    destruct (Api.get server Api.CONVERSATIONS w) as [[response | error |] w'] eqn:G;
      cbn [fst]; try discriminate.
    destruct (Api.comingSoon error) eqn:C; cbn [fst]; [intros _ | discriminate].
    pose proof (fromChain_not_200 error
                  (chain_fromChain server retryFuel _ _ _ _ G)) as N.
    unfold Api.comingSoon in C. rewrite N in C. cbn [orb] in C.
    destruct (dataMessage_of error) as [message|] eqn:M; [| discriminate C].
    exists error, w', message. repeat split; assumption.
  - intros r message Hroom Ho R N2 N9 Hm Hi.
    unfold Api.getConversations, Api.get, chatbotClient, tryCatch, bind, ret.
    change retryFuel with 4%nat.
    rewrite (chain_step server 3 _ w Hroom).
    change (calls w) with (calls (recorded w)) in Ho.
    rewrite (dispatchRequest_bad server chatbotTimeout _ (recorded w) r Ho)
      by (apply andb_false_iff; right; apply Z.ltb_ge; lia).
    rewrite (responseRejected_passes _ _ r _ R N2 N9).
    unfold Api.comingSoon, badStatus, dataMessage_of, data_of.
    cbn [response_of option_map]. rewrite Hm, Hi, orb_true_r. reflexivity.
Qed.

(** A healthy server, and a server that answers 404 with the message
    "Conversation history is coming soon". *)
Lemma placeholder_needs_a_coming_soon_message_witness :
  fst (Api.getConversations Sample.healthyServer Sample.idle)
  = Ok (Api.Listed Sample.helloData)
  /\ (exists error w' message,
        Api.get Cases.announcing Api.CONVERSATIONS Sample.idle = (Throw error, w')
        /\ isNum (status_of error) 200 = false
        /\ dataMessage_of error = Some message
        /\ JsText.includes "coming soon" message = true)
  /\ fst (Api.getConversations Cases.announcing Sample.idle) = Ok Api.ComingSoon.
Proof.
  assert (P : fst (Api.getConversations Cases.announcing Sample.idle) = Ok Api.ComingSoon).
  { apply (proj2 (proj2 (placeholder_needs_a_coming_soon_message Cases.announcing
                           Sample.idle)) Cases.notYet
                 "Conversation history is coming soon").
    - unfold room. simpl. lia.
    - reflexivity.
    - simpl. lia.
    - discriminate.
    - discriminate.
    - reflexivity.
    - reflexivity. }
  split; [| split; [| exact P]].
  - apply (proj1 (placeholder_needs_a_coming_soon_message Sample.healthyServer Sample.idle)
             {| Wire.status := 200; Wire.data := Sample.helloData;
                Wire.retry_after_header := None |}).
    + unfold room. simpl. lia.
    + reflexivity.
    + reflexivity.
  - apply (proj1 (proj2 (placeholder_needs_a_coming_soon_message Cases.announcing
                           Sample.idle))).
    exact P.
Defined.

(** X12.  The snapshot of [getRateLimitInfo].  [remaining] is never
    negative, it is the ceiling less the number of recorded timestamps
    while the tracker is within its ceiling, and [resetTime] is always 60
    seconds after the reading, whatever the timestamps are.  When
    [remaining] is positive the request interceptor lets the next request
    through. *)
Theorem positive_remaining_admits_a_request (w : World) :
  0 <= Chat.remaining (Api.getRateLimitInfo w)
  /\ Chat.resetTime (Api.getRateLimitInfo w) = now w + 60000
  /\ (RateLimit.within (tracker w) ->
      Chat.remaining (Api.getRateLimitInfo w)
      + Z.of_nat (List.length (RateLimit.requests (tracker w)))
      = RateLimit.maxPerMinute (tracker w))
  /\ (0 < Chat.remaining (Api.getRateLimitInfo w) ->
      forall config, requestFulfilled config w = (Ok config, recorded w)).
Proof.
  unfold Api.getRateLimitInfo, RateLimit.within. cbn [Chat.remaining Chat.resetTime].
  split; [lia |]. split; [reflexivity |]. split; [lia |].
  intros H config. apply requestFulfilled_room. unfold room. lia.
Qed.

(** A browser that has sent nothing yet. *)
Lemma positive_remaining_admits_a_request_witness :
  Chat.remaining (Api.getRateLimitInfo Sample.idle) = 100
  /\ requestFulfilled Sample.firstTry Sample.idle = (Ok Sample.firstTry, recorded Sample.idle).
Proof.
  destruct (positive_remaining_admits_a_request Sample.idle) as (_ & _ & W & A).
  split.
  - pose proof (W ltac:(unfold RateLimit.within; simpl; lia)) as E. simpl in E. simpl. lia.
  - apply A. simpl. lia.
Defined.

Lemma getStatus_tracker server w : tracker (snd (getStatus server w)) = tracker w.
Proof.
  unfold getStatus, tryCatch, bind, ret.
  pose proof (dispatchRequest_tracker server statusTimeout (request "get" STATUS None) w)
    as D. unfold request in D.
  destruct (dispatchRequest server statusTimeout _ w) as [[response | error |] w'];
    exact D.
Qed.

Lemma checkServiceConnectivity_tracker server w :
  tracker (snd (Api.checkServiceConnectivity server w)) = tracker w.
Proof.
  unfold Api.checkServiceConnectivity, tryCatch, bind, ret, clock.
  pose proof (getStatus_tracker server w) as D.
  destruct (getStatus server w) as [[result | error |] w']; exact D.
Qed.

(** X13.  Every endpoint keeps the rate-limit tracker within its
    ceiling, whatever the server answers and however many retries are
    made: [getHealth], [getConversations], [deleteConversation],
    [getStatus] and [checkServiceConnectivity], like [sendMessage]. *)
Theorem every_endpoint_keeps_the_window_within
    (server : Wire.Server) (content conversationId intent : Js.value)
    (metadata : list (string * Js.value)) (w : World) :
  RateLimit.within (tracker w) ->
  RateLimit.within (tracker (snd (sendMessage server content conversationId intent
                                              metadata w)))
  /\ RateLimit.within (tracker (snd (Api.getHealth server w)))
  /\ RateLimit.within (tracker (snd (Api.getConversations server w)))
  /\ RateLimit.within (tracker (snd (Api.deleteConversation server conversationId w)))
  /\ RateLimit.within (tracker (snd (getStatus server w)))
  /\ RateLimit.within (tracker (snd (Api.checkServiceConnectivity server w))).
Proof.
  intros H.
  split; [apply sendMessage_keeps_within, H |].
  split.
  { unfold Api.getHealth, Api.get, chatbotClient, tryCatch, bind, ret.
    pose proof (chain_keeps_within server retryFuel (request "get" Api.HEALTH None) w H)
      as W. unfold request in W.
    destruct (chatbotClientWithin server retryFuel _ w) as [[response | error |] w'];
      exact W. }
  split.
  { unfold Api.getConversations, Api.get, chatbotClient, tryCatch, bind, ret.
    pose proof (chain_keeps_within server retryFuel (request "get" Api.CONVERSATIONS None)
                  w H) as W. unfold request in W.
    destruct (chatbotClientWithin server retryFuel _ w) as [[response | error |] w'];
      [exact W | | exact W].
    destruct (Api.comingSoon error); exact W. }
  split.
  { unfold Api.deleteConversation, Api.delete, chatbotClient, tryCatch, bind, ret.
    match goal with
    | |- context [chatbotClientWithin server retryFuel ?c w] =>
        pose proof (chain_keeps_within server retryFuel c w H) as W;
        destruct (chatbotClientWithin server retryFuel c w)
          as [[response | error |] w']
    end; exact W. }
  rewrite getStatus_tracker, checkServiceConnectivity_tracker. split; exact H.
Qed.

(** A browser whose window is full, asked of a healthy server. *)
Lemma every_endpoint_keeps_the_window_within_witness :
  RateLimit.within (tracker (snd (sendMessage Sample.healthyServer (Js.Str "hello") Js.Null
                                              Js.Null [] Sample.saturated)))
  /\ RateLimit.within (tracker (snd (Api.getHealth Sample.healthyServer Sample.saturated)))
  /\ RateLimit.within (tracker (snd (Api.getConversations Sample.healthyServer
                                       Sample.saturated)))
  /\ RateLimit.within (tracker (snd (Api.deleteConversation Sample.healthyServer Js.Null
                                       Sample.saturated)))
  /\ RateLimit.within (tracker (snd (getStatus Sample.healthyServer Sample.saturated)))
  /\ RateLimit.within (tracker (snd (Api.checkServiceConnectivity Sample.healthyServer
                                       Sample.saturated))).
Proof.
  apply (every_endpoint_keeps_the_window_within Sample.healthyServer (Js.Str "hello")
           Js.Null Js.Null [] Sample.saturated).
  unfold RateLimit.within. vm_compute. discriminate.
Defined.

End ApiFacts.

(* ------------------------------------------------------------------ *)
(** ** The provider of the chat state *)

Module ProviderFacts.
Import Chat Terms Outcomes ChatFacts.

(** The state before the typing timer is looked at has the flags the
    reducer left. *)
Lemma typingTimer_frame started settled state :
  messages (typingTimer started settled state) = messages state
  /\ conversations (typingTimer started settled state) = conversations state
  /\ activeConversation (typingTimer started settled state) = activeConversation state
  /\ inputValue (typingTimer started settled state) = inputValue state
  /\ error (typingTimer started settled state) = error state
  /\ lastError (typingTimer started settled state) = lastError state
  /\ isSending (typingTimer started settled state) = isSending state.
Proof.
  unfold typingTimer. destruct (started + 500 <=? settled);
    rewrite ?dispatch_typing; repeat split.
Qed.

Lemma callApi_settles server userId closed content intent w :
  fst (callApi server userId closed content intent w) <> Client.Pending.
Proof. unfold callApi. apply ApiFacts.sendMessage_settles. Qed.

(** X14.  [sendMessage] of the provider throws only at its two guards:
    when the user is not authenticated or the content is empty or blank,
    and then neither the world nor the store is touched.  In every other
    case, whatever the server answers, it resolves to a result object
    (success or failure), and the store ends with [isSending] and
    [isTyping] cleared. *)
Theorem provider_send_throws_only_at_the_guards
    (server : Wire.Server) (isAuthenticated : bool) (userId : Js.value) (fresh : Ids)
    (closed state : State) (content intent : string) (w : Client.World) :
  if negb isAuthenticated || String.eqb content "" || (Js.length (Js.trim content) =? 0)
  then
    exists message,
      sendMessage server isAuthenticated userId fresh closed content intent w state
      = (Client.Throw (Client.JsError message), w, state)
  else
    exists outcome w' state',
      sendMessage server isAuthenticated userId fresh closed content intent w state
      = (Client.Ok outcome, w', state')
      /\ isSending state' = false
      /\ isTyping state' = false.
Proof.
  unfold sendMessage.
  destruct isAuthenticated; cbn [negb orb]; [| eexists; reflexivity].
  destruct (String.eqb content "" || (Js.length (Js.trim content) =? 0));
    [eexists; reflexivity |].
  pose proof (callApi_settles server userId closed content intent w) as P.
  destruct (callApi server userId closed content intent w) as [[answer | thrown |] w'].
  - do 3 eexists. split; [reflexivity |].
    destruct (negb (Js.truthy (activeConversation closed))
              && Js.truthy (Client.conversationId (Client.data answer)));
      rewrite ?dispatch_load, dispatch_success; split; reflexivity.
  - destruct (describe thrown) as [[errorType errorMessage] errorDetails].
    do 3 eexists. split; [reflexivity |].
    rewrite dispatch_failure. split; reflexivity.
  - exfalso. apply P. reflexivity.
Qed.

(** X15.  A send whose API call is rejected leaves the input buffer, the
    active conversation and the conversation list as they were (the text
    is still there for the retry button), and records the failure in
    [lastError], stamped with the clock reading at which the call
    settled. *)
Theorem failed_send_keeps_the_input
    (server : Wire.Server) (userId : Js.value) (fresh : Ids) (closed state : State)
    (content intent : string) (w w' : Client.World) (thrown : Client.Thrown) :
  (String.eqb content "" || (Js.length (Js.trim content) =? 0)) = false ->
  callApi server userId closed content intent w = (Client.Throw thrown, w') ->
  exists outcome state',
    sendMessage server true userId fresh closed content intent w state
    = (Client.Ok outcome, w', state')
    /\ inputValue state' = inputValue state
    /\ activeConversation state' = activeConversation state
    /\ conversations state' = conversations state
    /\ lastError state'
       = Some {| lastType := fst (fst (describe thrown));
                 lastMessage := snd (fst (describe thrown));
                 lastTimestamp := Client.now w';
                 lastDetails := snd (describe thrown) |}.
Proof.
  intros C Api. unfold sendMessage. cbn [negb]. rewrite C, Api.
  destruct (describe thrown) as [[errorType errorMessage] errorDetails].
  cbn [fst snd]. do 2 eexists. split; [reflexivity |].
  rewrite dispatch_failure.
  cbn [inputValue activeConversation conversations lastError withMessages withLastError
       withError withIsTyping withIsSending].
  destruct (typingTimer_frame (Client.now w) (Client.now w')
              (dispatch (Client.now w)
                 {| type := SEND_MESSAGE_START;
                    payload := StartPayload (Js.Str (freshTempId fresh)) (Js.trim content) |}
                 state)) as (_ & Hc & Ha & Hi & _).
  rewrite Hc, Ha, Hi, dispatch_start. repeat split.
Qed.

(** A 401 answer to "hello", typed into the input of an open
    conversation. *)
Lemma failed_send_keeps_the_input_witness :
  exists outcome w' state',
    sendMessage (Sample.always 401) true (Js.Num 1) Sample.ids Cases.typed "hello" "general"
                Sample.idle Cases.typed
    = (Client.Ok outcome, w', state')
    /\ inputValue state' = "hello"
    /\ activeConversation state' = Js.Num 3
    /\ option_map lastType (lastError state') = Some "UNAUTHORIZED".
Proof.
  edestruct (failed_send_keeps_the_input (Sample.always 401) (Js.Num 1) Sample.ids
               Cases.typed Cases.typed "hello" "general" Sample.idle)
    as (outcome & state' & E & Hi & Ha & _ & Hl).
  - reflexivity.
  - vm_compute. reflexivity.
  - exists outcome. do 2 eexists. split; [exact E |].
    rewrite Hi, Ha, Hl. repeat split.
Defined.

(** A trimmed content that is not empty passes the guard of the
    provider and the first check of the API. *)
Lemma trimmed_passes content :
  Js.length (Js.trim content) > 0 ->
  (String.eqb content "" || (Js.length (Js.trim content) =? 0)) = false
  /\ Js.allWhiteSpace (Js.trim content) = false.
Proof.
  intros H. destruct (JsFacts.trim_nonempty_not_blank content H) as (B & T).
  split; [| exact T].
  apply orb_false_iff. split.
  - destruct content; [discriminate B | reflexivity].
  - apply Z.eqb_neq. lia.
Qed.

(** X16.  A 429 answer, end to end.  For every content whose trimmed
    form has 1 to 4000 characters, when the rate window has room and the
    answer is a 429 response, the provider's [sendMessage] resolves to a
    failure of type [RATE_LIMITED] after that one request, and the error
    shown to the user tells the seconds to wait that the response asks
    for (60 when it asks for none, or for 0). *)
Theorem throttled_send_tells_the_seconds
    (server : Wire.Server) (userId : Js.value) (fresh : Ids) (closed state : State)
    (content intent : string) (w : Client.World) (r : Wire.Response) :
  Js.length (Js.trim content) > 0 ->
  Js.length (Js.trim content) <= 4000 ->
  room 1 w ->
  Wire.outcome (server (List.length (Client.calls w))) = Wire.Replied r ->
  Wire.status r = 429 ->
  exists w' state',
    sendMessage server true userId fresh closed content intent w state
    = (Client.Ok
         (NotSent ("You are sending messages too quickly. Please wait "
                   +++ Client.numeral (if Client.retryAfterOf r =? 0 then 60
                                       else Client.retryAfterOf r)
                   +++ " seconds.")
                  "RATE_LIMITED" (Client.RetryAfter (Client.retryAfterOf r))),
       w', state')
    /\ error state'
       = Some ("You are sending messages too quickly. Please wait "
               +++ Client.numeral (if Client.retryAfterOf r =? 0 then 60
                                   else Client.retryAfterOf r)
               +++ " seconds.")
    /\ List.length (Client.calls w') = (List.length (Client.calls w) + 1)%nat
    /\ Client.delays w' = Client.delays w.
Proof.
  intros P L Hroom Ho S.
  destruct (trimmed_passes content P) as (C & B).
  unfold sendMessage. cbn [negb]. rewrite C. unfold callApi.
  rewrite (ApiFacts.sendMessage_throttled _ _ _ _ _ _ _ B L Hroom Ho S).
  cbn [describe]. cbn iota beta.
  do 2 eexists. split; [reflexivity |].
  rewrite dispatch_failure.
  cbn [error withMessages withLastError withError Client.afterCall Client.calls
       Client.delays recorded Client.setTracker].
  rewrite length_app. repeat split.
Qed.

(** The 429 response of [Cases.slowDown], whose header asks for 17
    seconds. *)
Lemma throttled_send_tells_the_seconds_witness :
  exists w' state',
    sendMessage Cases.throttling true (Js.Num 1) Sample.ids Cases.typed "hello" "general"
                Sample.idle Cases.typed
    = (Client.Ok
         (NotSent "You are sending messages too quickly. Please wait 17 seconds."
                  "RATE_LIMITED" (Client.RetryAfter 17)),
       w', state')
    /\ error state'
       = Some "You are sending messages too quickly. Please wait 17 seconds."
    /\ List.length (Client.calls w') = 1%nat
    /\ Client.delays w' = [].
Proof.
  apply (throttled_send_tells_the_seconds Cases.throttling (Js.Num 1) Sample.ids Cases.typed
           Cases.typed "hello" "general" Sample.idle Cases.slowDown).
  - vm_compute. reflexivity.
  - vm_compute. discriminate.
  - unfold room. simpl. lia.
  - reflexivity.
  - reflexivity.
Defined.

(** X17.  The typing indicator after a failed send.  When the API call
    of a send is rejected less than 500 ms after the send started, the
    store is left with [isSending] and [isTyping] cleared; the typing
    timer, which only the success path clears, then fires at its
    deadline and turns [isTyping] on, while [isSending] stays cleared:
    the indicator is shown although nothing is in flight. *)
Theorem fast_failure_leaves_the_typing_timer_armed
    (server : Wire.Server) (userId : Js.value) (fresh : Ids) (closed state : State)
    (content intent : string) (w w' : Client.World) (thrown : Client.Thrown) :
  (String.eqb content "" || (Js.length (Js.trim content) =? 0)) = false ->
  callApi server userId closed content intent w = (Client.Throw thrown, w') ->
  Client.now w' < Client.now w + 500 ->
  exists outcome state',
    sendMessage server true userId fresh closed content intent w state
    = (Client.Ok outcome, w', state')
    /\ isTyping state' = false
    /\ isSending state' = false
    /\ isTyping (Provider.afterTypingDeadline (Client.now w) (Client.now w')
                   (Client.Ok outcome) state') = true
    /\ isSending (Provider.afterTypingDeadline (Client.now w) (Client.now w')
                    (Client.Ok outcome) state') = false.
Proof.
  intros C Api F. unfold sendMessage. cbn [negb]. rewrite C, Api.
  destruct (describe thrown) as [[errorType errorMessage] errorDetails].
  do 2 eexists. split; [reflexivity |].
  unfold Provider.afterTypingDeadline.
  replace (Client.now w' <? Client.now w + 500) with true by (symmetry; apply Z.ltb_lt; lia).
  rewrite dispatch_typing, dispatch_failure. repeat split.
Qed.

(** A 401 answer that arrives after 120 ms. *)
Lemma fast_failure_leaves_the_typing_timer_armed_witness :
  exists outcome w' state',
    sendMessage (Sample.always 401) true (Js.Num 1) Sample.ids Cases.typed "hello" "general"
                Sample.idle Cases.typed
    = (Client.Ok outcome, w', state')
    /\ Client.now w' = Client.now Sample.idle + 120
    /\ isTyping state' = false
    /\ isTyping (Provider.afterTypingDeadline (Client.now Sample.idle) (Client.now w')
                   (Client.Ok outcome) state') = true
    /\ isSending (Provider.afterTypingDeadline (Client.now Sample.idle) (Client.now w')
                    (Client.Ok outcome) state') = false.
Proof.
  edestruct (fast_failure_leaves_the_typing_timer_armed (Sample.always 401) (Js.Num 1)
               Sample.ids Cases.typed Cases.typed "hello" "general" Sample.idle)
    as (outcome & state' & E & T & _ & T' & S').
  - reflexivity.
  - vm_compute. reflexivity.
  - vm_compute. reflexivity.
  - exists outcome. do 2 eexists. split; [exact E |].
    split; [reflexivity |]. split; [exact T |]. split; [exact T' | exact S'].
Defined.

(** X18.  A successful send in an open conversation.  When the callback
    closed over a state with an active conversation and the API call is
    fulfilled, the send resolves to its success result and the store ends
    with exactly two messages appended to the ones it had (the user
    message, no longer temporary, and the assistant message with the
    reply; the optimistic message is gone), the input buffer emptied, the
    error cleared, the conversation list untouched, and the active
    conversation set to the id the server returned.  No message of the
    store is assumed to carry the fresh temporary id. *)
Theorem send_in_open_conversation_appends_two
    (server : Wire.Server) (userId : Js.value) (fresh : Ids) (closed state : State)
    (content intent : string) (w w' : Client.World) (answer : Client.Reply) :
  Js.truthy (activeConversation closed) = true ->
  (forall msg, In msg (messages state) ->
               Js.strictEq (Msg.id msg) (Js.Str (freshTempId fresh)) = false) ->
  (String.eqb content "" || (Js.length (Js.trim content) =? 0)) = false ->
  callApi server userId closed content intent w = (Client.Ok answer, w') ->
  exists userMessage assistantMessage state',
    sendMessage server true userId fresh closed content intent w state
    = (Client.Ok (Sent (Client.conversationId (Client.data answer))
                       [userMessage; assistantMessage]
                       (Client.metadata (Client.data answer))),
       w', state')
    /\ messages state'
       = messages state
         ++ [Msg.withIsTemporary (Js.Bool false) userMessage; assistantMessage]
    /\ Msg.type userMessage = USER
    /\ Msg.content userMessage = Js.Str (Js.trim content)
    /\ Msg.type assistantMessage = ASSISTANT
    /\ Msg.content assistantMessage = Client.reply (Client.data answer)
    /\ inputValue state' = ""
    /\ error state' = None
    /\ isSending state' = false
    /\ conversations state' = conversations state
    /\ activeConversation state' = Client.conversationId (Client.data answer).
Proof.
  intros A Hfresh C Api.
  unfold sendMessage. cbn [negb]. rewrite C, Api, A. cbn [negb andb].
  do 3 eexists. split; [reflexivity |].
  assert (K : forall list : list Msg.t,
             (forall msg, In msg list ->
                          Js.strictEq (Msg.id msg) (Js.Str (freshTempId fresh)) = false) ->
             filter (fun msg => negb (Js.strictEq (Msg.id msg) (Js.Str (freshTempId fresh))))
                    list = list).
  { induction list as [|m rest IH]; intros H; cbn [filter]; [reflexivity |].
    rewrite (H m (or_introl eq_refl)). cbn [negb].
    rewrite IH; [reflexivity |]. intros msg Hm. apply H. right. exact Hm. }
  unfold typingTimer.
  destruct (Client.now w + 500 <=? Client.now w');
    rewrite ?dispatch_typing, dispatch_start, dispatch_success;
    cbn [activeConversation conversations messages inputValue error isSending
         withConversations withMessages withActiveConversation withInputValue
         withIsTyping withIsSending withError Msg.type Msg.content Msg.tempId];
    rewrite filter_app, (K _ Hfresh); cbn [filter Msg.id Js.strictEq];
    rewrite String.eqb_refl; cbn [negb]; rewrite app_nil_r;
    repeat split.
Qed.

(** A message sent in conversation 3 of [Sample.talking] to a server
    that files the reply under conversation 7. *)
Lemma send_in_open_conversation_appends_two_witness :
  exists state',
    snd (sendMessage Sample.healthyServer true (Js.Num 1) Sample.ids Sample.talking
           "hello" "general" Sample.idle Sample.talking)
    = state'
    /\ map Msg.content (messages state')
       = [Js.Str "Welcome back."; Js.Str "hello"; Js.Str "Hello!"]
    /\ conversations state' = []
    /\ activeConversation state' = Js.Num 7.
Proof.
  edestruct (send_in_open_conversation_appends_two Sample.healthyServer (Js.Num 1)
               Sample.ids Sample.talking Sample.talking "hello" "general" Sample.idle)
    as (userMessage & assistantMessage & state' & E & M & _ & Cu & _ & Ca & _ & _ & _
        & Hc & Ha).
  - reflexivity.
  - intros msg [<- | []]. reflexivity.
  - reflexivity.
  - vm_compute. reflexivity.
  - exists state'. rewrite E, M, Hc, Ha. cbn [snd].
    rewrite map_app. cbn [map Msg.content Msg.withIsTemporary].
    rewrite Cu, Ca. repeat split.
Defined.

(** *** The helpers of the context value *)

Lemma filter_idempotent {A : Type} (f : A -> bool) (l : list A) :
  filter f (filter f l) = filter f l.
Proof.
  induction l as [|x rest IH]; cbn [filter]; [reflexivity |].
  destruct (f x) eqn:E; [| exact IH].
  cbn [filter]. rewrite E, IH. reflexivity.
Qed.

(** X19.  [deleteConversation] of the provider is a change of the
    store alone (it takes no world: no request is sent).  The list keeps
    exactly the entries whose id is not the deleted one, in their order;
    when the deleted id is the active conversation the active pointer
    becomes [null] and the messages are dropped, otherwise both stay;
    the input buffer and the error are never touched; and deleting the
    same id again changes nothing. *)
Theorem deleting_drops_exactly_that_conversation
    (clock clock' : Z) (conversationId : Js.value) (state : State) :
  conversations (Provider.deleteConversation clock conversationId state)
  = filter (fun conv => negb (Js.strictEq (Conv.id conv) conversationId))
           (conversations state)
  /\ (forall conv,
        In conv (conversations (Provider.deleteConversation clock conversationId state))
        <-> In conv (conversations state)
            /\ Js.strictEq (Conv.id conv) conversationId = false)
  /\ activeConversation (Provider.deleteConversation clock conversationId state)
     = (if Js.strictEq (activeConversation state) conversationId
        then Js.Null else activeConversation state)
  /\ messages (Provider.deleteConversation clock conversationId state)
     = (if Js.strictEq (activeConversation state) conversationId
        then [] else messages state)
  /\ inputValue (Provider.deleteConversation clock conversationId state) = inputValue state
  /\ error (Provider.deleteConversation clock conversationId state) = error state
  /\ Provider.deleteConversation clock' conversationId
       (Provider.deleteConversation clock conversationId state)
     = Provider.deleteConversation clock conversationId state.
Proof.
  unfold Provider.deleteConversation, dispatch, chatReducer.
  cbn [type payload String.eqb Ascii.eqb Bool.eqb DELETE_CONVERSATION SEND_MESSAGE_START
       SEND_MESSAGE_SUCCESS SEND_MESSAGE_FAILURE SET_ACTIVE_CONVERSATION LOAD_CONVERSATIONS
       CREATE_CONVERSATION].
  destruct (Js.strictEq (activeConversation state) conversationId) eqn:A.
  - cbn [conversations activeConversation messages inputValue error withMessages
         withActiveConversation withConversations].
    split; [reflexivity |].
    split; [intros conv; rewrite filter_In, negb_true_iff; reflexivity |].
    split; [reflexivity |]. split; [reflexivity |].
    split; [reflexivity |]. split; [reflexivity |].
    rewrite filter_idempotent.
    destruct (Js.strictEq Js.Null conversationId); reflexivity.
  - cbn [conversations activeConversation messages inputValue error withConversations].
    split; [reflexivity |].
    split; [intros conv; rewrite filter_In, negb_true_iff; reflexivity |].
    split; [reflexivity |]. split; [reflexivity |].
    split; [reflexivity |]. split; [reflexivity |].
    rewrite A, filter_idempotent. reflexivity.
Qed.

(** X20.  Leaving the conversation while a send is in flight.  After
    the start of a send, [switchConversation], [createNewConversation]
    and the reset that follows a logout each empty the message list and
    clear the error, but none of them ends the send: [isSending] stays
    set.  When the reply arrives, the success transition puts the two
    messages of the send into the view that was opened since and makes
    the conversation of the reply the active one, whichever of the three
    came between (after a logout too). *)
Theorem reply_after_a_switch_takes_the_view_back
    (clock0 clock1 clock2 : Z) (state : State) (tempId conversationId opened : Js.value)
    (content : string) (userMessage assistantMessage : Msg.t) :
  let started :=
    dispatch clock0 {| type := SEND_MESSAGE_START; payload := StartPayload tempId content |}
             state in
  let reply :=
    dispatch clock2
      {| type := SEND_MESSAGE_SUCCESS;
         payload := SuccessPayload userMessage assistantMessage conversationId |} in
  let switched := Provider.switchConversation clock1 opened started in
  let renewed := Provider.createNewConversation clock1 started in
  let loggedOut := Provider.resetOnLogout clock1 started in
  (activeConversation switched = opened
   /\ messages switched = []
   /\ error switched = None
   /\ lastError switched = None
   /\ isSending switched = true
   /\ conversations switched = conversations state
   /\ inputValue switched = inputValue state)
  /\ (activeConversation renewed = Js.Null
      /\ messages renewed = []
      /\ inputValue renewed = ""
      /\ isSending renewed = true)
  /\ (activeConversation loggedOut = Js.Null
      /\ messages loggedOut = []
      /\ conversations loggedOut = []
      /\ inputValue loggedOut = inputValue state
      /\ isSending loggedOut = true)
  /\ (activeConversation (reply switched) = conversationId
      /\ messages (reply switched)
         = [Msg.withIsTemporary (Js.Bool false) userMessage; assistantMessage])
  /\ (activeConversation (reply renewed) = conversationId
      /\ messages (reply renewed)
         = [Msg.withIsTemporary (Js.Bool false) userMessage; assistantMessage])
  /\ (activeConversation (reply loggedOut) = conversationId
      /\ messages (reply loggedOut)
         = [Msg.withIsTemporary (Js.Bool false) userMessage; assistantMessage]).
Proof.
  cbn zeta. rewrite !dispatch_success, dispatch_start.
  repeat split.
Qed.

Lemma existsb_filter {A : Type} (p f : A -> bool) (l : list A) :
  existsb p l = false -> existsb p (filter f l) = false.
Proof.
  induction l as [|x rest IH]; cbn [filter existsb]; [reflexivity |].
  intros H. apply orb_false_iff in H. destruct H as [Hx Hrest].
  destruct (f x); [cbn [existsb]; rewrite Hx; exact (IH Hrest) | exact (IH Hrest)].
Qed.

(** X21.  Sending never puts a message of type [error] into the list:
    whatever the server answers, when the list held none before a send
    it holds none after it, so [hasErrors] of the conversation summary
    stays false (a failure is kept in the [error] field, not in a
    message); and the summary never counts more user messages than there
    are messages. *)
Theorem summary_stays_free_of_error_messages
    (server : Wire.Server) (isAuthenticated : bool) (userId : Js.value) (fresh : Ids)
    (closed state : State) (content intent : string) (w : Client.World) :
  Provider.hasErrors (Provider.getConversationSummary state) = false ->
  Provider.hasErrors
    (Provider.getConversationSummary
       (snd (sendMessage server isAuthenticated userId fresh closed content intent w state)))
  = false
  /\ 0 <= Provider.messageCount (Provider.getConversationSummary state)
     <= Provider.totalMessages (Provider.getConversationSummary state).
Proof.
  intros H.
  assert (E : existsb (fun msg => Provider.isError (Msg.type msg)) (messages state) = false).
  { unfold Provider.getConversationSummary in H.
    destruct (messages state) as [|m rest]; [reflexivity |].
    cbn [List.length] in H.
    replace (Z.of_nat (S (List.length rest)) =? 0) with false in H
      by (symmetry; apply Z.eqb_neq; lia).
    exact H. }
  split.
  - assert (G : forall state' : State,
               existsb (fun msg => Provider.isError (Msg.type msg)) (messages state') = false ->
               Provider.hasErrors (Provider.getConversationSummary state') = false).
    { intros state' E'. unfold Provider.getConversationSummary.
      destruct (Z.of_nat (List.length (messages state')) =? 0); [reflexivity | exact E']. }
    apply G. unfold sendMessage.
    destruct isAuthenticated; cbn [negb snd]; [| exact E].
    destruct (String.eqb content "" || (Js.length (Js.trim content) =? 0));
      cbn [snd]; [exact E |].
    assert (S : existsb (fun msg => Provider.isError (Msg.type msg))
                  (messages
                     (typingTimer (Client.now w)
                        (Client.now (snd (callApi server userId closed content intent w)))
                        (dispatch (Client.now w)
                           {| type := SEND_MESSAGE_START;
                              payload := StartPayload (Js.Str (freshTempId fresh))
                                                      (Js.trim content) |} state)))
                = false).
    { destruct (typingTimer_frame (Client.now w)
                  (Client.now (snd (callApi server userId closed content intent w)))
                  (dispatch (Client.now w)
                     {| type := SEND_MESSAGE_START;
                        payload := StartPayload (Js.Str (freshTempId fresh))
                                                (Js.trim content) |} state)) as (M & _).
      rewrite M, dispatch_start. cbn [messages withMessages].
      rewrite existsb_app, E. reflexivity. }
    destruct (callApi server userId closed content intent w) as [[answer | thrown |] w'];
      cbn [snd] in S |- *.
    + destruct (negb (Js.truthy (activeConversation closed))
                && Js.truthy (Client.conversationId (Client.data answer)));
        rewrite ?dispatch_load, dispatch_success;
        cbn [messages withMessages withConversations];
        rewrite existsb_app, (existsb_filter _ _ _ S); reflexivity.
    + destruct (describe thrown) as [[errorType errorMessage] errorDetails].
      cbn [snd]. rewrite dispatch_failure. cbn [messages withMessages].
      apply existsb_filter, S.
    + rewrite dispatch_start. cbn [messages withMessages].
      rewrite existsb_app, E. reflexivity.
  - unfold Provider.getConversationSummary.
    destruct (Z.of_nat (List.length (messages state)) =? 0);
      cbn [Provider.messageCount Provider.totalMessages]; [lia |].
    pose proof (filter_length_le
                  (fun msg => Provider.isUser (Msg.type msg)
                              && negb (Js.truthy (Msg.isTemporary msg)))
                  (messages state)).
    lia.
Qed.

(** A failed send from the open conversation of [Cases.typed]. *)
Lemma summary_stays_free_of_error_messages_witness :
  Provider.hasErrors
    (Provider.getConversationSummary
       (snd (sendMessage (Sample.always 401) true (Js.Num 1) Sample.ids Cases.typed
                         "hello" "general" Sample.idle Cases.typed)))
  = false
  /\ 0 <= Provider.messageCount (Provider.getConversationSummary Cases.typed)
     <= Provider.totalMessages (Provider.getConversationSummary Cases.typed).
Proof.
  apply (summary_stays_free_of_error_messages (Sample.always 401) true (Js.Num 1)
           Sample.ids Cases.typed Cases.typed "hello" "general" Sample.idle).
  reflexivity.
Defined.




End ProviderFacts.

(* ------------------------------------------------------------------ *)
(** ** The chat box *)

Module ChatBoxFacts.
Import Chat Terms Outcomes ChatFacts.

(** What [canSendMessage] asks for. *)
Lemma canSendMessage_true isAuthenticated state :
  Provider.canSendMessage isAuthenticated state = true ->
  isAuthenticated = true
  /\ Js.length (Js.trim (inputValue state)) > 0
  /\ Js.length (Js.trim (inputValue state)) <= 4000.
Proof.
  unfold Provider.canSendMessage. intros H.
  repeat (apply andb_true_iff in H; destruct H as [H ?]).
  repeat split; [exact H | |].
  - match goal with G : (_ >? 0) = true |- _ => rewrite Z.gtb_ltb in G; apply Z.ltb_lt in G end.
    lia.
  - match goal with G : (_ <=? 4000) = true |- _ => apply Z.leb_le in G end. lia.
Qed.

(** X23.  A submit the chat box allows passes every check below it.
    When [canSendMessage] holds, [handleSubmit] sends the trimmed input,
    and neither guard of the provider's [sendMessage] throws (the [catch]
    block of [handleSubmit] is never entered); the store ends with
    [isSending] cleared, and either without an error and with the input
    emptied, or with a failure whose type is not [INVALID_INPUT] and not
    [MESSAGE_TOO_LONG]. *)
Theorem allowed_submit_passes_every_check
    (server : Wire.Server) (isAuthenticated : bool) (userId : Js.value) (fresh : Ids)
    (selectedIntent : string) (w : Client.World) (state : State) :
  Provider.canSendMessage isAuthenticated state = true ->
  ChatBox.logged (ChatBox.handleSubmit server isAuthenticated userId fresh selectedIntent
                    w state) = None
  /\ isSending (ChatBox.store (ChatBox.handleSubmit server isAuthenticated userId fresh
                                 selectedIntent w state)) = false
  /\ match lastError (ChatBox.store (ChatBox.handleSubmit server isAuthenticated userId
                                       fresh selectedIntent w state)) with
     | Some failure =>
         lastType failure <> "INVALID_INPUT" /\ lastType failure <> "MESSAGE_TOO_LONG"
     | None =>
         inputValue (ChatBox.store (ChatBox.handleSubmit server isAuthenticated userId
                                      fresh selectedIntent w state)) = ""
     end.
Proof.
  intros H. destruct (canSendMessage_true _ _ H) as (-> & P & L).
  destruct (ProviderFacts.trimmed_passes _ P) as (C & B).
  unfold ChatBox.handleSubmit. rewrite H. cbn [negb orb].
  rewrite <- JsFacts.length_zero.
  replace (Js.length (Js.trim (inputValue state)) =? 0) with false
    by (symmetry; apply Z.eqb_neq; lia).
  unfold sendMessage. cbn [negb].
  rewrite JsFacts.trim_idempotent.
  replace (String.eqb (Js.trim (inputValue state)) ""
           || (Js.length (Js.trim (inputValue state)) =? 0)) with false
    by (symmetry; apply orb_false_iff; split;
        [rewrite <- JsFacts.length_zero |]; apply Z.eqb_neq; lia).
  pose proof (ProviderFacts.callApi_settles server userId state
                (Js.trim (inputValue state)) selectedIntent w) as S.
  destruct (callApi server userId state (Js.trim (inputValue state)) selectedIntent w)
    as [[answer | thrown |] w'] eqn:A.
  - cbn [ChatBox.logged ChatBox.store]. split; [reflexivity |].
    destruct (negb (Js.truthy (activeConversation state))
              && Js.truthy (Client.conversationId (Client.data answer)));
      rewrite ?dispatch_load, dispatch_success; cbn [isSending lastError inputValue
        withConversations withMessages withActiveConversation withInputValue withIsTyping
        withIsSending];
      (split; [reflexivity |]);
      destruct (ProviderFacts.typingTimer_frame (Client.now w) (Client.now w')
                  (dispatch (Client.now w)
                     {| type := SEND_MESSAGE_START;
                        payload := StartPayload (Js.Str (freshTempId fresh))
                                                (Js.trim (inputValue state)) |}
                     (Provider.clearErrors (Client.now w) state)))
        as (_ & _ & _ & _ & _ & Hl & _);
      rewrite Hl; reflexivity.
  - unfold callApi in A. rewrite JsFacts.trim_idempotent in A.
    destruct (ApiFacts.valid_text _ B L) as (E & G).
    destruct (ApiFacts.sendMessage_valid_rejection _ _ _ _ _ _ _ _ E G A)
      as (message & code & details & -> & N1 & N2).
    cbn [describe]. cbn iota beta.
    match goal with
    | |- context [if ?c then ?a else ?b] => generalize (if c then a else b)
    end.
    intros errorMessage.
    cbn [ChatBox.logged ChatBox.store]. rewrite dispatch_failure.
    cbn [isSending lastError withMessages withLastError withError withIsTyping
         withIsSending lastType].
    repeat split; assumption.
  - exfalso. apply S. reflexivity.
Qed.

(** "hello" submitted from [Cases.typed] to a healthy server, and to a
    server that answers 401. *)
Lemma allowed_submit_passes_every_check_witness :
  (ChatBox.logged (ChatBox.handleSubmit Sample.healthyServer true (Js.Num 1) Sample.ids
                     "general" Sample.idle Cases.typed) = None
   /\ inputValue (ChatBox.store (ChatBox.handleSubmit Sample.healthyServer true (Js.Num 1)
                                   Sample.ids "general" Sample.idle Cases.typed)) = "")
  /\ option_map lastType
       (lastError (ChatBox.store (ChatBox.handleSubmit (Sample.always 401) true (Js.Num 1)
                                    Sample.ids "general" Sample.idle Cases.typed)))
     = Some "UNAUTHORIZED".
Proof.
  split.
  - destruct (allowed_submit_passes_every_check Sample.healthyServer true (Js.Num 1)
                Sample.ids "general" Sample.idle Cases.typed) as (L & _ & I).
    + reflexivity.
    + split; [exact L |]. vm_compute in I. vm_compute. exact I.
  - vm_compute. reflexivity.
Defined.

(** X24.  A full tracker blocks the chat box until something else
    prunes it.  When the tracker holds as many timestamps as its ceiling,
    the snapshot [updateRateLimit] stores has no request remaining,
    whatever the clock reads and however old the timestamps are (only a
    request of [chatbotClient] prunes them); with that snapshot
    [canSendMessage] is false and [handleSubmit] does nothing: no request
    is sent, so the tracker stays as it is and the next snapshot is the
    same.  Yet once every timestamp is 60 seconds old the request
    interceptor would let a request through. *)
Theorem full_tracker_blocks_the_chat_box
    (server : Wire.Server) (isAuthenticated : bool) (userId : Js.value) (fresh : Ids)
    (selectedIntent : string) (w : Client.World) (state : State) :
  Z.of_nat (List.length (RateLimit.requests (Client.tracker w)))
  >= RateLimit.maxPerMinute (Client.tracker w) ->
  remaining (rateLimitInfo (Provider.updateRateLimit w state)) = 0
  /\ Provider.isRateLimited (Provider.updateRateLimit w state) = true
  /\ Provider.canSendMessage isAuthenticated (Provider.updateRateLimit w state) = false
  /\ ChatBox.handleSubmit server isAuthenticated userId fresh selectedIntent w
       (Provider.updateRateLimit w state)
     = {| ChatBox.world := w; ChatBox.store := Provider.updateRateLimit w state;
          ChatBox.logged := None |}
  /\ ((forall timestamp, In timestamp (RateLimit.requests (Client.tracker w)) ->
                         timestamp + 60000 <= Client.now w) ->
      0 < RateLimit.maxPerMinute (Client.tracker w) ->
      forall config,
        Client.requestFulfilled config w = (Client.Ok config, recorded w)).
Proof.
  intros F.
  assert (R : remaining (rateLimitInfo (Provider.updateRateLimit w state)) = 0).
  { unfold Provider.updateRateLimit, Api.getRateLimitInfo, dispatch. cbn. lia. }
  assert (C : Provider.canSendMessage isAuthenticated (Provider.updateRateLimit w state)
              = false).
  { unfold Provider.canSendMessage. rewrite R. cbn [Z.gtb Z.compare].
    rewrite andb_false_r. reflexivity. }
  split; [exact R |].
  split; [unfold Provider.isRateLimited; rewrite R; reflexivity |].
  split; [exact C |].
  split; [unfold ChatBox.handleSubmit; rewrite C; reflexivity |].
  intros H P config.
  pose proof (RetryFacts.elapsed_window_is_empty (Client.now w) (Client.tracker w) H) as E.
  unfold Client.requestFulfilled, recorded, RateLimit.canMakeRequest.
  change (filter _ (RateLimit.requests (Client.tracker w)))
    with (RateLimit.window (Client.now w) (Client.tracker w)).
  rewrite E. cbn [fst snd RateLimit.requests RateLimit.maxPerMinute List.length].
  replace (Z.of_nat 0 <? RateLimit.maxPerMinute (Client.tracker w)) with true
    by (symmetry; apply Z.ltb_lt; lia).
  reflexivity.
Qed.

(** The browser of [Sample.recovered]: 100 requests, all of them more
    than a minute old. *)
Lemma full_tracker_blocks_the_chat_box_witness :
  Provider.canSendMessage true (Provider.updateRateLimit Sample.recovered Cases.typed)
  = false
  /\ ChatBox.handleSubmit Sample.healthyServer true (Js.Num 1) Sample.ids "general"
       Sample.recovered (Provider.updateRateLimit Sample.recovered Cases.typed)
     = {| ChatBox.world := Sample.recovered;
          ChatBox.store := Provider.updateRateLimit Sample.recovered Cases.typed;
          ChatBox.logged := None |}
  /\ Client.requestFulfilled Sample.firstTry Sample.recovered
     = (Client.Ok Sample.firstTry, recorded Sample.recovered).
Proof.
  destruct (full_tracker_blocks_the_chat_box Sample.healthyServer true (Js.Num 1) Sample.ids
              "general" Sample.recovered Cases.typed) as (_ & _ & C & H & A).
  - vm_compute. discriminate.
  - split; [exact C |]. split; [exact H |].
    apply A.
    + intros timestamp T. apply repeat_spec in T. subst timestamp. vm_compute. discriminate.
    + reflexivity.
Defined.

End ChatBoxFacts.

(* ------------------------------------------------------------------ *)
(** ** The parts of a message *)

Module ParseFacts.
Import ChatBox Parts.

Local Open Scope nat_scope.

Lemma drop_length n : forall s, String.length (JsText.drop n s) = String.length s - n.
Proof.
  induction n as [|n IH]; intros [|c rest]; cbn [JsText.drop String.length]; try lia.
  rewrite IH. lia.
Qed.

Lemma drop_all s : JsText.drop (String.length s) s = "".
Proof. induction s as [|c rest IH]; [reflexivity | exact IH]. Qed.

Lemma drop_app pre : forall s, JsText.drop (String.length pre) (pre +++ s) = s.
Proof. induction pre as [|c rest IH]; intros s; [reflexivity | apply IH]. Qed.

Lemma drop_add n : forall m s, JsText.drop (n + m) s = JsText.drop m (JsText.drop n s).
Proof.
  induction n as [|n IH]; intros m [|c rest]; cbn [JsText.drop Nat.add]; try reflexivity.
  - destruct m; reflexivity.
  - apply IH.
Qed.

Lemma take_app pre : forall s, JsText.take (String.length pre) (pre +++ s) = pre.
Proof.
  induction pre as [|c rest IH]; intros s; cbn [JsText.take String.length String.append].
  - reflexivity.
  - rewrite IH. reflexivity.
Qed.

Lemma append_length a : forall b, String.length (a +++ b) = String.length a + String.length b.
Proof.
  induction a as [|c rest IH]; intros b; cbn [String.append String.length]; [reflexivity |].
  rewrite IH. reflexivity.
Qed.

Lemma append_assoc a : forall b c, (a +++ b) +++ c = a +++ (b +++ c).
Proof.
  induction a as [|x rest IH]; intros b c; cbn [String.append]; [reflexivity |].
  rewrite IH. reflexivity.
Qed.

Lemma append_empty a : a +++ "" = a.
Proof. induction a as [|x rest IH]; cbn [String.append]; [reflexivity | rewrite IH; reflexivity]. Qed.

(** [startsWith] is the prefix relation. *)
Lemma startsWith_prefix sub : forall s,
  JsText.startsWith sub s = true <-> exists rest, s = sub +++ rest.
Proof.
  induction sub as [|a sub IH]; intros s.
  - cbn. split; [intros _; exists s; reflexivity | reflexivity].
  - destruct s as [|b s]; cbn [JsText.startsWith String.append].
    + split; [discriminate | intros (rest & H); discriminate H].
    + rewrite andb_true_iff, Ascii.eqb_eq, IH. split.
      * intros (-> & rest & ->). exists rest. reflexivity.
      * intros (rest & H). inversion H. split; [reflexivity | exists rest; reflexivity].
Qed.

(** What [wordRun] splits off is a run of word characters, and nothing
    is lost. *)
Lemma wordRun_spec s :
  fst (wordRun s) +++ snd (wordRun s) = s
  /\ allWord (fst (wordRun s)) = true.
Proof.
  induction s as [|c rest (IH & IW)]; cbn [wordRun]; [split; reflexivity |].
  destruct (isWordChar c) eqn:W.
  - destruct (wordRun rest) as [word after]. cbn [fst snd String.append allWord] in *.
    rewrite IH, W, IW. split; reflexivity.
  - split; reflexivity.
Qed.

(** [untilFence] gives the text before the first fence. *)
Lemma untilFence_spec s : forall code,
  untilFence s = Some code ->
  (exists rest, s = code +++ fence +++ rest)
  /\ JsText.includes fence code = false.
Proof.
  induction s as [|c rest IH]; intros code.
  - cbn. discriminate.
  - cbn [untilFence].
    destruct (JsText.startsWith fence (String c rest)) eqn:F.
    + intros H. inversion H. subst code. split; [| reflexivity].
      apply startsWith_prefix in F. destruct F as (tail & F). exists tail. exact F.
    + destruct (untilFence rest) as [code'|]; cbn [option_map]; [| discriminate].
      intros H. inversion H. subst code.
      destruct (IH code' eq_refl) as ((tail & E) & N).
      split; [exists tail; cbn [String.append]; rewrite <- E; reflexivity |].
      cbn [JsText.includes]. rewrite N, orb_false_r.
      destruct (JsText.startsWith fence (String c code')) eqn:G; [| reflexivity].
      apply startsWith_prefix in G. destruct G as (t & G).
      assert (X : JsText.startsWith fence (String c rest) = true).
      { apply startsWith_prefix. exists (t +++ fence +++ tail).
        rewrite E.
        change (String c (code' +++ fence +++ tail))
          with (String c code' +++ fence +++ tail).
        rewrite G. apply append_assoc. }
      rewrite X in F. discriminate F.
Qed.

(** A match at the head of [s] is a fenced block. *)
Lemma matchAt_spec s label code whole :
  matchAt s = Some (label, code, whole) ->
  exists word tail,
    s = block word code +++ tail
    /\ allWord word = true
    /\ label = (match word with EmptyString => None | _ => Some word end)
    /\ whole = 7 + String.length word + String.length code
    /\ JsText.includes fence code = false.
Proof.
  unfold matchAt.
  destruct (JsText.startsWith fence s) eqn:F; [| discriminate].
  apply startsWith_prefix in F. destruct F as (rest & ->).
  change (JsText.drop 3 (fence +++ rest)) with rest.
  destruct (wordRun_spec rest) as (E & W).
  destruct (wordRun rest) as [word after]. cbn [fst snd] in E, W.
  destruct after as [|c body]; [discriminate |].
  destruct c as [[] [] [] [] [] [] [] []]; try discriminate.
  destruct (untilFence body) as [code'|] eqn:U; [| discriminate].
  intros H. inversion H. subst label code whole.
  destruct (untilFence_spec body code' U) as ((tail & B) & N).
  exists word, tail. split; [| split; [exact W | split; [reflexivity | split; [lia | exact N]]]].
  unfold block. rewrite <- E, B.
  rewrite !append_assoc. cbn [String.append]. rewrite !append_assoc. reflexivity.
Qed.

Lemma block_length word code :
  String.length (block word code) = 7 + String.length word + String.length code.
Proof.
  unfold block. rewrite !append_length. cbn [String.length]. rewrite append_length.
  cbn. lia.
Qed.

(** What [execFrom] finds lies in [s], takes at least seven characters,
    and is a fenced block. *)
Lemma execFrom_spec s : forall i m,
  execFrom s i = Some m ->
  i <= index m
  /\ 7 <= whole m
  /\ index m + whole m <= i + String.length s
  /\ JsText.includes fence (code m) = false
  /\ match language m with
     | Some label => label <> "" /\ allWord label = true
     | None => True
     end.
Proof.
  induction s as [|c rest IH]; intros i m; cbn [execFrom].
  - cbn. discriminate.
  - destruct (matchAt (String c rest)) as [[[label body] size]|] eqn:M.
    + intros H. inversion H. subst m. cbn [index whole language code].
      destruct (matchAt_spec _ _ _ _ M) as (word & tail & E & W & L & Hw & N).
      assert (B : size <= String.length (String c rest)).
      { rewrite E, append_length, block_length. lia. }
      split; [lia |]. split; [lia |]. split; [lia |]. split; [exact N |].
      subst label. destruct word; [exact I | split; [discriminate | exact W]].
    + intros H. apply IH in H. cbn [String.length]. destruct H as (A & B & C & D).
      split; [lia |]. split; [lia |]. split; [lia | exact D].
Qed.

Lemma exec_spec content k m :
  k <= String.length content ->
  exec content k = Some m ->
  k <= index m
  /\ 7 <= whole m
  /\ index m + whole m <= String.length content
  /\ JsText.includes fence (code m) = false
  /\ match language m with
     | Some label => label <> "" /\ allWord label = true
     | None => True
     end.
Proof.
  unfold exec. intros K H. apply execFrom_spec in H. rewrite drop_length in H.
  destruct H as (A & B & C & D). split; [lia |]. split; [lia |]. split; [lia | exact D].
Qed.

Lemma take_nonempty n s : 0 < n -> s <> "" -> JsText.take n s <> "".
Proof. destruct n; [lia |]. destruct s; [congruence | discriminate]. Qed.

Lemma drop_nonempty n s : n < String.length s -> JsText.drop n s <> "".
Proof.
  intros H E. apply (f_equal String.length) in E. rewrite drop_length in E. cbn in E. lia.
Qed.

Lemma eqb_nonempty s : s <> "" -> negb (String.eqb s "") = true.
Proof. intros H. destruct s; [congruence | reflexivity]. Qed.

(** The loop with enough fuel: the parts it pushes are proper, and it
    ends because no match is left. *)
Lemma loop_spec fuel : forall content k parts,
  k <= String.length content ->
  String.length content - k < fuel ->
  forallb proper parts = true ->
  forallb proper (fst (loop fuel content k parts)) = true
  /\ k <= snd (loop fuel content k parts) <= String.length content
  /\ exec content (snd (loop fuel content k parts)) = None.
Proof.
  induction fuel as [|fuel IH]; intros content k parts K F P; [lia |].
  cbn [loop].
  destruct (exec content k) as [m|] eqn:E.
  - destruct (exec_spec content k m K E) as (A & B & C & N & L).
    destruct (IH content (index m + whole m)
                (((if k <? index m
                   then parts ++ [TextPart (JsText.slice k (index m) content)]
                   else parts)
                  ++ [CodePart match language m with Some l => l | None => "text" end
                               (code m)])))
      as (P' & R & X).
    + lia.
    + lia.
    + rewrite forallb_app. apply andb_true_iff. split.
      * destruct (k <? index m) eqn:T; [| exact P].
        apply Nat.ltb_lt in T.
        rewrite forallb_app, P. cbn [forallb proper andb].
        rewrite andb_true_r. apply eqb_nonempty. unfold JsText.slice.
        apply take_nonempty; [lia | apply drop_nonempty; lia].
      * cbn [forallb proper]. rewrite N, andb_true_r. cbn [negb].
        rewrite andb_true_r.
        destruct (language m) as [label|]; [| reflexivity].
        destruct L as (L1 & L2). rewrite L2, (eqb_nonempty _ L1). reflexivity.
    + split; [exact P' |]. split; [lia | exact X].
  - cbn [fst snd]. split; [exact P |]. split; [lia | exact E].
Qed.

(** A text without a fence has no match. *)
Lemma execFrom_none s : forall i, JsText.includes fence s = false -> execFrom s i = None.
Proof.
  induction s as [|c rest IH]; intros i H.
  - reflexivity.
  - cbn [JsText.includes] in H. apply orb_false_iff in H. destruct H as (F & R).
    cbn [execFrom]. unfold matchAt. rewrite F. apply IH, R.
Qed.

(** X25.  A message without three backquotes in a row is shown as one
    text part that holds the whole message. *)
Theorem message_without_fence_is_one_text (content : string) :
  JsText.includes fence content = false ->
  parseMessageContent content = [TextPart content].
Proof.
  intros H. unfold parseMessageContent. cbn [loop]. unfold exec.
  change (JsText.drop 0 content) with content.
  rewrite (execFrom_none content 0 H).
  destruct content as [|c rest]; reflexivity.
Qed.

(** A message with single backquotes only. *)
Lemma message_without_fence_is_one_text_witness :
  parseMessageContent "Use `map` and ``filter``." = [TextPart "Use `map` and ``filter``."].
Proof. apply message_without_fence_is_one_text. reflexivity. Defined.

(** X26.  The parts of a message.  [parseMessageContent] never returns
    an empty list; its loop ends because the pattern has no match left
    (a match takes at least seven characters, so the turns the model
    allows are never used up); and for a message that is not empty every
    part is proper: a text part is not empty, the label of a code part is
    a run of word characters that is not empty (the label written after
    the fence, or [text]), and the content of a code part holds no
    fence. *)
Theorem every_part_is_proper (content : string) :
  parseMessageContent content <> []
  /\ exec content (snd (loop (S (String.length content)) content 0 [])) = None
  /\ (content <> "" -> forallb proper (parseMessageContent content) = true).
Proof.
  destruct (loop_spec (S (String.length content)) content 0 [])
    as (P & R & X); [lia | lia | reflexivity |].
  split; [| split; [exact X |]].
  - unfold parseMessageContent.
    destruct (loop (S (String.length content)) content 0 []) as [parts lastIndex].
    destruct (lastIndex <? String.length content).
    + destruct parts; discriminate.
    + destruct parts; discriminate.
  - intros N. unfold parseMessageContent.
    destruct (loop (S (String.length content)) content 0 []) as [parts lastIndex].
    cbn [fst snd] in P, R.
    destruct (lastIndex <? String.length content) eqn:T.
    + apply Nat.ltb_lt in T.
      assert (Q : forallb proper (parts ++ [TextPart (JsText.drop lastIndex content)])
                  = true).
      { rewrite forallb_app, P. cbn [forallb proper andb]. rewrite andb_true_r.
        apply eqb_nonempty, drop_nonempty, T. }
      destruct (parts ++ [TextPart (JsText.drop lastIndex content)]) eqn:Y;
        [destruct parts; discriminate Y | exact Q].
    + destruct parts as [|part parts]; [| exact P].
      cbn [forallb proper andb]. rewrite andb_true_r. apply eqb_nonempty, N.
Qed.

(** A message with one block, and the empty message. *)
Lemma every_part_is_proper_witness :
  forallb proper
    (parseMessageContent ("Try this: " +++ block "" "x = 1" +++ " Done.")) = true
  /\ parseMessageContent "" = [TextPart ""].
Proof.
  split.
  - apply (proj2 (proj2 (every_part_is_proper
                           ("Try this: " +++ block "" "x = 1" +++ " Done.")))).
    discriminate.
  - reflexivity.
Defined.

(** *** A fenced block is split off *)

Lemma noBackquote_head c rest s :
  noBackquote (String c rest) = true ->
  JsText.startsWith fence (String c rest +++ s) = false.
Proof.
  cbn [noBackquote String.append]. intros H. apply andb_true_iff in H.
  destruct H as (H & _). apply negb_true_iff in H.
  unfold fence. cbn [JsText.startsWith]. rewrite Ascii.eqb_sym, H. reflexivity.
Qed.

(** A text without backquotes is skipped by [execFrom]. *)
Lemma execFrom_skip pre : forall s i,
  noBackquote pre = true ->
  execFrom (pre +++ s) i = execFrom s (i + String.length pre).
Proof.
  induction pre as [|c rest IH]; intros s i H.
  - cbn [String.append String.length]. rewrite Nat.add_0_r. reflexivity.
  - pose proof (noBackquote_head c rest s H) as F.
    cbn [String.append] in F |- *. cbn [execFrom]. unfold matchAt. rewrite F.
    cbn [noBackquote] in H. apply andb_true_iff in H. destruct H as (_ & H).
    fold (String.append rest s).
    rewrite IH by exact H. cbn [String.length]. f_equal. lia.
Qed.

Lemma untilFence_block code : forall post,
  noBackquote code = true -> untilFence (code +++ fence +++ post) = Some code.
Proof.
  induction code as [|c rest IH]; intros post H.
  - reflexivity.
  - pose proof (noBackquote_head c rest (fence +++ post) H) as F.
    cbn [String.append] in F |- *. cbn [untilFence]. rewrite F.
    cbn [noBackquote] in H. apply andb_true_iff in H. destruct H as (_ & H).
    fold (String.append rest (fence +++ post)).
    rewrite IH by exact H. reflexivity.
Qed.

Lemma wordRun_block word : forall rest,
  allWord word = true ->
  wordRun (word +++ String "010" rest) = (word, String "010" rest).
Proof.
  induction word as [|c word IH]; intros rest H.
  - reflexivity.
  - cbn [allWord] in H. apply andb_true_iff in H. destruct H as (W & H).
    cbn [String.append wordRun]. rewrite W.
    fold (String.append word (String "010" rest)).
    rewrite IH by exact H. reflexivity.
Qed.

(** The label a code part gets. *)
Lemma matchAt_block word code post :
  allWord word = true ->
  noBackquote code = true ->
  matchAt (block word code +++ post)
  = Some (match word with EmptyString => None | _ => Some word end, code,
          7 + String.length word + String.length code).
Proof.
  intros W B.
  assert (E : block word code +++ post
              = fence +++ word +++ String "010" (code +++ fence +++ post)).
  { unfold block. rewrite !append_assoc. cbn [String.append]. rewrite !append_assoc.
    reflexivity. }
  rewrite E. unfold matchAt.
  change (JsText.startsWith fence (fence +++ word +++ String "010" (code +++ fence +++ post)))
    with true.
  change (JsText.drop 3 (fence +++ word +++ String "010" (code +++ fence +++ post)))
    with (word +++ String "010" (code +++ fence +++ post)).
  cbn iota. rewrite (wordRun_block word _ W), (untilFence_block code post B).
  apply f_equal, f_equal2; [reflexivity | lia].
Qed.

(** Moving the start index moves the index of the match, and nothing
    else. *)
Lemma execFrom_shift s : forall i d,
  execFrom s (i + d)
  = match execFrom s i with
    | Some m => Some {| index := index m + d; whole := whole m; language := language m;
                        code := code m |}
    | None => None
    end.
Proof.
  induction s as [|c rest IH]; intros i d; cbn [execFrom].
  - destruct (matchAt ""); [| reflexivity].
    destruct p as [[label body] size]. reflexivity.
  - destruct (matchAt (String c rest)) as [[[label body] size]|]; [reflexivity |].
    change (S (i + d)) with (S i + d). apply IH.
Qed.

(** The parts already pushed ride along. *)
Lemma loop_parts fuel : forall content k parts,
  loop fuel content k parts
  = (parts ++ fst (loop fuel content k []), snd (loop fuel content k [])).
Proof.
  induction fuel as [|fuel IH]; intros content k parts; cbn [loop].
  - cbn [fst snd]. rewrite app_nil_r. reflexivity.
  - destruct (exec content k) as [m|]; [| cbn [fst snd]; rewrite app_nil_r; reflexivity].
    rewrite IH. symmetry. rewrite IH. cbn [fst snd].
    destruct (k <? index m); cbn [app]; rewrite <- ?app_assoc; reflexivity.
Qed.

(** The loop on the rest of a message, once a prefix is behind it, is
    the loop on that rest alone. *)
Lemma loop_shift prefix post fuel : forall j,
  loop fuel (prefix +++ post) (String.length prefix + j) []
  = (fst (loop fuel post j []), String.length prefix + snd (loop fuel post j [])).
Proof.
  induction fuel as [|fuel IH]; intros j; cbn [loop]; [reflexivity |].
  assert (D : forall n, JsText.drop (String.length prefix + n) (prefix +++ post)
                        = JsText.drop n post).
  { intros n. rewrite drop_add, drop_app. reflexivity. }
  unfold exec. rewrite D, (Nat.add_comm (String.length prefix) j), execFrom_shift.
  destruct (execFrom (JsText.drop j post) j) as [m|];
    [| cbn [fst snd]; rewrite Nat.add_comm; reflexivity].
  cbn [index whole language code].
  replace (j + String.length prefix <? index m + String.length prefix) with (j <? index m)
    by (destruct (j <? index m) eqn:T; symmetry;
        [apply Nat.ltb_lt; apply Nat.ltb_lt in T | apply Nat.ltb_ge; apply Nat.ltb_ge in T];
        lia).
  replace (JsText.slice (j + String.length prefix) (index m + String.length prefix)
             (prefix +++ post))
    with (JsText.slice j (index m) post)
    by (unfold JsText.slice; rewrite (Nat.add_comm j), D; f_equal; lia).
  replace (index m + String.length prefix + whole m)
    with (String.length prefix + (index m + whole m)) by lia.
  rewrite loop_parts, IH. symmetry. rewrite loop_parts. reflexivity.
Qed.

(** With enough fuel the loop does not depend on the fuel. *)
Lemma loop_fuel fuel1 : forall fuel2 content k parts,
  k <= String.length content ->
  String.length content - k < fuel1 ->
  String.length content - k < fuel2 ->
  loop fuel1 content k parts = loop fuel2 content k parts.
Proof.
  induction fuel1 as [|fuel1 IH]; intros fuel2 content k parts K F1 F2; [lia |].
  destruct fuel2 as [|fuel2]; [lia |]. cbn [loop].
  destruct (exec content k) as [m|] eqn:E; [| reflexivity].
  destruct (exec_spec content k m K E) as (A & B & C & _).
  apply IH; lia.
Qed.

(** A loop that pushed nothing did not move. *)
Lemma loop_idle fuel content k :
  fst (loop fuel content k []) = [] -> snd (loop fuel content k []) = k.
Proof.
  destruct fuel as [|fuel]; cbn [loop]; [reflexivity |].
  destruct (exec content k) as [m|]; [| reflexivity].
  rewrite loop_parts. cbn [fst]. intros H. apply app_eq_nil in H. destruct H as (H & _).
  destruct (k <? index m); [apply app_eq_nil in H; destruct H as (H & _) |];
    discriminate H.
Qed.

Lemma execFrom_match s i label body size :
  matchAt s = Some (label, body, size) ->
  execFrom s i = Some {| index := i; whole := size; language := label; code := body |}.
Proof. intros H. destruct s; cbn [execFrom]; rewrite H; reflexivity. Qed.

Lemma loop_empty fuel : loop fuel "" 0 [] = ([], 0).
Proof. destruct fuel; reflexivity. Qed.

(** X27.  A fenced block is split off.  For a message made of a text
    without backquotes, a fenced block (fence, a label of word
    characters or none, a line feed, a code without backquotes, fence)
    and any rest, [parseMessageContent] gives the text as a text part
    (none when it is empty), the code as a code part under its label
    ([text] when the block has none), and then the parts of the rest
    (none when it is empty): the scan goes on after the closing fence as
    if the rest were a message of its own. *)
Theorem fenced_block_is_split_off (pre label body post : string) :
  noBackquote pre = true ->
  allWord label = true ->
  noBackquote body = true ->
  parseMessageContent (pre +++ block label body +++ post)
  = (if String.eqb pre "" then [] else [TextPart pre])
    ++ [CodePart (if String.eqb label "" then "text" else label) body]
    ++ (if String.eqb post "" then [] else parseMessageContent post).
Proof.
  intros P W B.
  pose (prefix := pre +++ block label body).
  assert (C : pre +++ block label body +++ post = prefix +++ post)
    by (unfold prefix; rewrite append_assoc; reflexivity).
  assert (Lp : String.length prefix
               = String.length pre + (7 + String.length label + String.length body))
    by (unfold prefix; rewrite append_length, block_length; reflexivity).
  assert (X : exec (prefix +++ post) 0
              = Some {| index := String.length pre;
                        whole := 7 + String.length label + String.length body;
                        language := match label with EmptyString => None | _ => Some label end;
                        code := body |}).
  { rewrite <- C. unfold exec. change (JsText.drop 0 ?s) with s.
    rewrite (execFrom_skip pre _ 0 P).
    apply execFrom_match, matchAt_block; assumption. }
  assert (Sl : JsText.slice 0 (String.length pre) (prefix +++ post) = pre).
  { rewrite <- C. unfold JsText.slice. rewrite Nat.sub_0_r.
    change (JsText.drop 0 ?s) with s. apply take_app. }
  rewrite C. remember (parseMessageContent post) as rest eqn:R.
  unfold parseMessageContent. cbn [loop]. rewrite X.
  cbn [index whole language code]. rewrite Sl.
  rewrite loop_parts.
  rewrite <- Lp, <- (Nat.add_0_r (String.length prefix)), loop_shift.
  rewrite (loop_fuel _ (S (String.length post)) post 0 [])
    by (rewrite ?append_length; lia).
  rewrite ?Nat.add_0_r.
  pose proof (loop_idle (S (String.length post)) post 0) as Idle.
  unfold parseMessageContent in R.
  destruct (loop (S (String.length post)) post 0 []) as [parts lastIndex] eqn:Lo.
  cbn [fst snd] in *.
  assert (H : (if 0 <? String.length pre then [] ++ [TextPart pre] else [])
              ++ [CodePart match match label with
                                 | EmptyString => None
                                 | _ => Some label
                                 end with
                           | Some l => l
                           | None => "text"
                           end body]
              = (if String.eqb pre "" then [] else [TextPart pre])
                ++ [CodePart (if String.eqb label "" then "text" else label) body])
    by (destruct pre, label; reflexivity).
  rewrite H, (app_assoc _ [CodePart _ body]).
  set (head := (if String.eqb pre "" then [] else [TextPart pre])
               ++ [CodePart (if String.eqb label "" then "text" else label) body]).
  replace (String.length prefix + lastIndex <? String.length (prefix +++ post))
    with (lastIndex <? String.length post)
    by (rewrite append_length;
        destruct (lastIndex <? String.length post) eqn:Q; symmetry;
        [apply Nat.ltb_lt; apply Nat.ltb_lt in Q | apply Nat.ltb_ge; apply Nat.ltb_ge in Q];
        lia).
  replace (JsText.drop (String.length prefix + lastIndex) (prefix +++ post))
    with (JsText.drop lastIndex post)
    by (rewrite drop_add, drop_app; reflexivity).
  assert (Hh : head <> []) by (unfold head; destruct (String.eqb pre ""); discriminate).
  destruct post as [|c post'].
  - rewrite loop_empty in Lo. inversion Lo. subst parts lastIndex.
    cbn [String.length Nat.ltb Nat.leb String.eqb]. rewrite !app_nil_r.
    destruct head; [congruence | reflexivity].
  - cbn [String.eqb].
    set (tail := if lastIndex <? String.length (String c post')
                 then parts ++ [TextPart (JsText.drop lastIndex (String c post'))]
                 else parts) in *.
    assert (N : tail <> []).
    { unfold tail. destruct (lastIndex <? String.length (String c post')) eqn:Q.
      - destruct parts; discriminate.
      - destruct parts; [| discriminate].
        rewrite (Idle eq_refl) in Q. discriminate Q. }
    assert (G : (if lastIndex <? String.length (String c post')
                 then (head ++ parts) ++ [TextPart (JsText.drop lastIndex (String c post'))]
                 else head ++ parts) = head ++ tail)
      by (unfold tail; destruct (lastIndex <? String.length (String c post'));
          rewrite <- ?app_assoc; reflexivity).
    rewrite G.
    assert (Rt : rest = tail) by (rewrite R; destruct tail; [congruence | reflexivity]).
    rewrite Rt.
    destruct (head ++ tail) eqn:Y; [| reflexivity].
    apply app_eq_nil in Y. destruct Y as (_ & Y). congruence.
Qed.

(** A message with a Python block between two lines of text. *)
Lemma fenced_block_is_split_off_witness :
  parseMessageContent
    ("Try this: " +++ block "python" (String "x" (String " " (String "=" (String " " "1"))))
     +++ " Done.")
  = [TextPart "Try this: "; CodePart "python" "x = 1"; TextPart " Done."].
Proof.
  rewrite (fenced_block_is_split_off "Try this: " "python" "x = 1" " Done.");
    reflexivity.
Defined.

End ParseFacts.

(* ------------------------------------------------------------------ *)
(** ** The list of the sidebar *)

Module SidebarFacts.
Import Chat Sidebar Order.

Lemma compare_notOlder a b : (compare a b <=? 0) = true <-> notOlder a b.
Proof. unfold compare, notOlder. rewrite Z.leb_le. lia. Qed.

Lemma insert_perm a l : Permutation (insert a l) (a :: l).
Proof.
  induction l as [|b rest IH]; cbn [insert]; [reflexivity |].
  destruct (compare a b <=? 0); [reflexivity |].
  rewrite IH. apply perm_swap.
Qed.

Lemma sort_perm l : Permutation (sort l) l.
Proof.
  induction l as [|a rest IH]; [reflexivity |].
  unfold sort in *. cbn [fold_right]. rewrite insert_perm, IH. reflexivity.
Qed.

Lemma insert_sorted a l :
  StronglySorted notOlder l -> StronglySorted notOlder (insert a l).
Proof.
  induction l as [|b rest IH]; intros S; cbn [insert].
  - constructor; constructor.
  - inversion S as [|b' rest' Sr Fb]; subst.
    destruct (compare a b <=? 0) eqn:C.
    + apply compare_notOlder in C. constructor; [exact S |].
      constructor; [exact C |].
      eapply Forall_impl; [| exact Fb]. unfold notOlder in *. intros x Hx. lia.
    + constructor; [apply IH, Sr |].
      eapply Permutation_Forall; [symmetry; apply insert_perm |].
      constructor; [| exact Fb].
      unfold compare in C. apply Z.leb_gt in C. unfold notOlder. lia.
Qed.

Lemma sort_sorted l : StronglySorted notOlder (sort l).
Proof.
  induction l as [|a rest IH]; [constructor |].
  unfold sort in *. cbn [fold_right]. apply insert_sorted, IH.
Qed.

(** A list that is in order already is left as it is: entries updated
    at the same time keep their places. *)
Lemma sort_of_sorted l : StronglySorted notOlder l -> sort l = l.
Proof.
  induction l as [|a rest IH]; intros S; [reflexivity |].
  inversion S as [|a' rest' Sr Fa]; subst.
  unfold sort in *. cbn [fold_right]. rewrite (IH Sr).
  destruct rest as [|b rest]; [reflexivity |].
  cbn [insert]. inversion Fa as [|b' rest' Hb _]; subst.
  apply compare_notOlder in Hb. rewrite Hb. reflexivity.
Qed.

(** The two filters of the sidebar are one filter. *)
Lemma filtered_shows conversations activeFilter searchTerm :
  fst (filtered conversations activeFilter searchTerm)
  = filter (shows activeFilter searchTerm) conversations.
Proof.
  unfold filtered, shows.
  assert (A : forall (p : Conv.t -> bool) (l : list Conv.t),
             filter (fun conv => p conv && true) l = filter p l)
    by (intros p l; apply filter_ext; intros conv; apply andb_true_r).
  assert (T : forall l : list Conv.t, filter (fun _ => true) l = l)
    by (induction l as [|x l IH]; cbn [filter]; [| rewrite IH]; reflexivity).
  assert (F : forall (p q : Conv.t -> bool) (l : list Conv.t),
             filter q (filter p l) = filter (fun conv => p conv && q conv) l).
  { intros p q. induction l as [|x l IH]; cbn [filter]; [reflexivity |].
    destruct (p x); cbn [filter andb]; [destruct (q x) |]; rewrite IH; reflexivity. }
  destruct (String.eqb activeFilter "active");
    [| destruct (String.eqb activeFilter "archived")];
    destruct (String.eqb (Js.trim searchTerm) ""); cbn [negb fst andb];
    rewrite ?A, ?T, ?F; reflexivity.
Qed.

(** X28.  The list of the sidebar.  Whatever the store holds,
    [filteredConversations] shows exactly the conversations that pass
    the status filter and the search, each as often as the store holds
    it, ordered by [updated_at] with the most recent first; a
    conversation passes the search when the search term is blank or its
    lower-case form occurs in the lower-case title; and entries that are
    in that order already keep their places. *)
Theorem sidebar_shows_the_matches_most_recent_first
    (conversations : list Conv.t) (activeFilter searchTerm : string) :
  Permutation (filteredConversations conversations activeFilter searchTerm)
              (filter (shows activeFilter searchTerm) conversations)
  /\ StronglySorted notOlder (filteredConversations conversations activeFilter searchTerm)
  /\ (forall conv,
        In conv (filteredConversations conversations activeFilter searchTerm)
        <-> In conv conversations /\ shows activeFilter searchTerm conv = true)
  /\ (StronglySorted notOlder (filter (shows activeFilter searchTerm) conversations) ->
      filteredConversations conversations activeFilter searchTerm
      = filter (shows activeFilter searchTerm) conversations).
Proof.
  unfold filteredConversations. rewrite filtered_shows.
  split; [apply sort_perm |]. split; [apply sort_sorted |]. split.
  - intros conv. rewrite <- filter_In. split; apply Permutation_in;
      [apply sort_perm | symmetry; apply sort_perm].
  - apply sort_of_sorted.
Qed.

(** The three conversations of [Cases.listed], with the filter [all] and
    no search, and with a search for "RUST". *)
Lemma sidebar_shows_the_matches_most_recent_first_witness :
  filteredConversations [Cases.sorting; Cases.parsing; Cases.greeting] "all" ""
  = [Cases.sorting; Cases.parsing; Cases.greeting]
  /\ (In Cases.parsing (filteredConversations (conversations Cases.listed) "active" "RUST")
      <-> In Cases.parsing (conversations Cases.listed)
          /\ shows "active" "RUST" Cases.parsing = true).
Proof.
  split.
  - apply (proj2 (proj2 (proj2 (sidebar_shows_the_matches_most_recent_first
                                  [Cases.sorting; Cases.parsing; Cases.greeting] "all" "")))).
    cbn. repeat constructor; unfold notOlder; cbn; lia.
  - apply (proj1 (proj2 (proj2 (sidebar_shows_the_matches_most_recent_first
                                  (conversations Cases.listed) "active" "RUST")))).
Defined.

Lemma isWhiteSpace_lower c : Js.isWhiteSpace (JsText.lowerChar c) = Js.isWhiteSpace c.
Proof. destruct c as [[] [] [] [] [] [] [] []]; reflexivity. Qed.

Lemma allWhiteSpace_lower s : Js.allWhiteSpace (JsText.toLowerCase s) = Js.allWhiteSpace s.
Proof.
  induction s as [|c rest IH]; cbn [JsText.toLowerCase Js.allWhiteSpace]; [reflexivity |].
  rewrite isWhiteSpace_lower, IH. reflexivity.
Qed.

Lemma trim_blank_iff s : String.eqb (Js.trim s) "" = Js.allWhiteSpace s.
Proof.
  destruct (Js.allWhiteSpace s) eqn:B.
  - rewrite (ValidationFacts.trim_blank s B). reflexivity.
  - rewrite <- JsFacts.length_zero. apply ValidationFacts.trim_not_blank, B.
Qed.

(** X29.  The search of the sidebar ignores the case of the search
    term: two terms with the same lower-case form give the same list,
    whatever the store holds and whatever the status filter is. *)
Theorem search_ignores_the_case_of_the_term
    (conversations : list Conv.t) (activeFilter term term' : string) :
  JsText.toLowerCase term = JsText.toLowerCase term' ->
  filteredConversations conversations activeFilter term
  = filteredConversations conversations activeFilter term'.
Proof.
  intros H. unfold filteredConversations. rewrite !filtered_shows.
  f_equal. apply filter_ext. intros conv. unfold shows.
  rewrite !trim_blank_iff, <- (allWhiteSpace_lower term), <- (allWhiteSpace_lower term'), H.
  reflexivity.
Qed.

(** The terms "RUST" and "rust". *)
Lemma search_ignores_the_case_of_the_term_witness :
  filteredConversations (conversations Cases.listed) "all" "RUST"
  = filteredConversations (conversations Cases.listed) "all" "rust".
Proof. apply search_ignores_the_case_of_the_term. reflexivity. Defined.

(** X30.  Rendering the sidebar sorts the list of the store.  With a
    status filter other than [active] and [archived] and a blank search
    term, no copy of the list is made, and the sort, which works in
    place, leaves the array of the store itself ordered by [updated_at],
    most recent first: the store then holds what the sidebar shows, a
    rearrangement of what it held.  With one of the two filters or with a
    search term the store is left as it was. *)
Theorem rendering_sorts_the_stored_list
    (conversations : list Conv.t) (activeFilter searchTerm : string) :
  (String.eqb activeFilter "active" = false ->
   String.eqb activeFilter "archived" = false ->
   Js.allWhiteSpace searchTerm = true ->
   conversationsAfter conversations activeFilter searchTerm
   = filteredConversations conversations activeFilter searchTerm
   /\ StronglySorted notOlder (conversationsAfter conversations activeFilter searchTerm)
   /\ Permutation (conversationsAfter conversations activeFilter searchTerm) conversations)
  /\ (String.eqb activeFilter "active" = true
      \/ String.eqb activeFilter "archived" = true
      \/ Js.allWhiteSpace searchTerm = false ->
      conversationsAfter conversations activeFilter searchTerm = conversations).
Proof.
  unfold conversationsAfter, filteredConversations, filtered.
  rewrite trim_blank_iff. split.
  - intros A1 A2 B. rewrite A1, A2, B. cbn [negb fst snd].
    split; [reflexivity |]. split; [apply sort_sorted | apply sort_perm].
  - intros [A | [A | B]].
    + rewrite A. destruct (Js.allWhiteSpace searchTerm); reflexivity.
    + rewrite A. destruct (String.eqb activeFilter "active");
        destruct (Js.allWhiteSpace searchTerm); reflexivity.
    + rewrite B. cbn [negb].
      destruct (String.eqb activeFilter "active");
        [| destruct (String.eqb activeFilter "archived")]; reflexivity.
Qed.

(** The store of [Cases.listed], whose list has the oldest update
    first. *)
Lemma rendering_sorts_the_stored_list_witness :
  conversationsAfter (conversations Cases.listed) "all" ""
  = [Cases.sorting; Cases.parsing; Cases.greeting]
  /\ conversationsAfter (conversations Cases.listed) "active" ""
     = [Cases.greeting; Cases.parsing; Cases.sorting].
Proof.
  split.
  - destruct (proj1 (rendering_sorts_the_stored_list (conversations Cases.listed) "all" ""))
      as (E & _); [reflexivity.. |].
    rewrite E. reflexivity.
  - apply (proj2 (rendering_sorts_the_stored_list (conversations Cases.listed) "active" "")).
    left. reflexivity.
Defined.

End SidebarFacts.
